(** * terraform-provider-netactuate: the in-memory fake backend and the
      provider configuration, embedded from the Go sources

    [netactuate/testing_fake.go] holds the only stateful component of the
    provider: [FakeClient], an implementation of [ClientInterface] over Go
    maps.  The maps become [gmap]s keyed by the Go [int] ids, the struct
    becomes a record, every method becomes a function from the state before
    the call to the state after it paired with the Go result tuple.  The
    mutex only serialises callers and has no counterpart here: one call runs
    to its end before the next starts. *)

From Stdlib Require Import ZArith String Ascii List Lia Bool.
From Stdlib Require DecimalString HexadecimalString.
From stdpp Require Import gmap strings list.

Open Scope Z_scope.

(** ** Go's [int] and [fmt] verbs *)

Module GoInt.

(** The width of [int] depends on the target; it is taken at 64 bits, as
    on amd64 and arm64.  Only the bound at which a counter overflows
    depends on it. *)
Definition bits : Z := 64.
Definition MinInt : Z := - 2 ^ (bits - 1).
Definition MaxInt : Z := 2 ^ (bits - 1) - 1.

(** Two's-complement wrap-around of a mathematical result. *)
Definition wrap (z : Z) : Z := (z - MinInt) mod 2 ^ bits + MinInt.

Definition in_range (z : Z) : Prop := MinInt <= z <= MaxInt.

(** [x++] *)
Definition incr (x : Z) : Z := wrap (x + 1).

(** [x % y]: the remainder takes the sign of the dividend. *)
Definition rem (x y : Z) : Z := Z.rem x y.

End GoInt.

Module fmt.

(** [%d] *)
Definition d (z : Z) : string :=
  DecimalString.NilZero.string_of_int (Z.to_int z).

(** [%x]: lower-case digits, a minus sign for negative values. *)
Definition x (z : Z) : string :=
  HexadecimalString.NilZero.string_of_int (Z.to_hex_int z).

(** [%v] at type [bool] *)
Definition v (b : bool) : string := if b then "true" else "false".

End fmt.

(** [strings.Contains] *)
Fixpoint Contains (s substr : string) : bool :=
  String.prefix substr s
  || match s with
     | EmptyString => false
     | String _ rest => Contains rest substr
     end.

(** ** Error values

    An [error] is either a plain message ([errors.New], [fmt.Errorf] without
    [%w]) or a message wrapping an inner error. *)

Inductive error : Type :=
| errorString (msg : string)
| wrapError (msg : string) (inner : error).

Definition Error (e : error) : string :=
  match e with
  | errorString msg => msg
  | wrapError msg _ => msg
  end.

(** The tests recognise a missing entity by the text of the error. *)
Definition is_not_found (e : error) : bool := Contains (Error e) "not found".

(** ** The structs of the API client library that the fake stores *)

Record Server := mkServer {
  Server_ID : Z;
  Server_Name : string;
  Server_OS : string;
  Server_OSID : Z;
  PrimaryIPv4 : string;
  PrimaryIPv6 : string;
  PlanID : Z;
  Package : string;
  Server_PackageBilling : string;
  Server_PackageBillingContractId : string;
  Server_Location : string;
  Server_LocationID : Z;
  ServerStatus : string;
  PowerStatus : string;
  Installed : Z;
  CloudPool : string
}.

Record ServerBuild := mkServerBuild {
  ServerID : Z;
  Status : string;
  Build : Z
}.

Record CreateServerRequest := mkCreateServerRequest {
  Plan : string;
  Location : Z;
  Image : Z;
  FQDN : string;
  PackageBilling : string;
  PackageBillingContractId : string
}.

Record BuildServerRequest := mkBuildServerRequest {
  Build_Location : Z;
  Build_Image : Z;
  Build_FQDN : string;
  Build_PackageBilling : string;
  Build_PackageBillingContractId : string
}.

Record SSHKey := mkSSHKey {
  SSHKey_ID : Z;
  SSHKey_Name : string;
  Key : string;
  Fingerprint : string
}.

Record BGPSession := mkBGPSession {
  BGP_ID : Z;
  CustomerIP : string;
  GroupID : Z;
  Locked : Z;
  Description : string;
  State : string;
  RoutesReceived : Z;
  ConfigStatus : Z;
  ProviderPeerIP : string;
  BGP_Location : string;
  GroupName : string;
  ProviderIPType : string;
  ProviderAsn : Z;
  CustomerAsn : Z
}.

Record IP := mkIP {
  IP_ID : Z;
  IP_IP : string;
  Primary : Z;
  Gateway : string;
  Netmask : string;
  Broadcast : string;
  Reverse : string
}.

Record IPs := mkIPs {
  IPv4 : list IP;
  IPv6 : list IP
}.

Record Location_t := mkLocation {
  Location_ID : Z;
  Location_Name : string;
  IATACode : string;
  Continent : string;
  Flag : string;
  Disabled : Z
}.

Record OS := mkOS {
  OS_ID : Z;
  Os : string;
  OS_Type : string;
  Subtype : string;
  Size : string;
  Bits : string;
  Tech : string
}.

(** Zero values, returned next to a non-nil error. *)
Definition zero_Server : Server :=
  mkServer 0 "" "" 0 "" "" 0 "" "" "" "" 0 "" "" 0 "".
Definition zero_ServerBuild : ServerBuild := mkServerBuild 0 "" 0.
Definition zero_SSHKey : SSHKey := mkSSHKey 0 "" "" "".
Definition zero_IPs : IPs := mkIPs [] [].

(** Field assignments on a [Server] value. *)
Definition with_Name (s : string) (sv : Server) : Server :=
  mkServer (Server_ID sv) s (Server_OS sv) (Server_OSID sv) (PrimaryIPv4 sv)
    (PrimaryIPv6 sv) (PlanID sv) (Package sv) (Server_PackageBilling sv)
    (Server_PackageBillingContractId sv) (Server_Location sv)
    (Server_LocationID sv) (ServerStatus sv) (PowerStatus sv) (Installed sv)
    (CloudPool sv).

Definition with_OS (s : string) (sv : Server) : Server :=
  mkServer (Server_ID sv) (Server_Name sv) s (Server_OSID sv) (PrimaryIPv4 sv)
    (PrimaryIPv6 sv) (PlanID sv) (Package sv) (Server_PackageBilling sv)
    (Server_PackageBillingContractId sv) (Server_Location sv)
    (Server_LocationID sv) (ServerStatus sv) (PowerStatus sv) (Installed sv)
    (CloudPool sv).

Definition with_OSID (z : Z) (sv : Server) : Server :=
  mkServer (Server_ID sv) (Server_Name sv) (Server_OS sv) z (PrimaryIPv4 sv)
    (PrimaryIPv6 sv) (PlanID sv) (Package sv) (Server_PackageBilling sv)
    (Server_PackageBillingContractId sv) (Server_Location sv)
    (Server_LocationID sv) (ServerStatus sv) (PowerStatus sv) (Installed sv)
    (CloudPool sv).

Definition with_PackageBilling (s : string) (sv : Server) : Server :=
  mkServer (Server_ID sv) (Server_Name sv) (Server_OS sv) (Server_OSID sv)
    (PrimaryIPv4 sv) (PrimaryIPv6 sv) (PlanID sv) (Package sv) s
    (Server_PackageBillingContractId sv) (Server_Location sv)
    (Server_LocationID sv) (ServerStatus sv) (PowerStatus sv) (Installed sv)
    (CloudPool sv).

Definition with_PackageBillingContractId (s : string) (sv : Server) : Server :=
  mkServer (Server_ID sv) (Server_Name sv) (Server_OS sv) (Server_OSID sv)
    (PrimaryIPv4 sv) (PrimaryIPv6 sv) (PlanID sv) (Package sv)
    (Server_PackageBilling sv) s (Server_Location sv)
    (Server_LocationID sv) (ServerStatus sv) (PowerStatus sv) (Installed sv)
    (CloudPool sv).

Definition with_Location (s : string) (sv : Server) : Server :=
  mkServer (Server_ID sv) (Server_Name sv) (Server_OS sv) (Server_OSID sv)
    (PrimaryIPv4 sv) (PrimaryIPv6 sv) (PlanID sv) (Package sv)
    (Server_PackageBilling sv) (Server_PackageBillingContractId sv) s
    (Server_LocationID sv) (ServerStatus sv) (PowerStatus sv) (Installed sv)
    (CloudPool sv).

Definition with_LocationID (z : Z) (sv : Server) : Server :=
  mkServer (Server_ID sv) (Server_Name sv) (Server_OS sv) (Server_OSID sv)
    (PrimaryIPv4 sv) (PrimaryIPv6 sv) (PlanID sv) (Package sv)
    (Server_PackageBilling sv) (Server_PackageBillingContractId sv)
    (Server_Location sv) z (ServerStatus sv) (PowerStatus sv) (Installed sv)
    (CloudPool sv).

Definition with_ServerStatus (s : string) (sv : Server) : Server :=
  mkServer (Server_ID sv) (Server_Name sv) (Server_OS sv) (Server_OSID sv)
    (PrimaryIPv4 sv) (PrimaryIPv6 sv) (PlanID sv) (Package sv)
    (Server_PackageBilling sv) (Server_PackageBillingContractId sv)
    (Server_Location sv) (Server_LocationID sv) s (PowerStatus sv)
    (Installed sv) (CloudPool sv).

(** ** The fake backend *)

Record FakeClient := mkFakeClient {
  servers : gmap Z Server;
  sshKeys : gmap Z SSHKey;
  bgpSessions : gmap Z (list BGPSession);
  ips : gmap Z IPs;
  locations : list Location_t;
  oses : list OS;
  nextServerID : Z;
  nextSSHKeyID : Z;
  nextBGPSessionID : Z;
  (* Configurable errors: [None] is Go's nil. *)
  CreateServerError : option error;
  GetServerError : option error;
  BuildServerError : option error;
  DeleteServerError : option error;
  UnlinkServerError : option error;
  CreateSSHKeyError : option error;
  GetSSHKeyError : option error;
  DeleteSSHKeyError : option error;
  CreateBGPSessionsError : option error;
  GetBGPSessionsError : option error;
  GetIPsError : option error;
  GetLocationsError : option error;
  GetOSsError : option error;
  (* Call tracking *)
  calls : list string
}.

(** Everything the backend records about entities: the maps, the reference
    lists and the three id counters.  The injected errors and the call log
    are left out. *)
Record Entities := mkEntities {
  e_servers : gmap Z Server;
  e_sshKeys : gmap Z SSHKey;
  e_bgpSessions : gmap Z (list BGPSession);
  e_ips : gmap Z IPs;
  e_locations : list Location_t;
  e_oses : list OS;
  e_nextServerID : Z;
  e_nextSSHKeyID : Z;
  e_nextBGPSessionID : Z
}.

Definition entities (f : FakeClient) : Entities :=
  mkEntities (servers f) (sshKeys f) (bgpSessions f) (ips f) (locations f)
    (oses f) (nextServerID f) (nextSSHKeyID f) (nextBGPSessionID f).

(** The thirteen injected-error fields, in declaration order. *)
Definition injected (f : FakeClient) : list (option error) :=
  [CreateServerError f; GetServerError f; BuildServerError f;
   DeleteServerError f; UnlinkServerError f; CreateSSHKeyError f;
   GetSSHKeyError f; DeleteSSHKeyError f; CreateBGPSessionsError f;
   GetBGPSessionsError f; GetIPsError f; GetLocationsError f; GetOSsError f].

(** Rebuilding the struct around changed entity fields or a changed log. *)
Definition with_entities (e : Entities) (f : FakeClient) : FakeClient :=
  mkFakeClient (e_servers e) (e_sshKeys e) (e_bgpSessions e) (e_ips e)
    (e_locations e) (e_oses e) (e_nextServerID e) (e_nextSSHKeyID e)
    (e_nextBGPSessionID e)
    (CreateServerError f) (GetServerError f) (BuildServerError f)
    (DeleteServerError f) (UnlinkServerError f) (CreateSSHKeyError f)
    (GetSSHKeyError f) (DeleteSSHKeyError f) (CreateBGPSessionsError f)
    (GetBGPSessionsError f) (GetIPsError f) (GetLocationsError f)
    (GetOSsError f) (calls f).

Definition set_servers (m : gmap Z Server) (f : FakeClient) : FakeClient :=
  with_entities
    (mkEntities m (sshKeys f) (bgpSessions f) (ips f) (locations f) (oses f)
       (nextServerID f) (nextSSHKeyID f) (nextBGPSessionID f)) f.

Definition set_sshKeys (m : gmap Z SSHKey) (f : FakeClient) : FakeClient :=
  with_entities
    (mkEntities (servers f) m (bgpSessions f) (ips f) (locations f) (oses f)
       (nextServerID f) (nextSSHKeyID f) (nextBGPSessionID f)) f.

Definition set_bgpSessions (m : gmap Z (list BGPSession)) (f : FakeClient)
  : FakeClient :=
  with_entities
    (mkEntities (servers f) (sshKeys f) m (ips f) (locations f) (oses f)
       (nextServerID f) (nextSSHKeyID f) (nextBGPSessionID f)) f.

Definition set_ips (m : gmap Z IPs) (f : FakeClient) : FakeClient :=
  with_entities
    (mkEntities (servers f) (sshKeys f) (bgpSessions f) m (locations f)
       (oses f) (nextServerID f) (nextSSHKeyID f) (nextBGPSessionID f)) f.

Definition set_locations (l : list Location_t) (f : FakeClient) : FakeClient :=
  with_entities
    (mkEntities (servers f) (sshKeys f) (bgpSessions f) (ips f) l (oses f)
       (nextServerID f) (nextSSHKeyID f) (nextBGPSessionID f)) f.

Definition set_oses (l : list OS) (f : FakeClient) : FakeClient :=
  with_entities
    (mkEntities (servers f) (sshKeys f) (bgpSessions f) (ips f) (locations f)
       l (nextServerID f) (nextSSHKeyID f) (nextBGPSessionID f)) f.

Definition set_nextServerID (z : Z) (f : FakeClient) : FakeClient :=
  with_entities
    (mkEntities (servers f) (sshKeys f) (bgpSessions f) (ips f) (locations f)
       (oses f) z (nextSSHKeyID f) (nextBGPSessionID f)) f.

Definition set_nextSSHKeyID (z : Z) (f : FakeClient) : FakeClient :=
  with_entities
    (mkEntities (servers f) (sshKeys f) (bgpSessions f) (ips f) (locations f)
       (oses f) (nextServerID f) z (nextBGPSessionID f)) f.

Definition set_nextBGPSessionID (z : Z) (f : FakeClient) : FakeClient :=
  with_entities
    (mkEntities (servers f) (sshKeys f) (bgpSessions f) (ips f) (locations f)
       (oses f) (nextServerID f) (nextSSHKeyID f) z) f.

Definition set_calls (l : list string) (f : FakeClient) : FakeClient :=
  mkFakeClient (servers f) (sshKeys f) (bgpSessions f) (ips f) (locations f)
    (oses f) (nextServerID f) (nextSSHKeyID f) (nextBGPSessionID f)
    (CreateServerError f) (GetServerError f) (BuildServerError f)
    (DeleteServerError f) (UnlinkServerError f) (CreateSSHKeyError f)
    (GetSSHKeyError f) (DeleteSSHKeyError f) (CreateBGPSessionsError f)
    (GetBGPSessionsError f) (GetIPsError f) (GetLocationsError f)
    (GetOSsError f) l.

(** [NewFakeClient] *)
Definition NewFakeClient : FakeClient :=
  mkFakeClient ∅ ∅ ∅ ∅
    [ mkLocation 1 "AMS Amsterdam" "AMS" "EU" "" 0;
      mkLocation 2 "LAX Los Angeles" "LAX" "NA" "" 0;
      mkLocation 3 "SJC San Jose" "SJC" "NA" "" 0 ]
    [ mkOS 1 "Ubuntu 22.04 LTS" "linux" "" "" "64" "";
      mkOS 2 "Debian 12" "linux" "" "" "64" "";
      mkOS 3 "Rocky Linux 9" "linux" "" "" "64" "" ]
    1000 100 500
    None None None None None None None None None None None None None
    [].

(** [trackCall] *)
Definition trackCall (call : string) (f : FakeClient) : FakeClient :=
  set_calls (calls f ++ [call]) f.

(** ** The [ClientInterface] methods of [FakeClient]

    A method returns the backend after the call and the Go result tuple;
    [None] in the error position is a nil error. *)

(** [for _, os := range f.oses { if os.ID == image { server.OS = os.Os; break } }] *)
Fixpoint range_oses (l : list OS) (image : Z) (server : Server) : Server :=
  match l with
  | [] => server
  | os :: rest =>
      if OS_ID os =? image then with_OS (Os os) server
      else range_oses rest image server
  end.

(** [for _, loc := range f.locations { if loc.ID == location { server.Location = loc.Name; break } }] *)
Fixpoint range_locations (l : list Location_t) (location : Z) (server : Server)
  : Server :=
  match l with
  | [] => server
  | loc :: rest =>
      if Location_ID loc =? location then with_Location (Location_Name loc) server
      else range_locations rest location server
  end.

Definition server_not_found (id : Z) : error :=
  errorString ("server " +:+ fmt.d id +:+ " not found").

Definition ssh_key_not_found (id : Z) : error :=
  errorString ("ssh key " +:+ fmt.d id +:+ " not found").

Definition CreateServer (r : CreateServerRequest) (f : FakeClient)
  : FakeClient * (ServerBuild * option error) :=
  let f := trackCall "CreateServer" f in
  match CreateServerError f with
  | Some e => (f, (zero_ServerBuild, Some e))
  | None =>
      let serverID := nextServerID f in
      let f := set_nextServerID (GoInt.incr (nextServerID f)) f in
      let server :=
        {| Server_ID := serverID;
           Server_Name := FQDN r;
           Server_OS := "";
           Server_OSID := Image r;
           PrimaryIPv4 := "192.0.2." +:+ fmt.d (GoInt.rem serverID 256);
           PrimaryIPv6 := "2001:db8::" +:+ fmt.x serverID;
           PlanID := 1;
           Package := Plan r;
           Server_PackageBilling := PackageBilling r;
           Server_PackageBillingContractId := PackageBillingContractId r;
           Server_Location := "";
           Server_LocationID := Location r;
           ServerStatus := "RUNNING";
           PowerStatus := "on";
           Installed := 1;
           CloudPool := "" |} in
      let server := range_oses (oses f) (Image r) server in
      let server := range_locations (locations f) (Location r) server in
      let f := set_servers (<[serverID := server]> (servers f)) f in
      (f, (mkServerBuild serverID "building" 1, None))
  end.

Definition GetServer (id : Z) (f : FakeClient)
  : FakeClient * (Server * option error) :=
  let f := trackCall ("GetServer(" +:+ fmt.d id +:+ ")") f in
  match GetServerError f with
  | Some e => (f, (zero_Server, Some e))
  | None =>
      match servers f !! id with
      | None => (f, (zero_Server, Some (server_not_found id)))
      | Some server => (f, (server, None))
      end
  end.

Definition BuildServer (id : Z) (r : BuildServerRequest) (f : FakeClient)
  : FakeClient * (ServerBuild * option error) :=
  let f := trackCall ("BuildServer(" +:+ fmt.d id +:+ ")") f in
  match BuildServerError f with
  | Some e => (f, (zero_ServerBuild, Some e))
  | None =>
      match servers f !! id with
      | None => (f, (zero_ServerBuild, Some (server_not_found id)))
      | Some server =>
          let server := with_Name (Build_FQDN r) server in
          let server := with_OSID (Build_Image r) server in
          let server := with_LocationID (Build_Location r) server in
          let server := with_PackageBilling (Build_PackageBilling r) server in
          let server :=
            with_PackageBillingContractId (Build_PackageBillingContractId r)
              server in
          let server := with_ServerStatus "RUNNING" server in
          let server := range_oses (oses f) (Build_Image r) server in
          let server := range_locations (locations f) (Build_Location r) server in
          let f := set_servers (<[id := server]> (servers f)) f in
          (f, (mkServerBuild id "building" 1, None))
      end
  end.

Definition DeleteServer (id : Z) (cancelBilling : bool) (f : FakeClient)
  : FakeClient * option error :=
  let f :=
    trackCall ("DeleteServer(" +:+ fmt.d id +:+ ", " +:+ fmt.v cancelBilling
               +:+ ")") f in
  match DeleteServerError f with
  | Some e => (f, Some e)
  | None =>
      match servers f !! id with
      | None => (f, Some (server_not_found id))
      | Some server =>
          (* Mark as terminated instead of deleting *)
          let server := with_ServerStatus "TERMINATED" server in
          (set_servers (<[id := server]> (servers f)) f, None)
      end
  end.

Definition UnlinkServer (id : Z) (f : FakeClient) : FakeClient * option error :=
  let f := trackCall ("UnlinkServer(" +:+ fmt.d id +:+ ")") f in
  match UnlinkServerError f with
  | Some e => (f, Some e)
  | None => (set_servers (delete id (servers f)) f, None)
  end.

Definition CreateSSHKey (name key : string) (f : FakeClient)
  : FakeClient * (SSHKey * option error) :=
  let f := trackCall ("CreateSSHKey(" +:+ name +:+ ")") f in
  match CreateSSHKeyError f with
  | Some e => (f, (zero_SSHKey, Some e))
  | None =>
      let keyID := nextSSHKeyID f in
      let f := set_nextSSHKeyID (GoInt.incr (nextSSHKeyID f)) f in
      let sshKey :=
        mkSSHKey keyID name key ("SHA256:fake-fingerprint-" +:+ fmt.d keyID) in
      (set_sshKeys (<[keyID := sshKey]> (sshKeys f)) f, (sshKey, None))
  end.

Definition GetSSHKey (id : Z) (f : FakeClient)
  : FakeClient * (SSHKey * option error) :=
  let f := trackCall ("GetSSHKey(" +:+ fmt.d id +:+ ")") f in
  match GetSSHKeyError f with
  | Some e => (f, (zero_SSHKey, Some e))
  | None =>
      match sshKeys f !! id with
      | None => (f, (zero_SSHKey, Some (ssh_key_not_found id)))
      | Some key => (f, (key, None))
      end
  end.

Definition DeleteSSHKey (id : Z) (f : FakeClient) : FakeClient * option error :=
  let f := trackCall ("DeleteSSHKey(" +:+ fmt.d id +:+ ")") f in
  match DeleteSSHKeyError f with
  | Some e => (f, Some e)
  | None =>
      match sshKeys f !! id with
      | None => (f, Some (ssh_key_not_found id))
      | Some _ => (set_sshKeys (delete id (sshKeys f)) f, None)
      end
  end.

(** The session pointer the method returns is the one it appends; the fake
    never writes through it afterwards, so the session is kept by value and
    a nil pointer is [None]. *)
Definition CreateBGPSessions (mbPkgID groupID : Z) (isIPV6 redundant : bool)
    (f : FakeClient) : FakeClient * (option BGPSession * option error) :=
  let f :=
    trackCall ("CreateBGPSessions(" +:+ fmt.d mbPkgID +:+ ", "
               +:+ fmt.d groupID +:+ ", " +:+ fmt.v isIPV6 +:+ ", "
               +:+ fmt.v redundant +:+ ")") f in
  match CreateBGPSessionsError f with
  | Some e => (f, (None, Some e))
  | None =>
      let sessionID := nextBGPSessionID f in
      let f := set_nextBGPSessionID (GoInt.incr (nextBGPSessionID f)) f in
      let ipType := if isIPV6 then "IPv6" else "IPv4" in
      let customerIP :=
        if isIPV6 then "2001:db8:bgp::" +:+ fmt.x sessionID
        else "198.51.100." +:+ fmt.d (GoInt.rem sessionID 256) in
      let session :=
        {| BGP_ID := sessionID;
           CustomerIP := customerIP;
           GroupID := groupID;
           Locked := 0;
           Description := "";
           State := "established";
           RoutesReceived := 0;
           ConfigStatus := 1;
           ProviderPeerIP := "";
           BGP_Location := "";
           GroupName := "";
           ProviderIPType := ipType;
           ProviderAsn := 64512;
           CustomerAsn := 65000 |} in
      let f :=
        match bgpSessions f !! mbPkgID with
        | None => set_bgpSessions (<[mbPkgID := []]> (bgpSessions f)) f
        | Some _ => f
        end in
      let f :=
        set_bgpSessions
          (<[mbPkgID := default [] (bgpSessions f !! mbPkgID) ++ [session]]>
             (bgpSessions f)) f in
      (f, (Some session, None))
  end.

Definition GetBGPSessions (mbPkgID : Z) (f : FakeClient)
  : FakeClient * (list BGPSession * option error) :=
  let f := trackCall ("GetBGPSessions(" +:+ fmt.d mbPkgID +:+ ")") f in
  match GetBGPSessionsError f with
  | Some e => (f, ([], Some e))
  | None =>
      match bgpSessions f !! mbPkgID with
      | None => (f, ([], None))
      | Some sessions => (f, (sessions, None))
      end
  end.

(** The allocation [GetIPs] makes up for a server without a stored one. *)
Definition default_IPs (mbPkgID : Z) : IPs :=
  {| IPv4 :=
       [ mkIP 1 ("192.0.2." +:+ fmt.d (GoInt.rem mbPkgID 256)) 1 "192.0.2.1"
           "255.255.255.0" "" "" ];
     IPv6 :=
       [ mkIP 2 ("2001:db8::" +:+ fmt.x mbPkgID) 1 "2001:db8::1"
           "ffff:ffff:ffff:ffff::" "" "" ] |}.

Definition GetIPs (mbPkgID : Z) (f : FakeClient)
  : FakeClient * (IPs * option error) :=
  let f := trackCall ("GetIPs(" +:+ fmt.d mbPkgID +:+ ")") f in
  match GetIPsError f with
  | Some e => (f, (zero_IPs, Some e))
  | None =>
      match ips f !! mbPkgID with
      | None =>
          (* Return default IPs if server exists *)
          match servers f !! mbPkgID with
          | Some _ => (f, (default_IPs mbPkgID, None))
          | None => (f, (zero_IPs, None))
          end
      | Some a => (f, (a, None))
      end
  end.

Definition GetLocations (f : FakeClient)
  : FakeClient * (list Location_t * option error) :=
  let f := trackCall "GetLocations" f in
  match GetLocationsError f with
  | Some e => (f, ([], Some e))
  | None => (f, (locations f, None))
  end.

Definition GetOSs (f : FakeClient) : FakeClient * (list OS * option error) :=
  let f := trackCall "GetOSs" f in
  match GetOSsError f with
  | Some e => (f, ([], Some e))
  | None => (f, (oses f, None))
  end.

(** ** Helper methods, used by tests to seed the backend *)

Definition AddServer (server : Server) (f : FakeClient) : FakeClient :=
  set_servers (<[Server_ID server := server]> (servers f)) f.

Definition AddSSHKey (key : SSHKey) (f : FakeClient) : FakeClient :=
  set_sshKeys (<[SSHKey_ID key := key]> (sshKeys f)) f.

Definition AddBGPSession (mbPkgID : Z) (session : BGPSession) (f : FakeClient)
  : FakeClient :=
  let f :=
    match bgpSessions f !! mbPkgID with
    | None => set_bgpSessions (<[mbPkgID := []]> (bgpSessions f)) f
    | Some _ => f
    end in
  set_bgpSessions
    (<[mbPkgID := default [] (bgpSessions f !! mbPkgID) ++ [session]]>
       (bgpSessions f)) f.

Definition SetIPs (mbPkgID : Z) (a : IPs) (f : FakeClient) : FakeClient :=
  set_ips (<[mbPkgID := a]> (ips f)) f.

Definition AddLocation (location : Location_t) (f : FakeClient) : FakeClient :=
  set_locations (locations f ++ [location]) f.

Definition AddOS (os : OS) (f : FakeClient) : FakeClient :=
  set_oses (oses f ++ [os]) f.

Definition GetCalls (f : FakeClient) : list string := calls f.

Definition ResetCalls (f : FakeClient) : FakeClient := set_calls [] f.

(** ** Calls through [ClientInterface] and runs of calls *)

Inductive Op : Type :=
| OpCreateServer (r : CreateServerRequest)
| OpGetServer (id : Z)
| OpBuildServer (id : Z) (r : BuildServerRequest)
| OpDeleteServer (id : Z) (cancelBilling : bool)
| OpUnlinkServer (id : Z)
| OpCreateSSHKey (name key : string)
| OpGetSSHKey (id : Z)
| OpDeleteSSHKey (id : Z)
| OpCreateBGPSessions (mbPkgID groupID : Z) (isIPV6 redundant : bool)
| OpGetBGPSessions (mbPkgID : Z)
| OpGetIPs (mbPkgID : Z)
| OpGetLocations
| OpGetOSs.

(** The value half of a result tuple. *)
Inductive Ret : Type :=
| RetServerBuild (b : ServerBuild)
| RetServer (s : Server)
| RetNothing
| RetSSHKey (k : SSHKey)
| RetBGPSession (s : option BGPSession)
| RetBGPSessions (l : list BGPSession)
| RetIPs (a : IPs)
| RetLocations (l : list Location_t)
| RetOSs (l : list OS).

Definition call (op : Op) (f : FakeClient) : FakeClient * (Ret * option error) :=
  match op with
  | OpCreateServer r =>
      let '(f', (b, e)) := CreateServer r f in (f', (RetServerBuild b, e))
  | OpGetServer id =>
      let '(f', (s, e)) := GetServer id f in (f', (RetServer s, e))
  | OpBuildServer id r =>
      let '(f', (b, e)) := BuildServer id r f in (f', (RetServerBuild b, e))
  | OpDeleteServer id cancelBilling =>
      let '(f', e) := DeleteServer id cancelBilling f in (f', (RetNothing, e))
  | OpUnlinkServer id =>
      let '(f', e) := UnlinkServer id f in (f', (RetNothing, e))
  | OpCreateSSHKey name key =>
      let '(f', (k, e)) := CreateSSHKey name key f in (f', (RetSSHKey k, e))
  | OpGetSSHKey id =>
      let '(f', (k, e)) := GetSSHKey id f in (f', (RetSSHKey k, e))
  | OpDeleteSSHKey id =>
      let '(f', e) := DeleteSSHKey id f in (f', (RetNothing, e))
  | OpCreateBGPSessions mbPkgID groupID isIPV6 redundant =>
      let '(f', (s, e)) := CreateBGPSessions mbPkgID groupID isIPV6 redundant f in
      (f', (RetBGPSession s, e))
  | OpGetBGPSessions mbPkgID =>
      let '(f', (l, e)) := GetBGPSessions mbPkgID f in (f', (RetBGPSessions l, e))
  | OpGetIPs mbPkgID =>
      let '(f', (a, e)) := GetIPs mbPkgID f in (f', (RetIPs a, e))
  | OpGetLocations =>
      let '(f', (l, e)) := GetLocations f in (f', (RetLocations l, e))
  | OpGetOSs =>
      let '(f', (l, e)) := GetOSs f in (f', (RetOSs l, e))
  end.

(** The injected-error field a method tests on entry. *)
Definition injected_error (op : Op) (f : FakeClient) : option error :=
  match op with
  | OpCreateServer _ => CreateServerError f
  | OpGetServer _ => GetServerError f
  | OpBuildServer _ _ => BuildServerError f
  | OpDeleteServer _ _ => DeleteServerError f
  | OpUnlinkServer _ => UnlinkServerError f
  | OpCreateSSHKey _ _ => CreateSSHKeyError f
  | OpGetSSHKey _ => GetSSHKeyError f
  | OpDeleteSSHKey _ => DeleteSSHKeyError f
  | OpCreateBGPSessions _ _ _ _ => CreateBGPSessionsError f
  | OpGetBGPSessions _ => GetBGPSessionsError f
  | OpGetIPs _ => GetIPsError f
  | OpGetLocations => GetLocationsError f
  | OpGetOSs => GetOSsError f
  end.

(** The backend after a run of calls. *)
Fixpoint run (ops : list Op) (f : FakeClient) : FakeClient :=
  match ops with
  | [] => f
  | op :: rest => run rest (call op f).1
  end.

(** The server ids handed out by the successful [CreateServer] calls of a
    run, oldest first. *)
Fixpoint created_ids (ops : list Op) (f : FakeClient) : list Z :=
  match ops with
  | [] => []
  | op :: rest =>
      let '(f', (ret, err)) := call op f in
      match op, ret, err with
      | OpCreateServer _, RetServerBuild b, None =>
          ServerID b :: created_ids rest f'
      | _, _, _ => created_ids rest f'
      end
  end.

Definition is_create (op : Op) : bool :=
  match op with OpCreateServer _ => true | _ => false end.

(** How many [CreateServer] calls a run makes. *)
Definition creates (ops : list Op) : nat :=
  length (List.filter is_create ops).

(** Each id is strictly greater than every id before it. *)
Definition strictly_increasing (l : list Z) : Prop :=
  ∀ (i j : nat) (a b : Z), (i < j)%nat → l !! i = Some a → l !! j = Some b → a < b.

(** ** Provider configuration *)

Module gona.

(** Which constructor of the API client library built the client, and from
    what: [NewClient] targets the production endpoint, [NewClientCustom]
    the given one. *)
Inductive Client : Type :=
| NewClient (apikey : string)
| NewClientCustom (apikey apiurl : string).

End gona.

Module diag.

Inductive Severity : Type := Error | Warning.

Record Diagnostic := mkDiagnostic {
  severity : Severity;
  Summary : string;
  Detail : string
}.

Definition is_error (dg : Diagnostic) : bool :=
  match severity dg with Error => true | Warning => false end.

Definition HasError (diags : list Diagnostic) : bool := existsb is_error diags.

(** [Diagnostics.Errors] *)
Definition Errors (diags : list Diagnostic) : list Diagnostic :=
  List.filter is_error diags.

Definition eqb (a b : Diagnostic) : bool :=
  match severity a, severity b with
  | Error, Error | Warning, Warning =>
      String.eqb (Summary a) (Summary b) && String.eqb (Detail a) (Detail b)
  | _, _ => false
  end.

(** The framework's [Diagnostics.Append]: a diagnostic already present is
    not added again. *)
Fixpoint Append (diags new : list Diagnostic) : list Diagnostic :=
  match new with
  | [] => diags
  | dg :: rest =>
      if existsb (eqb dg) diags then Append diags rest
      else Append (diags ++ [dg]) rest
  end.

Definition AddError (summary detail : string) (diags : list Diagnostic)
  : list Diagnostic :=
  Append diags [mkDiagnostic Error summary detail].

End diag.

(** The legacy SDK provider.  [api_key] is an optional string attribute with
    [DefaultFunc: schema.EnvDefaultFunc("NETACTUATE_API_KEY", nil)], [api_url]
    an optional string attribute without default. *)
Module SDK.

(** What [providerConfigure] reads through [d]: the attributes the
    configuration block sets (absent is [None]) and the value of the
    environment variable (unset reads as the empty string). *)
Record ResourceData := mkResourceData {
  raw_api_key : option string;
  raw_api_url : option string;
  NETACTUATE_API_KEY : string
}.

(** [schema.EnvDefaultFunc(k, dv)]: the variable when it is non-empty,
    else [dv]. *)
Definition EnvDefaultFunc (env : string) (dv : option string) : option string :=
  if String.eqb env "" then dv else Some env.

(** [d.Get(key).(string)] for an optional string attribute: the configured
    value, else the schema default, else the zero value. *)
Definition Get (raw : option string) (dflt : option string) : string :=
  match raw with
  | Some s => s
  | None => default "" dflt
  end.

Definition providerConfigure (d : ResourceData)
  : option gona.Client * list diag.Diagnostic :=
  let diags : list diag.Diagnostic := [] in
  let apiKey := Get (raw_api_key d) (EnvDefaultFunc (NETACTUATE_API_KEY d) None) in
  let apiUrl := Get (raw_api_url d) None in
  if String.eqb apiKey "" then
    let diags :=
      diags ++
      [ {| diag.severity := diag.Error;
           diag.Summary := "Unable to create NetActuate API client";
           diag.Detail :=
             "Unable to find NetActuate API key. It can be set with either NETACTUATE_API_KEY environment
variable or 'api_key' property" |} ] in
    (None, diags)
  else if String.eqb apiUrl "" then (Some (gona.NewClient apiKey), [])
  else (Some (gona.NewClientCustom apiKey apiUrl), []).

End SDK.

(** The plugin-framework provider. *)
Module Framework.

(** [types.String]: null, unknown or a known value. *)
Inductive String_t : Type :=
| StringNull
| StringUnknown
| StringValue (s : string).

(** [ValueString]: the empty string unless the value is known. *)
Definition ValueString (s : String_t) : string :=
  match s with
  | StringValue v => v
  | _ => ""
  end.

Record FrameworkProviderModel := mkModel {
  ApiKey : String_t;
  ApiUrl : String_t
}.

(** A request is seen through [req.Config.Get(ctx, &config)]: the decoded
    model and the diagnostics of decoding. *)
Record ConfigureRequest := mkRequest {
  Config_Get : FrameworkProviderModel * list diag.Diagnostic
}.

Record ConfigureResponse := mkResponse {
  DataSourceData : option gona.Client;
  ResourceData : option gona.Client;
  Diagnostics : list diag.Diagnostic
}.

(** [&provider.ConfigureResponse{}] *)
Definition empty_response : ConfigureResponse := mkResponse None None [].

Definition Configure (req : ConfigureRequest) (resp : ConfigureResponse)
  : ConfigureResponse :=
  let '(config, decode_diags) := Config_Get req in
  let resp :=
    mkResponse (DataSourceData resp) (ResourceData resp)
      (diag.Append (Diagnostics resp) decode_diags) in
  if diag.HasError (Diagnostics resp) then resp
  else
    let apiKey := ValueString (ApiKey config) in
    if String.eqb apiKey "" then
      mkResponse (DataSourceData resp) (ResourceData resp)
        (diag.AddError "Unable to create NetActuate API client"
           "Unable to find NetActuate API key. It can be set with either NETACTUATE_API_KEY environment variable or 'api_key' property"
           (Diagnostics resp))
    else
      let apiUrl := ValueString (ApiUrl config) in
      let client :=
        if String.eqb apiUrl "" then gona.NewClient apiKey
        else gona.NewClientCustom apiKey apiUrl in
      mkResponse (Some client) (Some client) (Diagnostics resp).

End Framework.

(** A run can be executed only while its call log can be held: [f.calls]
    is a slice of strings, one 16-byte header per entry, and its backing
    array lies in a 64-bit address space. *)
Definition log_addressable (f : FakeClient) : Prop :=
  16 * Z.of_nat (length (calls f)) < 2 ^ 64.

(** ** Seeding helpers as steps, and runs that mix them with calls *)

Inductive Helper : Type :=
| HAddServer (server : Server)
| HAddSSHKey (key : SSHKey)
| HAddBGPSession (mbPkgID : Z) (session : BGPSession)
| HSetIPs (mbPkgID : Z) (a : IPs)
| HAddLocation (location : Location_t)
| HAddOS (os : OS)
| HResetCalls.

Definition help (h : Helper) (f : FakeClient) : FakeClient :=
  match h with
  | HAddServer server => AddServer server f
  | HAddSSHKey key => AddSSHKey key f
  | HAddBGPSession mbPkgID session => AddBGPSession mbPkgID session f
  | HSetIPs mbPkgID a => SetIPs mbPkgID a f
  | HAddLocation location => AddLocation location f
  | HAddOS os => AddOS os f
  | HResetCalls => ResetCalls f
  end.

(** The thirteen injected-error fields, which a test assigns directly. *)
Inductive ErrorField : Type :=
| FieldCreateServerError
| FieldGetServerError
| FieldBuildServerError
| FieldDeleteServerError
| FieldUnlinkServerError
| FieldCreateSSHKeyError
| FieldGetSSHKeyError
| FieldDeleteSSHKeyError
| FieldCreateBGPSessionsError
| FieldGetBGPSessionsError
| FieldGetIPsError
| FieldGetLocationsError
| FieldGetOSsError.

(** The backend with its injected-error fields replaced. *)
Definition with_errors (e1 e2 e3 e4 e5 e6 e7 e8 e9 e10 e11 e12 e13 : option error)
    (f : FakeClient) : FakeClient :=
  mkFakeClient (servers f) (sshKeys f) (bgpSessions f) (ips f) (locations f)
    (oses f) (nextServerID f) (nextSSHKeyID f) (nextBGPSessionID f)
    e1 e2 e3 e4 e5 e6 e7 e8 e9 e10 e11 e12 e13 (calls f).

(** [f.<Field> = e] *)
Definition set_error (field : ErrorField) (e : option error) (f : FakeClient)
  : FakeClient :=
  match field with
  | FieldCreateServerError =>
      with_errors e (GetServerError f) (BuildServerError f) (DeleteServerError f) (UnlinkServerError f)
        (CreateSSHKeyError f) (GetSSHKeyError f) (DeleteSSHKeyError f) (CreateBGPSessionsError f)
        (GetBGPSessionsError f) (GetIPsError f) (GetLocationsError f) (GetOSsError f) f
  | FieldGetServerError =>
      with_errors (CreateServerError f) e (BuildServerError f) (DeleteServerError f) (UnlinkServerError f)
        (CreateSSHKeyError f) (GetSSHKeyError f) (DeleteSSHKeyError f) (CreateBGPSessionsError f)
        (GetBGPSessionsError f) (GetIPsError f) (GetLocationsError f) (GetOSsError f) f
  | FieldBuildServerError =>
      with_errors (CreateServerError f) (GetServerError f) e (DeleteServerError f) (UnlinkServerError f)
        (CreateSSHKeyError f) (GetSSHKeyError f) (DeleteSSHKeyError f) (CreateBGPSessionsError f)
        (GetBGPSessionsError f) (GetIPsError f) (GetLocationsError f) (GetOSsError f) f
  | FieldDeleteServerError =>
      with_errors (CreateServerError f) (GetServerError f) (BuildServerError f) e (UnlinkServerError f)
        (CreateSSHKeyError f) (GetSSHKeyError f) (DeleteSSHKeyError f) (CreateBGPSessionsError f)
        (GetBGPSessionsError f) (GetIPsError f) (GetLocationsError f) (GetOSsError f) f
  | FieldUnlinkServerError =>
      with_errors (CreateServerError f) (GetServerError f) (BuildServerError f) (DeleteServerError f) e
        (CreateSSHKeyError f) (GetSSHKeyError f) (DeleteSSHKeyError f) (CreateBGPSessionsError f)
        (GetBGPSessionsError f) (GetIPsError f) (GetLocationsError f) (GetOSsError f) f
  | FieldCreateSSHKeyError =>
      with_errors (CreateServerError f) (GetServerError f) (BuildServerError f) (DeleteServerError f) (UnlinkServerError f)
        e (GetSSHKeyError f) (DeleteSSHKeyError f) (CreateBGPSessionsError f)
        (GetBGPSessionsError f) (GetIPsError f) (GetLocationsError f) (GetOSsError f) f
  | FieldGetSSHKeyError =>
      with_errors (CreateServerError f) (GetServerError f) (BuildServerError f) (DeleteServerError f) (UnlinkServerError f)
        (CreateSSHKeyError f) e (DeleteSSHKeyError f) (CreateBGPSessionsError f)
        (GetBGPSessionsError f) (GetIPsError f) (GetLocationsError f) (GetOSsError f) f
  | FieldDeleteSSHKeyError =>
      with_errors (CreateServerError f) (GetServerError f) (BuildServerError f) (DeleteServerError f) (UnlinkServerError f)
        (CreateSSHKeyError f) (GetSSHKeyError f) e (CreateBGPSessionsError f)
        (GetBGPSessionsError f) (GetIPsError f) (GetLocationsError f) (GetOSsError f) f
  | FieldCreateBGPSessionsError =>
      with_errors (CreateServerError f) (GetServerError f) (BuildServerError f) (DeleteServerError f) (UnlinkServerError f)
        (CreateSSHKeyError f) (GetSSHKeyError f) (DeleteSSHKeyError f) e
        (GetBGPSessionsError f) (GetIPsError f) (GetLocationsError f) (GetOSsError f) f
  | FieldGetBGPSessionsError =>
      with_errors (CreateServerError f) (GetServerError f) (BuildServerError f) (DeleteServerError f) (UnlinkServerError f)
        (CreateSSHKeyError f) (GetSSHKeyError f) (DeleteSSHKeyError f) (CreateBGPSessionsError f)
        e (GetIPsError f) (GetLocationsError f) (GetOSsError f) f
  | FieldGetIPsError =>
      with_errors (CreateServerError f) (GetServerError f) (BuildServerError f) (DeleteServerError f) (UnlinkServerError f)
        (CreateSSHKeyError f) (GetSSHKeyError f) (DeleteSSHKeyError f) (CreateBGPSessionsError f)
        (GetBGPSessionsError f) e (GetLocationsError f) (GetOSsError f) f
  | FieldGetLocationsError =>
      with_errors (CreateServerError f) (GetServerError f) (BuildServerError f) (DeleteServerError f) (UnlinkServerError f)
        (CreateSSHKeyError f) (GetSSHKeyError f) (DeleteSSHKeyError f) (CreateBGPSessionsError f)
        (GetBGPSessionsError f) (GetIPsError f) e (GetOSsError f) f
  | FieldGetOSsError =>
      with_errors (CreateServerError f) (GetServerError f) (BuildServerError f) (DeleteServerError f) (UnlinkServerError f)
        (CreateSSHKeyError f) (GetSSHKeyError f) (DeleteSSHKeyError f) (CreateBGPSessionsError f)
        (GetBGPSessionsError f) (GetIPsError f) (GetLocationsError f) e f
  end.

(** What a test does to a backend: an interface call, a helper, or an
    assignment to an injected-error field. *)
Inductive Step : Type :=
| Call (op : Op)
| Help (h : Helper)
| Inject (field : ErrorField) (e : option error).

Definition step (st : Step) (f : FakeClient) : FakeClient :=
  match st with
  | Call op => (call op f).1
  | Help h => help h f
  | Inject field e => set_error field e f
  end.

Fixpoint steps (l : list Step) (f : FakeClient) : FakeClient :=
  match l with
  | [] => f
  | st :: rest => steps rest (step st f)
  end.

(** The entity class an interface method belongs to. *)
Inductive Class : Type := ServerClass | SSHKeyClass | BGPClass | IPClass | MetaClass.

Definition class_of (op : Op) : Class :=
  match op with
  | OpCreateServer _ | OpGetServer _ | OpBuildServer _ _
  | OpDeleteServer _ _ | OpUnlinkServer _ => ServerClass
  | OpCreateSSHKey _ _ | OpGetSSHKey _ | OpDeleteSSHKey _ => SSHKeyClass
  | OpCreateBGPSessions _ _ _ _ | OpGetBGPSessions _ => BGPClass
  | OpGetIPs _ => IPClass
  | OpGetLocations | OpGetOSs => MetaClass
  end.

(** The methods that only read. *)
Definition is_read (op : Op) : bool :=
  match op with
  | OpGetServer _ | OpGetSSHKey _ | OpGetBGPSessions _ | OpGetIPs _
  | OpGetLocations | OpGetOSs => true
  | _ => false
  end.

(** The entry [trackCall] receives from each method. *)
Definition call_entry (op : Op) : string :=
  match op with
  | OpCreateServer _ => "CreateServer"
  | OpGetServer id => "GetServer(" +:+ fmt.d id +:+ ")"
  | OpBuildServer id _ => "BuildServer(" +:+ fmt.d id +:+ ")"
  | OpDeleteServer id cancelBilling =>
      "DeleteServer(" +:+ fmt.d id +:+ ", " +:+ fmt.v cancelBilling +:+ ")"
  | OpUnlinkServer id => "UnlinkServer(" +:+ fmt.d id +:+ ")"
  | OpCreateSSHKey name _ => "CreateSSHKey(" +:+ name +:+ ")"
  | OpGetSSHKey id => "GetSSHKey(" +:+ fmt.d id +:+ ")"
  | OpDeleteSSHKey id => "DeleteSSHKey(" +:+ fmt.d id +:+ ")"
  | OpCreateBGPSessions mbPkgID groupID isIPV6 redundant =>
      "CreateBGPSessions(" +:+ fmt.d mbPkgID +:+ ", " +:+ fmt.d groupID
      +:+ ", " +:+ fmt.v isIPV6 +:+ ", " +:+ fmt.v redundant +:+ ")"
  | OpGetBGPSessions mbPkgID => "GetBGPSessions(" +:+ fmt.d mbPkgID +:+ ")"
  | OpGetIPs mbPkgID => "GetIPs(" +:+ fmt.d mbPkgID +:+ ")"
  | OpGetLocations => "GetLocations"
  | OpGetOSs => "GetOSs"
  end.

(** Every stored record sits under its own id. *)
Definition keyed_by_id (f : FakeClient) : Prop :=
  (∀ id s, servers f !! id = Some s → Server_ID s = id)
  ∧ (∀ id k, sshKeys f !! id = Some k → SSHKey_ID k = id).

(** The ids handed out by the successful [CreateSSHKey] calls of a run. *)
Fixpoint created_key_ids (ops : list Op) (f : FakeClient) : list Z :=
  match ops with
  | [] => []
  | op :: rest =>
      let '(f', (ret, err)) := call op f in
      match op, ret, err with
      | OpCreateSSHKey _ _, RetSSHKey k, None =>
          SSHKey_ID k :: created_key_ids rest f'
      | _, _, _ => created_key_ids rest f'
      end
  end.

(** The ids of the sessions made by the successful [CreateBGPSessions]
    calls of a run. *)
Fixpoint created_session_ids (ops : list Op) (f : FakeClient) : list Z :=
  match ops with
  | [] => []
  | op :: rest =>
      let '(f', (ret, err)) := call op f in
      match op, ret, err with
      | OpCreateBGPSessions _ _ _ _, RetBGPSession (Some s), None =>
          BGP_ID s :: created_session_ids rest f'
      | _, _, _ => created_session_ids rest f'
      end
  end.

Definition is_create_key (op : Op) : bool :=
  match op with OpCreateSSHKey _ _ => true | _ => false end.

Definition is_create_session (op : Op) : bool :=
  match op with OpCreateBGPSessions _ _ _ _ => true | _ => false end.

(** ** The mock client

    [netactuate/testing_mock.go]: one optional hook per method and a call
    log.  A hook is a Go closure; it is taken as a function of the method's
    arguments. *)

Module Mock.

Record MockClient := mkMockClient {
  CreateServerFunc : option (CreateServerRequest → ServerBuild * option error);
  GetServerFunc : option (Z → Server * option error);
  BuildServerFunc : option (Z → BuildServerRequest → ServerBuild * option error);
  DeleteServerFunc : option (Z → bool → option error);
  UnlinkServerFunc : option (Z → option error);
  CreateSSHKeyFunc : option (string → string → SSHKey * option error);
  GetSSHKeyFunc : option (Z → SSHKey * option error);
  DeleteSSHKeyFunc : option (Z → option error);
  CreateBGPSessionsFunc :
    option (Z → Z → bool → bool → option BGPSession * option error);
  GetBGPSessionsFunc : option (Z → list BGPSession * option error);
  GetIPsFunc : option (Z → IPs * option error);
  GetLocationsFunc : option (list Location_t * option error);
  GetOSsFunc : option (list OS * option error);
  calls : list string
}.

(** [&MockClient{}] *)
Definition empty : MockClient :=
  mkMockClient None None None None None None None None None None None None
    None [].

Definition trackCall (entry : string) (m : MockClient) : MockClient :=
  mkMockClient (CreateServerFunc m) (GetServerFunc m) (BuildServerFunc m)
    (DeleteServerFunc m) (UnlinkServerFunc m) (CreateSSHKeyFunc m)
    (GetSSHKeyFunc m) (DeleteSSHKeyFunc m) (CreateBGPSessionsFunc m)
    (GetBGPSessionsFunc m) (GetIPsFunc m) (GetLocationsFunc m) (GetOSsFunc m)
    (calls m ++ [entry]).

Definition not_configured (hook : string) : error :=
  errorString (hook +:+ " not configured").

Definition CreateServer (r : CreateServerRequest) (m : MockClient)
  : MockClient * (ServerBuild * option error) :=
  let m := trackCall "CreateServer" m in
  match CreateServerFunc m with
  | Some hook => (m, hook r)
  | None => (m, (zero_ServerBuild, Some (not_configured "CreateServerFunc")))
  end.

Definition GetServer (id : Z) (m : MockClient)
  : MockClient * (Server * option error) :=
  let m := trackCall ("GetServer(" +:+ fmt.d id +:+ ")") m in
  match GetServerFunc m with
  | Some hook => (m, hook id)
  | None => (m, (zero_Server, Some (not_configured "GetServerFunc")))
  end.

Definition BuildServer (id : Z) (r : BuildServerRequest) (m : MockClient)
  : MockClient * (ServerBuild * option error) :=
  let m := trackCall ("BuildServer(" +:+ fmt.d id +:+ ")") m in
  match BuildServerFunc m with
  | Some hook => (m, hook id r)
  | None => (m, (zero_ServerBuild, Some (not_configured "BuildServerFunc")))
  end.

Definition DeleteServer (id : Z) (cancelBilling : bool) (m : MockClient)
  : MockClient * option error :=
  let m :=
    trackCall ("DeleteServer(" +:+ fmt.d id +:+ ", " +:+ fmt.v cancelBilling
               +:+ ")") m in
  match DeleteServerFunc m with
  | Some hook => (m, hook id cancelBilling)
  | None => (m, Some (not_configured "DeleteServerFunc"))
  end.

Definition UnlinkServer (id : Z) (m : MockClient) : MockClient * option error :=
  let m := trackCall ("UnlinkServer(" +:+ fmt.d id +:+ ")") m in
  match UnlinkServerFunc m with
  | Some hook => (m, hook id)
  | None => (m, Some (not_configured "UnlinkServerFunc"))
  end.

Definition CreateSSHKey (name key : string) (m : MockClient)
  : MockClient * (SSHKey * option error) :=
  let m := trackCall ("CreateSSHKey(" +:+ name +:+ ")") m in
  match CreateSSHKeyFunc m with
  | Some hook => (m, hook name key)
  | None => (m, (zero_SSHKey, Some (not_configured "CreateSSHKeyFunc")))
  end.

Definition GetSSHKey (id : Z) (m : MockClient)
  : MockClient * (SSHKey * option error) :=
  let m := trackCall ("GetSSHKey(" +:+ fmt.d id +:+ ")") m in
  match GetSSHKeyFunc m with
  | Some hook => (m, hook id)
  | None => (m, (zero_SSHKey, Some (not_configured "GetSSHKeyFunc")))
  end.

Definition DeleteSSHKey (id : Z) (m : MockClient) : MockClient * option error :=
  let m := trackCall ("DeleteSSHKey(" +:+ fmt.d id +:+ ")") m in
  match DeleteSSHKeyFunc m with
  | Some hook => (m, hook id)
  | None => (m, Some (not_configured "DeleteSSHKeyFunc"))
  end.

Definition CreateBGPSessions (mbPkgID groupID : Z) (isIPV6 redundant : bool)
    (m : MockClient) : MockClient * (option BGPSession * option error) :=
  let m :=
    trackCall ("CreateBGPSessions(" +:+ fmt.d mbPkgID +:+ ", "
               +:+ fmt.d groupID +:+ ", " +:+ fmt.v isIPV6 +:+ ", "
               +:+ fmt.v redundant +:+ ")") m in
  match CreateBGPSessionsFunc m with
  | Some hook => (m, hook mbPkgID groupID isIPV6 redundant)
  | None => (m, (None, Some (not_configured "CreateBGPSessionsFunc")))
  end.

Definition GetBGPSessions (mbPkgID : Z) (m : MockClient)
  : MockClient * (list BGPSession * option error) :=
  let m := trackCall ("GetBGPSessions(" +:+ fmt.d mbPkgID +:+ ")") m in
  match GetBGPSessionsFunc m with
  | Some hook => (m, hook mbPkgID)
  | None => (m, ([], Some (not_configured "GetBGPSessionsFunc")))
  end.

Definition GetIPs (mbPkgID : Z) (m : MockClient)
  : MockClient * (IPs * option error) :=
  let m := trackCall ("GetIPs(" +:+ fmt.d mbPkgID +:+ ")") m in
  match GetIPsFunc m with
  | Some hook => (m, hook mbPkgID)
  | None => (m, (zero_IPs, Some (not_configured "GetIPsFunc")))
  end.

Definition GetLocations (m : MockClient)
  : MockClient * (list Location_t * option error) :=
  let m := trackCall "GetLocations" m in
  match GetLocationsFunc m with
  | Some hook => (m, hook)
  | None => (m, ([], Some (not_configured "GetLocationsFunc")))
  end.

Definition GetOSs (m : MockClient) : MockClient * (list OS * option error) :=
  let m := trackCall "GetOSs" m in
  match GetOSsFunc m with
  | Some hook => (m, hook)
  | None => (m, ([], Some (not_configured "GetOSsFunc")))
  end.

Definition GetCalls (m : MockClient) : list string := calls m.

Definition ResetCalls (m : MockClient) : MockClient :=
  mkMockClient (CreateServerFunc m) (GetServerFunc m) (BuildServerFunc m)
    (DeleteServerFunc m) (UnlinkServerFunc m) (CreateSSHKeyFunc m)
    (GetSSHKeyFunc m) (DeleteSSHKeyFunc m) (CreateBGPSessionsFunc m)
    (GetBGPSessionsFunc m) (GetIPsFunc m) (GetLocationsFunc m) (GetOSsFunc m)
    [].

(** A call through [ClientInterface] on the mock. *)
Definition call (op : Op) (m : MockClient) : MockClient * (Ret * option error) :=
  match op with
  | OpCreateServer r =>
      let '(m', (b, e)) := CreateServer r m in (m', (RetServerBuild b, e))
  | OpGetServer id =>
      let '(m', (s, e)) := GetServer id m in (m', (RetServer s, e))
  | OpBuildServer id r =>
      let '(m', (b, e)) := BuildServer id r m in (m', (RetServerBuild b, e))
  | OpDeleteServer id cancelBilling =>
      let '(m', e) := DeleteServer id cancelBilling m in (m', (RetNothing, e))
  | OpUnlinkServer id =>
      let '(m', e) := UnlinkServer id m in (m', (RetNothing, e))
  | OpCreateSSHKey name key =>
      let '(m', (k, e)) := CreateSSHKey name key m in (m', (RetSSHKey k, e))
  | OpGetSSHKey id =>
      let '(m', (k, e)) := GetSSHKey id m in (m', (RetSSHKey k, e))
  | OpDeleteSSHKey id =>
      let '(m', e) := DeleteSSHKey id m in (m', (RetNothing, e))
  | OpCreateBGPSessions mbPkgID groupID isIPV6 redundant =>
      let '(m', (s, e)) := CreateBGPSessions mbPkgID groupID isIPV6 redundant m in
      (m', (RetBGPSession s, e))
  | OpGetBGPSessions mbPkgID =>
      let '(m', (l, e)) := GetBGPSessions mbPkgID m in (m', (RetBGPSessions l, e))
  | OpGetIPs mbPkgID =>
      let '(m', (a, e)) := GetIPs mbPkgID m in (m', (RetIPs a, e))
  | OpGetLocations =>
      let '(m', (l, e)) := GetLocations m in (m', (RetLocations l, e))
  | OpGetOSs =>
      let '(m', (l, e)) := GetOSs m in (m', (RetOSs l, e))
  end.

(** Whether the hook a method dispatches to is set. *)
Definition configured (op : Op) (m : MockClient) : bool :=
  match op with
  | OpCreateServer _ => bool_decide (is_Some (CreateServerFunc m))
  | OpGetServer _ => bool_decide (is_Some (GetServerFunc m))
  | OpBuildServer _ _ => bool_decide (is_Some (BuildServerFunc m))
  | OpDeleteServer _ _ => bool_decide (is_Some (DeleteServerFunc m))
  | OpUnlinkServer _ => bool_decide (is_Some (UnlinkServerFunc m))
  | OpCreateSSHKey _ _ => bool_decide (is_Some (CreateSSHKeyFunc m))
  | OpGetSSHKey _ => bool_decide (is_Some (GetSSHKeyFunc m))
  | OpDeleteSSHKey _ => bool_decide (is_Some (DeleteSSHKeyFunc m))
  | OpCreateBGPSessions _ _ _ _ => bool_decide (is_Some (CreateBGPSessionsFunc m))
  | OpGetBGPSessions _ => bool_decide (is_Some (GetBGPSessionsFunc m))
  | OpGetIPs _ => bool_decide (is_Some (GetIPsFunc m))
  | OpGetLocations => bool_decide (is_Some (GetLocationsFunc m))
  | OpGetOSs => bool_decide (is_Some (GetOSsFunc m))
  end.

(** The name of the hook a method dispatches to. *)
Definition hook_name (op : Op) : string :=
  match op with
  | OpCreateServer _ => "CreateServerFunc"
  | OpGetServer _ => "GetServerFunc"
  | OpBuildServer _ _ => "BuildServerFunc"
  | OpDeleteServer _ _ => "DeleteServerFunc"
  | OpUnlinkServer _ => "UnlinkServerFunc"
  | OpCreateSSHKey _ _ => "CreateSSHKeyFunc"
  | OpGetSSHKey _ => "GetSSHKeyFunc"
  | OpDeleteSSHKey _ => "DeleteSSHKeyFunc"
  | OpCreateBGPSessions _ _ _ _ => "CreateBGPSessionsFunc"
  | OpGetBGPSessions _ => "GetBGPSessionsFunc"
  | OpGetIPs _ => "GetIPsFunc"
  | OpGetLocations => "GetLocationsFunc"
  | OpGetOSs => "GetOSsFunc"
  end.

Fixpoint run (ops : list Op) (m : MockClient) : MockClient :=
  match ops with
  | [] => m
  | op :: rest => run rest (call op m).1
  end.

End Mock.

(** ** The IP allocation builder of the test helpers *)

Module IPsBuilder.

(** [NewIPsBuilder] *)
Definition New : IPs :=
  {| IPv4 := [ mkIP 1 "192.0.2.100" 1 "192.0.2.1" "255.255.255.0"
                 "192.0.2.255" "100.2.0.192.in-addr.arpa" ];
     IPv6 := [ mkIP 2 "2001:db8::100" 1 "2001:db8::1"
                 "ffff:ffff:ffff:ffff::" "" "" ] |}.

(** [len(s)] as an [int] *)
Definition len {A} (l : list A) : Z := Z.of_nat (length l).

Definition AddIPv4 (ip gateway netmask : string) (primary : bool) (b : IPs)
  : IPs :=
  let primaryInt := if primary then 1 else 0 in
  let newIP :=
    {| IP_ID := GoInt.wrap (len (IPv4 b) + 1);
       IP_IP := ip;
       Primary := primaryInt;
       Gateway := gateway;
       Netmask := netmask;
       Broadcast := "";
       Reverse := "" |} in
  {| IPv4 := IPv4 b ++ [newIP]; IPv6 := IPv6 b |}.

Definition AddIPv6 (ip gateway netmask : string) (primary : bool) (b : IPs)
  : IPs :=
  let primaryInt := if primary then 1 else 0 in
  let newIP :=
    {| IP_ID := GoInt.wrap (len (IPv6 b) + 1);
       IP_IP := ip;
       Primary := primaryInt;
       Gateway := gateway;
       Netmask := netmask;
       Broadcast := "";
       Reverse := "" |} in
  {| IPv4 := IPv4 b; IPv6 := IPv6 b ++ [newIP] |}.

Definition ClearIPv4 (b : IPs) : IPs := {| IPv4 := []; IPv6 := IPv6 b |}.

Definition ClearIPv6 (b : IPs) : IPs := {| IPv4 := IPv4 b; IPv6 := [] |}.

Definition Build (b : IPs) : IPs := b.

End IPsBuilder.

(** [TestIPs] *)
Definition TestIPs (serverID : Z) : IPs :=
  IPsBuilder.Build
    (IPsBuilder.AddIPv6 ("2001:db8::" +:+ fmt.x serverID) "2001:db8::1"
       "ffff:ffff:ffff:ffff::" true
       (IPsBuilder.AddIPv4 ("192.0.2." +:+ fmt.d (GoInt.rem serverID 256))
          "192.0.2.1" "255.255.255.0" true
          (IPsBuilder.ClearIPv6 (IPsBuilder.ClearIPv4 IPsBuilder.New)))).

(** The zero value a method returns next to an error. *)
Definition zero_ret (op : Op) : Ret :=
  match op with
  | OpCreateServer _ | OpBuildServer _ _ => RetServerBuild zero_ServerBuild
  | OpGetServer _ => RetServer zero_Server
  | OpDeleteServer _ _ | OpUnlinkServer _ | OpDeleteSSHKey _ => RetNothing
  | OpCreateSSHKey _ _ | OpGetSSHKey _ => RetSSHKey zero_SSHKey
  | OpCreateBGPSessions _ _ _ _ => RetBGPSession None
  | OpGetBGPSessions _ => RetBGPSessions []
  | OpGetIPs _ => RetIPs zero_IPs
  | OpGetLocations => RetLocations []
  | OpGetOSs => RetOSs []
  end.

(** The entry at index i has id i + 1. *)
Definition sequential_ids (l : list IP) : Prop :=
  ∀ (i : nat) ip, l !! i = Some ip → IP_ID ip = Z.of_nat i + 1.

(** How the two providers see one attribute of the same configuration
    block: absent is null for the framework. *)
Definition as_framework_string (attr : option string) : Framework.String_t :=
  match attr with
  | None => Framework.StringNull
  | Some s => Framework.StringValue s
  end.

(** ** The hostname pattern

    [netactuate/resource_server_test.go] builds the pattern a server's
    hostname is checked against,
    [(L\.)*L$] with [L = ([a-zA-Z0-9]|[a-zA-Z0-9][a-zA-Z0-9\-]*[a-zA-Z0-9])],
    and records that it lacks the leading [^]; the later version of the test
    expects [^(L\.)*L$].  Patterns are kept as syntax trees and matched by
    derivatives; [MatchString] searches the way Go's [regexp] does, for a
    match anywhere in the text unless an anchor pins it.  The pattern has
    ASCII classes only, so bytes stand for runes. *)

Module Regexp.

Inductive re : Type :=
| Void
| Eps
| Chr (class : ascii → bool)
| Cat (a b : re)
| Alt (a b : re)
| Star (a : re).

(** The texts a pattern matches in full. *)
Inductive lang : re → list ascii → Prop :=
| lang_Eps : lang Eps []
| lang_Chr class c : class c = true → lang (Chr class) [c]
| lang_Cat a b s t : lang a s → lang b t → lang (Cat a b) (s ++ t)
| lang_Alt_l a b s : lang a s → lang (Alt a b) s
| lang_Alt_r a b s : lang b s → lang (Alt a b) s
| lang_Star_nil a : lang (Star a) []
| lang_Star_cons a s t : lang a s → lang (Star a) t → lang (Star a) (s ++ t).

Fixpoint nullable (r : re) : bool :=
  match r with
  | Void => false
  | Eps => true
  | Chr _ => false
  | Cat a b => nullable a && nullable b
  | Alt a b => nullable a || nullable b
  | Star _ => true
  end.

(** Alternation and concatenation that drop dead branches. *)
Definition alt (a b : re) : re :=
  match a, b with
  | Void, _ => b
  | _, Void => a
  | _, _ => Alt a b
  end.

Definition cat (a b : re) : re :=
  match a, b with
  | Void, _ => Void
  | _, Void => Void
  | Eps, _ => b
  | _, _ => Cat a b
  end.

(** The pattern for what may follow [c]. *)
Fixpoint deriv (c : ascii) (r : re) : re :=
  match r with
  | Void => Void
  | Eps => Void
  | Chr class => if class c then Eps else Void
  | Cat a b =>
      alt (cat (deriv c a) b) (if nullable a then deriv c b else Void)
  | Alt a b => alt (deriv c a) (deriv c b)
  | Star a => cat (deriv c a) (Star a)
  end.

(** The pattern matches the whole text. *)
Fixpoint matches (r : re) (s : list ascii) : bool :=
  match s with
  | [] => nullable r
  | c :: rest => matches (deriv c r) rest
  end.

(** The pattern matches some prefix of the text. *)
Fixpoint matches_prefix (r : re) (s : list ascii) : bool :=
  nullable r
  || match s with
     | [] => false
     | c :: rest => matches_prefix (deriv c r) rest
     end.

(** A pattern with its anchors: [^] in front, [$] behind. *)
Record pattern := mkPattern {
  begin_text : bool;
  body : re;
  end_text : bool
}.

(** A match that starts where the text starts. *)
Definition matches_here (p : pattern) (s : list ascii) : bool :=
  if end_text p then matches (body p) s else matches_prefix (body p) s.

(** A match that starts anywhere in the text. *)
Fixpoint matches_somewhere (p : pattern) (s : list ascii) : bool :=
  matches_here p s
  || match s with
     | [] => false
     | _ :: rest => matches_somewhere p rest
     end.

(** Go's [MatchString] method of a compiled pattern. *)
Definition MatchString (p : pattern) (s : string) : bool :=
  if begin_text p then matches_here p (list_ascii_of_string s)
  else matches_somewhere p (list_ascii_of_string s).

End Regexp.

(** Whether [lo <= c <= hi] as bytes. *)
Definition between (lo hi c : ascii) : bool :=
  (N_of_ascii lo <=? N_of_ascii c)%N && (N_of_ascii c <=? N_of_ascii hi)%N.

(** [[a-zA-Z0-9]] *)
Definition alnum (c : ascii) : bool :=
  between "a" "z" c || between "A" "Z" c || between "0" "9" c.

(** [[a-zA-Z0-9\-]] *)
Definition alnum_dash (c : ascii) : bool :=
  between "a" "z" c || between "A" "Z" c || between "0" "9" c
  || Ascii.eqb c "-".

(** [\.] *)
Definition dot (c : ascii) : bool := Ascii.eqb c ".".

(** [([a-zA-Z0-9]|[a-zA-Z0-9][a-zA-Z0-9\-]*[a-zA-Z0-9])] *)
Definition label : Regexp.re :=
  Regexp.Alt (Regexp.Chr alnum)
    (Regexp.Cat (Regexp.Chr alnum)
       (Regexp.Cat (Regexp.Star (Regexp.Chr alnum_dash)) (Regexp.Chr alnum))).

(** [(L\.)*L] *)
Definition hostname_body : Regexp.re :=
  Regexp.Cat (Regexp.Star (Regexp.Cat label (Regexp.Chr dot))) label.

(** [(L\.)*L$], the pattern of [resource_server_test.go]. *)
Definition hostname_pattern : Regexp.pattern :=
  Regexp.mkPattern false hostname_body true.

(** [^(L\.)*L$], the pattern the later test expects of [hostnameRegex]. *)
Definition hostnameRegex : Regexp.pattern :=
  Regexp.mkPattern true hostname_body true.

(** A hostname label read directly: letters, digits and hyphens, with a
    letter or digit at both ends. *)
Definition valid_label (l : list ascii) : bool :=
  match l with
  | [] => false
  | first :: _ =>
      alnum first && forallb alnum_dash l && alnum (List.last l first)
  end.

(** The labels of a text: the pieces between its dots. *)
Fixpoint labels (s : list ascii) : list (list ascii) :=
  match s with
  | [] => [[]]
  | c :: rest =>
      if dot c then [] :: labels rest
      else match labels rest with
           | [] => [[c]]
           | l :: ls => (c :: l) :: ls
           end
  end.

(** A hostname read directly: every piece between dots is a valid label. *)
Definition valid_hostname (s : string) : bool :=
  forallb valid_label (labels (list_ascii_of_string s)).

(** Unfold a call on the mock and split on the hook and on its result. *)
Ltac unfold_mock_call :=
  unfold Mock.call, Mock.CreateServer, Mock.GetServer, Mock.BuildServer,
    Mock.DeleteServer, Mock.UnlinkServer, Mock.CreateSSHKey, Mock.GetSSHKey,
    Mock.DeleteSSHKey, Mock.CreateBGPSessions, Mock.GetBGPSessions,
    Mock.GetIPs, Mock.GetLocations, Mock.GetOSs.

Ltac split_mock_call :=
  unfold_mock_call; cbn;
  repeat match goal with
         | |- context [match ?x with _ => _ end] =>
             lazymatch type of x with
             | option _ => destruct x eqn:?
             end
         end;
  cbn;
  repeat match goal with
         | |- context [match ?x with _ => _ end] =>
             lazymatch type of x with
             | prod _ _ => destruct x as [? ?]
             end
         end;
  cbn.

(** ** Proof automation *)

(** Unfold a method call and split on every injected-error test and map
    lookup in it. *)
Ltac unfold_call :=
  unfold call, CreateServer, GetServer, BuildServer, DeleteServer,
    UnlinkServer, CreateSSHKey, GetSSHKey, DeleteSSHKey, CreateBGPSessions,
    GetBGPSessions, GetIPs, GetLocations, GetOSs.

Ltac split_call :=
  unfold_call;
  repeat (cbn;
          match goal with
          | |- context [match ?x with _ => _ end] =>
              lazymatch type of x with
              | option _ => destruct x eqn:?
              end
          end);
  cbn.

(** * Properties *)

(** ** Arithmetic of [int] *)

Section GoIntFacts.

Import GoInt.

Lemma wrap_in_range z : in_range z → wrap z = z.
Proof.
  unfold in_range, wrap, MinInt, MaxInt, bits. intros Hz.
  rewrite Z.mod_small; lia.
Qed.

Lemma wrap_is_in_range z : in_range (wrap z).
Proof.
  unfold in_range, wrap, MinInt, MaxInt, bits.
  pose proof (Z.mod_pos_bound (z - - 2 ^ (64 - 1)) (2 ^ 64) ltac:(lia)). lia.
Qed.

Lemma wrap_wrap_add a b : wrap (wrap a + b) = wrap (a + b).
Proof.
  unfold wrap. f_equal.
  replace ((a - MinInt) mod 2 ^ bits + MinInt + b - MinInt)
    with ((a - MinInt) mod 2 ^ bits + b) by lia.
  rewrite Zplus_mod_idemp_l. f_equal. lia.
Qed.

Lemma incr_below_max x : MinInt <= x < MaxInt → incr x = x + 1.
Proof.
  intros Hx. unfold incr. apply wrap_in_range. unfold in_range. lia.
Qed.

(** On non-negative values Go's [%] is the mathematical [mod]. *)
Lemma rem_nonneg x : 0 <= x → rem x 256 = x mod 256.
Proof. intros Hx. unfold rem. apply Z.rem_mod_nonneg; lia. Qed.

End GoIntFacts.

(** ** Error texts *)

Lemma Contains_app_r (a b t : string) :
  Contains b t = true → Contains (a +:+ b) t = true.
Proof.
  intros Hb. induction a as [|c a IH]; simpl; [exact Hb|].
  rewrite IH. apply orb_true_r.
Qed.

Lemma server_not_found_is_not_found id :
  is_not_found (server_not_found id) = true.
Proof.
  unfold is_not_found, server_not_found. simpl Error.
  do 2 apply Contains_app_r. reflexivity.
Qed.

Lemma ssh_key_not_found_is_not_found id :
  is_not_found (ssh_key_not_found id) = true.
Proof.
  unfold is_not_found, ssh_key_not_found. simpl Error.
  do 2 apply Contains_app_r. reflexivity.
Qed.

(** ** The name-resolution loops *)

Lemma range_oses_status l image s :
  ServerStatus (range_oses l image s) = ServerStatus s.
Proof.
  induction l as [|os l IH]; simpl; [done|]. by destruct (OS_ID os =? image).
Qed.

Lemma range_locations_status l location s :
  ServerStatus (range_locations l location s) = ServerStatus s.
Proof.
  induction l as [|loc l IH]; simpl; [done|].
  by destruct (Location_ID loc =? location).
Qed.

Lemma range_oses_location l image s :
  Server_Location (range_oses l image s) = Server_Location s.
Proof.
  induction l as [|os l IH]; simpl; [done|]. by destruct (OS_ID os =? image).
Qed.

Lemma range_locations_OS l location s :
  Server_OS (range_locations l location s) = Server_OS s.
Proof.
  induction l as [|loc l IH]; simpl; [done|].
  by destruct (Location_ID loc =? location).
Qed.

Lemma range_oses_miss l image s :
  (∀ os, os ∈ l → OS_ID os ≠ image) → range_oses l image s = s.
Proof.
  induction l as [|os l IH]; intros Hmiss; simpl; [done|].
  destruct (Z.eqb_spec (OS_ID os) image) as [Heq|_].
  - exfalso. apply (Hmiss os); [left | exact Heq].
  - apply IH. intros os' Hin. apply Hmiss. by right.
Qed.

Lemma range_locations_miss l location s :
  (∀ loc, loc ∈ l → Location_ID loc ≠ location) →
  range_locations l location s = s.
Proof.
  induction l as [|loc l IH]; intros Hmiss; simpl; [done|].
  destruct (Z.eqb_spec (Location_ID loc) location) as [Heq|_].
  - exfalso. apply (Hmiss loc); [left | exact Heq].
  - apply IH. intros loc' Hin. apply Hmiss. by right.
Qed.

(** ** CreateServer on a fresh backend *)

(** C3: on a fresh backend, creating a server from a request with
    FQDN "test.example.com", Location 1 and Image 1 succeeds with the build
    result (id 1000, "building", 1); the stored server carries the request's
    name, status RUNNING, the names of location 1 and OS 1 and the two
    addresses derived from the id.  On any backend without an injected
    CreateServer error, an image or location id that no reference entry has
    leaves the corresponding name empty and the call still succeeds. *)
Theorem C3_create_server_scenario (r : CreateServerRequest) (f : FakeClient) :
  (FQDN r = "test.example.com" → Location r = 1 → Image r = 1 →
   ∃ f' s,
     CreateServer r NewFakeClient
       = (f', (mkServerBuild 1000 "building" 1, None))
     ∧ servers f' !! 1000 = Some s
     ∧ Server_ID s = 1000
     ∧ Server_Name s = "test.example.com"
     ∧ ServerStatus s = "RUNNING"
     ∧ Server_Location s = "AMS Amsterdam"
     ∧ Server_OS s = "Ubuntu 22.04 LTS"
     ∧ PrimaryIPv4 s = "192.0.2." +:+ fmt.d (1000 mod 256)
     ∧ PrimaryIPv4 s = "192.0.2.232"
     ∧ PrimaryIPv6 s = "2001:db8::" +:+ fmt.x 1000
     ∧ PrimaryIPv6 s = "2001:db8::3e8")
  ∧
  (CreateServerError f = None →
   ∃ f' s,
     CreateServer r f
       = (f', (mkServerBuild (nextServerID f) "building" 1, None))
     ∧ servers f' !! nextServerID f = Some s
     ∧ ((∀ os, os ∈ oses f → OS_ID os ≠ Image r) → Server_OS s = "")
     ∧ ((∀ loc, loc ∈ locations f → Location_ID loc ≠ Location r) →
        Server_Location s = "")).
Proof.
  split.
  - intros Hname Hloc Himg. eexists _, _.
    split; [reflexivity|]. split; [cbn; by rewrite lookup_insert_eq|].
    rewrite Hname, Hloc, Himg. cbn. by repeat split.
  - intros Herr. unfold CreateServer. cbn. rewrite Herr. eexists _, _.
    split; [reflexivity|]. split; [cbn; by rewrite lookup_insert_eq|].
    split.
    + intros Hmiss. rewrite range_locations_OS.
      by rewrite (range_oses_miss _ _ _ Hmiss).
    + intros Hmiss. rewrite (range_locations_miss _ _ _ Hmiss).
      by rewrite range_oses_location.
Qed.

Lemma C3_create_server_scenario_witness :
  (∃ f' s,
     CreateServer (mkCreateServerRequest "test-plan" 1 1 "test.example.com"
                     "usage" "contract-123") NewFakeClient
       = (f', (mkServerBuild 1000 "building" 1, None))
     ∧ servers f' !! 1000 = Some s
     ∧ Server_Location s = "AMS Amsterdam"
     ∧ Server_OS s = "Ubuntu 22.04 LTS")
  ∧
  (∃ f' s,
     CreateServer (mkCreateServerRequest "test-plan" 9 7 "miss.example.com"
                     "usage" "") NewFakeClient
       = (f', (mkServerBuild 1000 "building" 1, None))
     ∧ servers f' !! 1000 = Some s
     ∧ Server_OS s = "" ∧ Server_Location s = "").
Proof.
  split.
  - destruct (C3_create_server_scenario
                (mkCreateServerRequest "test-plan" 1 1 "test.example.com"
                   "usage" "contract-123") NewFakeClient) as [Hscenario _].
    destruct (Hscenario eq_refl eq_refl eq_refl)
      as (f' & s & Hcall & Hget & _ & _ & _ & Hl & Ho & _).
    exists f', s. by repeat split.
  - destruct (C3_create_server_scenario
                (mkCreateServerRequest "test-plan" 9 7 "miss.example.com"
                   "usage" "") NewFakeClient) as [_ Hmiss].
    destruct (Hmiss eq_refl) as (f' & s & Hcall & Hget & Ho & Hl).
    exists f', s. repeat split; [exact Hcall | exact Hget | |].
    + apply Ho. intros os Hin. cbn in Hin.
      repeat (apply elem_of_cons in Hin as [-> | Hin]; [cbn; lia|]).
      by apply elem_of_nil in Hin.
    + apply Hl. intros loc Hin. cbn in Hin.
      repeat (apply elem_of_cons in Hin as [-> | Hin]; [cbn; lia|]).
      by apply elem_of_nil in Hin.
Defined.

(** ** Hard unlink *)

(** C5: without injected errors, UnlinkServer returns no error whether or
    not the id is stored, a following GetServer fails with the not-found
    error, and a second UnlinkServer returns no error and leaves the entity
    state as the first call left it. *)
Theorem C5_unlink_idempotent (f : FakeClient) (id : Z) :
  UnlinkServerError f = None → GetServerError f = None →
  ∃ f1 f2 f3 e,
    UnlinkServer id f = (f1, None)
    ∧ servers f1 !! id = None
    ∧ GetServer id f1 = (f2, (zero_Server, Some e))
    ∧ e = server_not_found id
    ∧ is_not_found e = true
    ∧ UnlinkServer id f1 = (f3, None)
    ∧ entities f3 = entities f1.
Proof.
  intros Hunlink Hget. unfold UnlinkServer at 1. cbn. rewrite Hunlink.
  eexists _, _, _, _. split; [reflexivity|].
  split; [cbn; apply lookup_delete_eq|].
  unfold GetServer. cbn. rewrite Hget, lookup_delete_eq.
  split; [reflexivity|]. split; [reflexivity|].
  split; [apply server_not_found_is_not_found|].
  unfold UnlinkServer. cbn. rewrite Hunlink. split; [reflexivity|].
  unfold entities. cbn. by rewrite delete_delete_eq.
Qed.

Lemma C5_unlink_idempotent_witness :
  ∃ f1 f3,
    UnlinkServer 1000 (CreateServer (mkCreateServerRequest "" 1 1 "h" "" "")
                         NewFakeClient).1 = (f1, None)
    ∧ UnlinkServer 1000 f1 = (f3, None)
    ∧ entities f3 = entities f1.
Proof.
  destruct (C5_unlink_idempotent
              (CreateServer (mkCreateServerRequest "" 1 1 "h" "" "")
                 NewFakeClient).1 1000 eq_refl eq_refl)
    as (f1 & f2 & f3 & e & H1 & _ & _ & _ & _ & H2 & H3).
  by exists f1, f3.
Defined.

(** ** IP allocations *)

(** C6: without an injected GetIPs error, GetIPs never fails and changes no
    entity state; it returns the stored allocation when there is one (in
    particular the one SetIPs stored), else for a stored server one IPv4
    address "192.0.2." followed by id % 256 and one IPv6 address
    "2001:db8::" followed by the id in hex, else the empty allocation. *)
Theorem C6_get_ips (f : FakeClient) (id : Z) :
  GetIPsError f = None →
  (∃ f' a,
     GetIPs id f = (f', (a, None))
     ∧ entities f' = entities f
     ∧ match ips f !! id, servers f !! id with
       | Some stored, _ => a = stored
       | None, Some _ =>
           a = {| IPv4 := [ mkIP 1 ("192.0.2." +:+ fmt.d (GoInt.rem id 256)) 1
                              "192.0.2.1" "255.255.255.0" "" "" ];
                  IPv6 := [ mkIP 2 ("2001:db8::" +:+ fmt.x id) 1
                              "2001:db8::1" "ffff:ffff:ffff:ffff::" "" "" ] |}
           ∧ (0 <= id → GoInt.rem id 256 = id mod 256)
       | None, None => a = mkIPs [] []
       end)
  ∧ (∀ stored, ∃ f', GetIPs id (SetIPs id stored f) = (f', (stored, None))).
Proof.
  intros Herr. split.
  - unfold GetIPs. cbn. rewrite Herr.
    destruct (ips f !! id) as [stored|] eqn:Hips.
    + eexists _, _. by repeat split.
    + destruct (servers f !! id) as [s|] eqn:Hs; eexists _, _.
      * repeat split. apply rem_nonneg.
      * by repeat split.
  - intros stored. unfold GetIPs. cbn. rewrite Herr, lookup_insert_eq.
    by eexists.
Qed.

Lemma C6_get_ips_witness :
  (∃ f' a, GetIPs 1000 (CreateServer (mkCreateServerRequest "" 1 1 "h" "" "")
                          NewFakeClient).1 = (f', (a, None))
           ∧ a = {| IPv4 := [ mkIP 1 "192.0.2.232" 1 "192.0.2.1"
                                "255.255.255.0" "" "" ];
                    IPv6 := [ mkIP 2 "2001:db8::3e8" 1 "2001:db8::1"
                                "ffff:ffff:ffff:ffff::" "" "" ] |})
  ∧ (∃ f' a, GetIPs 99999 NewFakeClient = (f', (a, None)) ∧ a = mkIPs [] []).
Proof.
  split.
  - destruct (C6_get_ips (CreateServer (mkCreateServerRequest "" 1 1 "h" "" "")
                            NewFakeClient).1 1000 eq_refl)
      as [(f' & a & Hcall & _ & Ha) _].
    exists f', a. split; [exact Hcall|]. cbn in Ha.
    rewrite lookup_insert_eq in Ha. by destruct Ha as [-> _].
  - destruct (C6_get_ips NewFakeClient 99999 eq_refl)
      as [(f' & a & Hcall & _ & Ha) _].
    by exists f', a.
Defined.

(** ** Injected errors *)

Lemma trackCall_entities c f : entities (trackCall c f) = entities f.
Proof. reflexivity. Qed.

Lemma trackCall_injected c f : injected (trackCall c f) = injected f.
Proof. reflexivity. Qed.

(** C7: a method whose injected error field holds e returns e itself and
    leaves the entity state (maps, reference lists, counters) and the
    injected errors as they were; only the call log grows. *)
Theorem C7_injected_error_short_circuits (op : Op) (f : FakeClient) (e : error) :
  injected_error op f = Some e →
  ∃ f' ret,
    call op f = (f', (ret, Some e))
    ∧ entities f' = entities f
    ∧ injected f' = injected f
    ∧ length (calls f') = S (length (calls f)).
Proof.
  intros He.
  destruct op; cbn in He;
    unfold call, CreateServer, GetServer, BuildServer, DeleteServer,
      UnlinkServer, CreateSSHKey, GetSSHKey, DeleteSSHKey, CreateBGPSessions,
      GetBGPSessions, GetIPs, GetLocations, GetOSs;
    cbn; rewrite He; eexists _, _;
    (split; [reflexivity|]); cbn;
    (repeat split); rewrite length_app; cbn; lia.
Qed.

Lemma C7_injected_error_short_circuits_witness :
  let f := mkFakeClient ∅ ∅ ∅ ∅ [] [] 1000 100 500
             None (Some (errorString "test error")) None None None None None
             None None None None None None [] in
  ∃ f' ret,
    call (OpGetServer 123) f = (f', (ret, Some (errorString "test error")))
    ∧ entities f' = entities f.
Proof.
  intros f.
  destruct (C7_injected_error_short_circuits (OpGetServer 123) f
              (errorString "test error") eq_refl)
    as (f' & ret & Hcall & Hent & _).
  by exists f', ret.
Defined.

(** ** Flags the fake accepts and ignores *)

(** C8: two DeleteServer calls that differ only in cancelBilling, and two
    CreateBGPSessions calls that differ only in redundant, return the same
    result and leave the same entity state. *)
Theorem C8_flags_ignored (f : FakeClient) (id mbPkgID groupID : Z)
    (isIPV6 cancel1 cancel2 redundant1 redundant2 : bool) :
  ((DeleteServer id cancel1 f).2 = (DeleteServer id cancel2 f).2
   ∧ entities (DeleteServer id cancel1 f).1
     = entities (DeleteServer id cancel2 f).1)
  ∧
  ((CreateBGPSessions mbPkgID groupID isIPV6 redundant1 f).2
   = (CreateBGPSessions mbPkgID groupID isIPV6 redundant2 f).2
   ∧ entities (CreateBGPSessions mbPkgID groupID isIPV6 redundant1 f).1
     = entities (CreateBGPSessions mbPkgID groupID isIPV6 redundant2 f).1).
Proof.
  split.
  - unfold DeleteServer. cbn.
    destruct (DeleteServerError f); [done|].
    by destruct (servers f !! id).
  - unfold CreateBGPSessions. cbn.
    destruct (CreateBGPSessionsError f); [done|].
    by destruct (bgpSessions f !! mbPkgID).
Qed.

(** The flag does reach the call log. *)
Lemma cancelBilling_in_call_log :
  calls (DeleteServer 5 true NewFakeClient).1
  ≠ calls (DeleteServer 5 false NewFakeClient).1.
Proof. cbn. discriminate. Qed.

(** ** Seeding helpers and the id counter *)

(** C10: AddServer stores a record under its own id and leaves the id
    counter alone; after AddServer with id 1000 on a fresh backend,
    CreateServer returns id 1000 without error and the record built from
    the request takes the place of the seeded one. *)
Theorem C10_add_server_collision (seeded : Server) (r : CreateServerRequest)
    (f : FakeClient) :
  nextServerID (AddServer seeded f) = nextServerID f
  ∧ (Server_ID seeded = 1000 →
     servers (AddServer seeded NewFakeClient) !! 1000 = Some seeded
     ∧ ∃ f' created,
         CreateServer r (AddServer seeded NewFakeClient)
           = (f', (mkServerBuild 1000 "building" 1, None))
         ∧ servers f' !! 1000 = Some created
         ∧ Server_Name created = FQDN r
         ∧ ServerStatus created = "RUNNING"
         ∧ servers f' = servers (CreateServer r NewFakeClient).1).
Proof.
  split; [reflexivity|]. intros Hid. unfold AddServer. rewrite Hid. split.
  - cbn. apply lookup_insert_eq.
  - eexists _, _. split; [reflexivity|]. cbn.
    split; [apply lookup_insert_eq|].
    split; [by repeat case_match|].
    split; [by repeat case_match|].
    apply insert_insert_eq.
Qed.

Lemma C10_add_server_collision_witness :
  let seeded := mkServer 1000 "custom.example.com" "" 0 "" "" 0 "" "" "" "" 0
                  "TERMINATED" "" 0 "" in
  let r := mkCreateServerRequest "plan" 1 1 "test.example.com" "" "" in
  servers (AddServer seeded NewFakeClient) !! 1000 = Some seeded
  ∧ ∃ f' created,
      CreateServer r (AddServer seeded NewFakeClient)
        = (f', (mkServerBuild 1000 "building" 1, None))
      ∧ servers f' !! 1000 = Some created
      ∧ Server_Name created = "test.example.com"
      ∧ ServerStatus created = "RUNNING".
Proof.
  intros seeded r.
  destruct (C10_add_server_collision seeded r NewFakeClient) as [_ Hcollide].
  destruct (Hcollide eq_refl)
    as (Hseeded & f' & created & Hcall & Hget & Hname & Hstatus & _).
  split; [exact Hseeded|]. by exists f', created.
Defined.

(** ** Provider configuration *)

(** C9: with no key in the configuration (absent or empty) and the
    environment variable unset, both providers report exactly one
    diagnostic, of severity error, with summary "Unable to create NetActuate
    API client", and hand out no client; with a non-empty configured key
    both report no diagnostic and hand out one client, built by
    NewClientCustom on the given URL when it is non-empty and by NewClient
    otherwise. *)
Theorem C9_provider_configuration :
  (∀ d : SDK.ResourceData,
     (SDK.raw_api_key d = None ∨ SDK.raw_api_key d = Some "") →
     SDK.NETACTUATE_API_KEY d = "" →
     ∃ dg, SDK.providerConfigure d = (None, [dg])
           ∧ diag.severity dg = diag.Error
           ∧ diag.Summary dg = "Unable to create NetActuate API client")
  ∧
  (∀ (d : SDK.ResourceData) (k : string),
     SDK.raw_api_key d = Some k → k ≠ "" →
     SDK.providerConfigure d
     = (Some match SDK.raw_api_url d with
             | None | Some EmptyString => gona.NewClient k
             | Some u => gona.NewClientCustom k u
             end, []))
  ∧
  (∀ config : Framework.FrameworkProviderModel,
     Framework.ValueString (Framework.ApiKey config) = "" →
     ∃ dg,
       Framework.Configure (Framework.mkRequest (config, []))
         Framework.empty_response
       = Framework.mkResponse None None [dg]
       ∧ diag.Errors [dg] = [dg]
       ∧ diag.Summary dg = "Unable to create NetActuate API client")
  ∧
  (∀ (config : Framework.FrameworkProviderModel) (k : string),
     Framework.ApiKey config = Framework.StringValue k → k ≠ "" →
     ∃ client,
       Framework.Configure (Framework.mkRequest (config, []))
         Framework.empty_response
       = Framework.mkResponse (Some client) (Some client) []
       ∧ client = match Framework.ValueString (Framework.ApiUrl config) with
                  | EmptyString => gona.NewClient k
                  | u => gona.NewClientCustom k u
                  end).
Proof.
  repeat split.
  - intros d Hkey Henv. unfold SDK.providerConfigure.
    rewrite Henv. destruct Hkey as [-> | ->]; cbn; by eexists.
  - intros d k Hkey Hk. unfold SDK.providerConfigure. rewrite Hkey. cbn.
    apply String.eqb_neq in Hk. rewrite Hk.
    destruct (SDK.raw_api_url d) as [[|c u]|]; reflexivity.
  - intros config Hkey. unfold Framework.Configure. cbn. rewrite Hkey. cbn.
    by eexists.
  - intros config k Hkey Hk. unfold Framework.Configure. cbn.
    rewrite Hkey. cbn. apply String.eqb_neq in Hk. rewrite Hk.
    eexists. split; [reflexivity|].
    by destruct (Framework.ValueString (Framework.ApiUrl config)).
Qed.

Lemma C9_provider_configuration_witness :
  (∃ dg, SDK.providerConfigure (SDK.mkResourceData None None "") = (None, [dg])
         ∧ diag.Summary dg = "Unable to create NetActuate API client")
  ∧ SDK.providerConfigure
      (SDK.mkResourceData (Some "test-key")
         (Some "https://custom.netactuate.example.com/api") "")
    = (Some (gona.NewClientCustom "test-key"
               "https://custom.netactuate.example.com/api"), [])
  ∧ (∃ dg,
       Framework.Configure
         (Framework.mkRequest
            (Framework.mkModel (Framework.StringValue "") Framework.StringNull,
             [])) Framework.empty_response
       = Framework.mkResponse None None [dg])
  ∧ Framework.Configure
      (Framework.mkRequest
         (Framework.mkModel (Framework.StringValue "test-api-key")
            Framework.StringNull, [])) Framework.empty_response
    = Framework.mkResponse (Some (gona.NewClient "test-api-key"))
        (Some (gona.NewClient "test-api-key")) [].
Proof.
  destruct C9_provider_configuration as (Hsdk_miss & Hsdk_ok & Hfw_miss & Hfw_ok).
  split; [|split; [|split]].
  - destruct (Hsdk_miss (SDK.mkResourceData None None "") (or_introl eq_refl)
                eq_refl) as (dg & Hcfg & _ & Hsum).
    by exists dg.
  - apply (Hsdk_ok (SDK.mkResourceData (Some "test-key")
                      (Some "https://custom.netactuate.example.com/api") "")
             "test-key" eq_refl).
    discriminate.
  - destruct (Hfw_miss (Framework.mkModel (Framework.StringValue "")
                          Framework.StringNull) eq_refl) as (dg & Hcfg & _).
    by exists dg.
  - destruct (Hfw_ok (Framework.mkModel (Framework.StringValue "test-api-key")
                        Framework.StringNull) "test-api-key" eq_refl
                ltac:(discriminate)) as (client & Hcfg & ->).
    exact Hcfg.
Defined.

(** The framework provider never reads the environment: with the key only
    in the variable, the legacy provider configures a client and the
    framework provider reports the missing key. *)
Lemma environment_key_only_legacy :
  SDK.providerConfigure (SDK.mkResourceData None None "env-api-key-999")
  = (Some (gona.NewClient "env-api-key-999"), [])
  ∧ Framework.DataSourceData
      (Framework.Configure
         (Framework.mkRequest
            (Framework.mkModel Framework.StringNull Framework.StringNull, []))
         Framework.empty_response) = None.
Proof. split; reflexivity. Qed.

(** ** Status transitions of a stored server *)

(** C2, as first stated, fails: after CreateServer, DeleteServer and
    BuildServer on a fresh backend the server is RUNNING again, so
    BuildServer takes a TERMINATED server back to RUNNING. *)
Lemma C2_build_revives_terminated :
  let r := mkCreateServerRequest "plan" 1 1 "test.example.com" "" "" in
  let b := mkBuildServerRequest 2 2 "rebuilt.example.com" "" "" in
  let before := run [OpCreateServer r; OpDeleteServer 1000 true] NewFakeClient in
  let after := (call (OpBuildServer 1000 b) before).1 in
  ServerStatus <$> servers before !! 1000 = Some "TERMINATED"
  ∧ ServerStatus <$> servers after !! 1000 = Some "RUNNING"
  ∧ ¬ (ServerStatus <$> servers after !! 1000
       = ServerStatus <$> servers before !! 1000).
Proof.
  vm_compute. repeat split. discriminate.
Qed.

(** C2 (amended): one interface call changes the status of a stored server
    exactly as follows.  When the method has no injected error, DeleteServer
    on its id sets TERMINATED and keeps the record, BuildServer on its id
    sets RUNNING whatever the status was, UnlinkServer on its id removes the
    record, and CreateServer puts a RUNNING record in its place when the id
    it allocates is this one.  Every other call, and every call that
    returns its injected error, leaves the record with the status it
    had. *)
Theorem C2_status_transitions (op : Op) (f : FakeClient) (id : Z) (s : Server) :
  servers f !! id = Some s →
  ServerStatus <$> servers (call op f).1 !! id
  = match injected_error op f, op with
    | None, OpDeleteServer id' _ =>
        if decide (id' = id) then Some "TERMINATED" else Some (ServerStatus s)
    | None, OpBuildServer id' _ =>
        if decide (id' = id) then Some "RUNNING" else Some (ServerStatus s)
    | None, OpUnlinkServer id' =>
        if decide (id' = id) then None else Some (ServerStatus s)
    | None, OpCreateServer _ =>
        if decide (nextServerID f = id) then Some "RUNNING"
        else Some (ServerStatus s)
    | _, _ => Some (ServerStatus s)
    end.
Proof.
  intros Hs. destruct op as [r|id'|id' r|id' cb|id'|name key|id'|id'
                            |pkg grp v6 red|pkg|pkg| |];
    cbn [injected_error].
  - (* CreateServer *)
    unfold call, CreateServer. cbn.
    destruct (CreateServerError f); cbn; [by rewrite Hs|].
    destruct (decide (nextServerID f = id)) as [Heq|Hne].
    + rewrite Heq, lookup_insert_eq. cbn.
      by rewrite range_locations_status, range_oses_status.
    + rewrite lookup_insert_ne by done. by rewrite Hs.
  - (* GetServer *)
    unfold call, GetServer. cbn.
    destruct (GetServerError f); cbn; [by rewrite Hs|].
    destruct (servers f !! id'); cbn; by rewrite Hs.
  - (* BuildServer *)
    unfold call, BuildServer. cbn.
    destruct (BuildServerError f); cbn; [by rewrite Hs|].
    destruct (decide (id' = id)) as [Heq|Hne].
    + rewrite Heq, Hs. cbn. rewrite lookup_insert_eq. cbn.
      by rewrite range_locations_status, range_oses_status.
    + destruct (servers f !! id') as [old|]; cbn;
        rewrite ?lookup_insert_ne by done; by rewrite Hs.
  - (* DeleteServer *)
    unfold call, DeleteServer. cbn.
    destruct (DeleteServerError f); cbn; [by rewrite Hs|].
    destruct (decide (id' = id)) as [Heq|Hne].
    + rewrite Heq, Hs. cbn. by rewrite lookup_insert_eq.
    + destruct (servers f !! id') as [old|]; cbn;
        rewrite ?lookup_insert_ne by done; by rewrite Hs.
  - (* UnlinkServer *)
    unfold call, UnlinkServer. cbn.
    destruct (UnlinkServerError f); cbn; [by rewrite Hs|].
    destruct (decide (id' = id)) as [Heq|Hne].
    + by rewrite Heq, lookup_delete_eq.
    + rewrite lookup_delete_ne by done. by rewrite Hs.
  - unfold call, CreateSSHKey. cbn.
    destruct (CreateSSHKeyError f); cbn; by rewrite Hs.
  - unfold call, GetSSHKey. cbn.
    destruct (GetSSHKeyError f); cbn; [by rewrite Hs|].
    destruct (sshKeys f !! id'); cbn; by rewrite Hs.
  - unfold call, DeleteSSHKey. cbn.
    destruct (DeleteSSHKeyError f); cbn; [by rewrite Hs|].
    destruct (sshKeys f !! id'); cbn; by rewrite Hs.
  - unfold call, CreateBGPSessions. cbn.
    destruct (CreateBGPSessionsError f); cbn; [by rewrite Hs|].
    destruct (bgpSessions f !! pkg); cbn; by rewrite Hs.
  - unfold call, GetBGPSessions. cbn.
    destruct (GetBGPSessionsError f); cbn; [by rewrite Hs|].
    destruct (bgpSessions f !! pkg); cbn; by rewrite Hs.
  - unfold call, GetIPs. cbn.
    destruct (GetIPsError f); cbn; [by rewrite Hs|].
    destruct (ips f !! pkg); cbn; [by rewrite Hs|].
    destruct (servers f !! pkg); cbn; by rewrite Hs.
  - unfold call, GetLocations. cbn.
    destruct (GetLocationsError f); cbn; by rewrite Hs.
  - unfold call, GetOSs. cbn.
    destruct (GetOSsError f); cbn; by rewrite Hs.
Qed.

Lemma C2_status_transitions_witness :
  let stored := mkServer 7 "a.example.com" "" 0 "" "" 0 "" "" "" "" 0
                  "TERMINATED" "off" 1 "" in
  let b := mkBuildServerRequest 2 2 "rebuilt.example.com" "" "" in
  let f := AddServer stored NewFakeClient in
  servers f !! 7 = Some stored
  ∧ ServerStatus <$> servers (call (OpBuildServer 7 b) f).1 !! 7 = Some "RUNNING"
  ∧ ServerStatus <$> servers (call (OpDeleteServer 7 true) f).1 !! 7
    = Some "TERMINATED"
  ∧ ServerStatus <$> servers (call (OpGetServer 7) f).1 !! 7 = Some "TERMINATED"
  ∧ ServerStatus <$> servers (call (OpUnlinkServer 7) f).1 !! 7 = None.
Proof.
  intros stored b f.
  assert (Hstored : servers f !! 7 = Some stored) by (vm_compute; reflexivity).
  split; [exact Hstored|]. split; [|split; [|split]].
  - exact (C2_status_transitions (OpBuildServer 7 b) f 7 stored Hstored).
  - exact (C2_status_transitions (OpDeleteServer 7 true) f 7 stored Hstored).
  - exact (C2_status_transitions (OpGetServer 7) f 7 stored Hstored).
  - exact (C2_status_transitions (OpUnlinkServer 7) f 7 stored Hstored).
Defined.

(** ** Server ids handed out by CreateServer *)

Lemma call_injected op f : injected (call op f).1 = injected f.
Proof. destruct op; split_call; reflexivity. Qed.

Lemma call_CreateServerError op f :
  CreateServerError (call op f).1 = CreateServerError f.
Proof.
  pose proof (call_injected op f) as H. unfold injected in H. congruence.
Qed.

Lemma call_other_nextServerID op f :
  is_create op = false → nextServerID (call op f).1 = nextServerID f.
Proof.
  destruct op; try discriminate; intros _; split_call; reflexivity.
Qed.

Lemma created_ids_other op rest f :
  is_create op = false → created_ids (op :: rest) f = created_ids rest (call op f).1.
Proof.
  intros Hop. cbn [created_ids].
  destruct (call op f) as [f' [ret err]]. cbn.
  destruct op; try discriminate; reflexivity.
Qed.

Lemma created_ids_create r rest f :
  CreateServerError f = None →
  created_ids (OpCreateServer r :: rest) f
  = nextServerID f :: created_ids rest (call (OpCreateServer r) f).1
  ∧ nextServerID (call (OpCreateServer r) f).1 = GoInt.incr (nextServerID f).
Proof.
  intros Herr. cbn [created_ids]. unfold call, CreateServer. cbn.
  rewrite Herr. by cbn.
Qed.

Lemma creates_cons op ops :
  creates (op :: ops) = if is_create op then S (creates ops) else creates ops.
Proof. unfold creates. cbn. by destruct (is_create op). Qed.

Lemma length_created_ids ops f :
  CreateServerError f = None → length (created_ids ops f) = creates ops.
Proof.
  revert f. induction ops as [|op ops IH]; intros f Herr; [done|].
  destruct (is_create op) eqn:Hop.
  - destruct op; try discriminate.
    destruct (created_ids_create r ops f Herr) as [-> _].
    rewrite creates_cons, Hop. cbn [length]. f_equal. apply IH.
    by rewrite call_CreateServerError.
  - rewrite created_ids_other by done. rewrite creates_cons, Hop.
    apply IH. by rewrite call_CreateServerError.
Qed.

(** The i-th id handed out is the counter's start plus i, wrapped to [int]. *)
Lemma created_ids_lookup ops : ∀ f (i : nat),
  CreateServerError f = None → GoInt.in_range (nextServerID f) →
  (i < creates ops)%nat →
  created_ids ops f !! i = Some (GoInt.wrap (nextServerID f + Z.of_nat i)).
Proof.
  induction ops as [|op ops IH]; intros f i Herr Hrange Hi;
    [unfold creates in Hi; cbn in Hi; lia|].
  rewrite creates_cons in Hi.
  destruct (is_create op) eqn:Hop.
  - destruct op; try discriminate.
    destruct (created_ids_create r ops f Herr) as [-> Hnext].
    destruct i as [|i].
    + cbn. f_equal. rewrite Z.add_0_r. symmetry. by apply wrap_in_range.
    + cbn [lookup list_lookup]. rewrite IH.
      * rewrite Hnext. unfold GoInt.incr. rewrite wrap_wrap_add.
        do 2 f_equal. lia.
      * by rewrite call_CreateServerError.
      * rewrite Hnext. apply wrap_is_in_range.
      * lia.
  - rewrite created_ids_other by done.
    rewrite IH.
    + by rewrite call_other_nextServerID.
    + by rewrite call_CreateServerError.
    + by rewrite call_other_nextServerID.
    + exact Hi.
Qed.

Lemma creates_repeat r (n : nat) : creates (repeat (OpCreateServer r) n) = n.
Proof.
  induction n as [|n IH]; [done|]. cbn [repeat]. by rewrite creates_cons, IH.
Qed.

Lemma NewFakeClient_counter_in_range : GoInt.in_range (nextServerID NewFakeClient).
Proof. unfold GoInt.in_range. cbn. unfold GoInt.MinInt, GoInt.MaxInt, GoInt.bits. lia. Qed.

(** While the counter has not passed the largest [int], the ids count up
    from 1000. *)
Lemma ids_increase_before_overflow (ops : list Op) :
  Z.of_nat (creates ops) <= 2 ^ 63 - 1000 →
  length (created_ids ops NewFakeClient) = creates ops
  ∧ (∀ i : nat, (i < creates ops)%nat →
       created_ids ops NewFakeClient !! i = Some (1000 + Z.of_nat i))
  ∧ strictly_increasing (created_ids ops NewFakeClient)
  ∧ NoDup (created_ids ops NewFakeClient)
  ∧ (∀ first, head (created_ids ops NewFakeClient) = Some first → first = 1000).
Proof.
  intros Hbound.
  assert (Hlen : length (created_ids ops NewFakeClient) = creates ops)
    by by apply length_created_ids.
  assert (Hnth : ∀ i : nat, (i < creates ops)%nat →
            created_ids ops NewFakeClient !! i = Some (1000 + Z.of_nat i)).
  { intros i Hi.
    rewrite created_ids_lookup;
      [|reflexivity|apply NewFakeClient_counter_in_range|exact Hi].
    f_equal. apply wrap_in_range. cbn [nextServerID NewFakeClient].
    unfold GoInt.in_range, GoInt.MinInt, GoInt.MaxInt, GoInt.bits. lia. }
  assert (Hval : ∀ (i : nat) a, created_ids ops NewFakeClient !! i = Some a →
            a = 1000 + Z.of_nat i).
  { intros i a Hi. pose proof (lookup_lt_Some _ _ _ Hi) as Hlt.
    rewrite Hlen in Hlt. rewrite (Hnth i Hlt) in Hi. congruence. }
  split; [exact Hlen|]. split; [exact Hnth|]. split; [|split].
  - intros i j a b Hij Hi Hj. apply Hval in Hi, Hj. lia.
  - apply NoDup_alt. intros i j a Hi Hj. apply Hval in Hi, Hj. lia.
  - intros first Hhead. rewrite head_lookup in Hhead.
    apply Hval in Hhead. lia.
Qed.

(** Every call leaves one more entry in the log. *)
Lemma call_log_length op f :
  length (calls (call op f).1) = S (length (calls f)).
Proof. destruct op; split_call; rewrite length_app; cbn; lia. Qed.

Lemma run_log_length ops : ∀ f,
  length (calls (run ops f)) = (length (calls f) + length ops)%nat.
Proof.
  induction ops as [|op ops IH]; intros f; cbn [run length]; [lia|].
  rewrite IH, call_log_length. lia.
Qed.

Lemma creates_le_length ops : (creates ops <= length ops)%nat.
Proof.
  induction ops as [|op ops IH]; [done|]. rewrite creates_cons. cbn [length].
  destruct (is_create op); lia.
Qed.

(** A run whose log can be held makes fewer than 2^60 calls, far from
    the 2^63 - 1000 CreateServer calls it takes to exhaust [int]. *)
Lemma addressable_run_below_overflow ops :
  log_addressable (run ops NewFakeClient) →
  Z.of_nat (creates ops) <= 2 ^ 63 - 1000.
Proof.
  unfold log_addressable. rewrite run_log_length. cbn [calls NewFakeClient length].
  pose proof (creates_le_length ops). lia.
Qed.

(** C1: on a backend built by NewFakeClient and driven through the
    interface alone (no helper, no injected error), in every run that can
    be executed, that is whose call log can be held, every CreateServer
    call succeeds and the i-th returns 1000 + i: the first id is 1000, each
    id is unique and strictly greater than all ids before it, and no id
    comes back, whatever DeleteServer and UnlinkServer calls lie in
    between. *)
Theorem C1_created_ids_increase (ops : list Op) :
  log_addressable (run ops NewFakeClient) →
  length (created_ids ops NewFakeClient) = creates ops
  ∧ (∀ i : nat, (i < creates ops)%nat →
       created_ids ops NewFakeClient !! i = Some (1000 + Z.of_nat i))
  ∧ strictly_increasing (created_ids ops NewFakeClient)
  ∧ NoDup (created_ids ops NewFakeClient)
  ∧ (∀ first, head (created_ids ops NewFakeClient) = Some first → first = 1000).
Proof.
  intros Hrun. apply ids_increase_before_overflow.
  by apply addressable_run_below_overflow.
Qed.

Lemma C1_created_ids_increase_witness :
  let r := mkCreateServerRequest "plan" 1 1 "test.example.com" "" "" in
  let ops := [ OpCreateServer r; OpDeleteServer 1000 true; OpCreateServer r;
               OpUnlinkServer 1001; OpGetServer 1001; OpCreateServer r ] in
  created_ids ops NewFakeClient = [1000; 1001; 1002]
  ∧ strictly_increasing (created_ids ops NewFakeClient)
  ∧ NoDup (created_ids ops NewFakeClient).
Proof.
  intros r ops.
  assert (Hrun : log_addressable (run ops NewFakeClient))
    by (vm_compute; reflexivity).
  destruct (C1_created_ids_increase ops Hrun) as (_ & _ & Hinc & Hnodup & _).
  split; [vm_compute; reflexivity|]. by split.
Defined.

(** The counter is an [int] and would wrap: after 2^63 - 1000 calls, which
    hand out 1000 .. 2^63 - 1, one more CreateServer would return -2^63.
    No execution gets there: the log of such a run has more than 2^62
    entries and cannot be held. *)
Lemma counter_wrap_out_of_reach :
  let r := mkCreateServerRequest "plan" 1 1 "test.example.com" "" "" in
  let ops := repeat (OpCreateServer r) (N.to_nat 9223372036854774809) in
  ¬ strictly_increasing (created_ids ops NewFakeClient)
  ∧ ¬ log_addressable (run ops NewFakeClient).
Proof.
  intros r ops. split.
  - intros Hinc.
    assert (Hlast : created_ids ops NewFakeClient
                      !! N.to_nat 9223372036854774808
                    = Some (- 9223372036854775808)).
    { unfold ops. rewrite created_ids_lookup.
      - rewrite N_nat_Z. reflexivity.
      - reflexivity.
      - apply NewFakeClient_counter_in_range.
      - rewrite creates_repeat. lia. }
    assert (Hprev : created_ids ops NewFakeClient
                      !! N.to_nat 9223372036854774807
                    = Some 9223372036854775807).
    { unfold ops. rewrite created_ids_lookup.
      - rewrite N_nat_Z. reflexivity.
      - reflexivity.
      - apply NewFakeClient_counter_in_range.
      - rewrite creates_repeat. lia. }
    assert (Hlt : (N.to_nat 9223372036854774807
                   < N.to_nat 9223372036854774808)%nat) by lia.
    pose proof (Hinc _ _ _ _ Hlt Hprev Hlast). lia.
  - unfold log_addressable, ops. rewrite run_log_length, repeat_length.
    cbn [calls NewFakeClient length]. lia.
Qed.

(** ** Ids stored on a backend driven through the interface *)

(** A record found after a call was there before it, unless the call is the
    CreateServer that allocated its id. *)
Lemma call_stored_before op f id s' :
  servers (call op f).1 !! id = Some s' →
  is_Some (servers f !! id) ∨ (is_create op = true ∧ id = nextServerID f).
Proof.
  destruct op; split_call; intros Hafter; try (left; by eexists);
    try (apply lookup_insert_Some in Hafter as [[<- _]|[_ Hafter]];
         [|left; by eexists]);
    try (left; by eexists); try (by right).
  apply lookup_delete_Some in Hafter as [_ Hafter]. left; by eexists.
Qed.

(** While the counter stays within [int], every stored id lies between
    1000 and the counter, so CreateServer never lands on a record in use. *)
Lemma run_ids_below_counter ops : ∀ f,
  CreateServerError f = None →
  1000 <= nextServerID f →
  nextServerID f + Z.of_nat (creates ops) <= GoInt.MaxInt →
  (∀ id s, servers f !! id = Some s → 1000 <= id < nextServerID f) →
  nextServerID (run ops f) = nextServerID f + Z.of_nat (creates ops)
  ∧ ∀ id s, servers (run ops f) !! id = Some s →
            1000 <= id < nextServerID (run ops f).
Proof.
  induction ops as [|op ops IH]; intros f Herr Hlow Hbound Hinv.
  - cbn. split; [unfold creates; cbn; lia | exact Hinv].
  - rewrite creates_cons in Hbound. cbn [run].
    assert (Hnext : nextServerID (call op f).1
                    = nextServerID f + (if is_create op then 1 else 0)).
    { destruct (is_create op) eqn:Hop.
      - destruct op; try discriminate.
        destruct (created_ids_create r [] f Herr) as [_ ->].
        apply incr_below_max. cbn [is_create] in Hbound.
        change GoInt.MaxInt with 9223372036854775807 in *.
        change GoInt.MinInt with (-9223372036854775808). lia.
      - rewrite call_other_nextServerID by done. lia. }
    destruct (IH (call op f).1) as [Hcount Hstored].
    + by rewrite call_CreateServerError.
    + rewrite Hnext. destruct (is_create op); lia.
    + rewrite Hnext. destruct (is_create op); lia.
    + intros id s Hs. rewrite Hnext.
      destruct (call_stored_before _ _ _ _ Hs) as [[old Hold]|[Hop ->]].
      * apply Hinv in Hold. destruct (is_create op); lia.
      * rewrite Hop. lia.
    + split; [|exact Hstored].
      rewrite Hcount, Hnext, creates_cons. destruct (is_create op); lia.
Qed.

Lemma create_allocates_unused_id ops :
  Z.of_nat (creates ops) <= 2 ^ 63 - 1001 →
  servers (run ops NewFakeClient) !! nextServerID (run ops NewFakeClient) = None.
Proof.
  intros Hbound.
  destruct (run_ids_below_counter ops NewFakeClient) as [_ Hstored];
    [reflexivity | cbn; lia
    | cbn; unfold GoInt.MaxInt, GoInt.bits; lia
    | intros id s Hs; cbn in Hs; by rewrite lookup_empty in Hs |].
  destruct (servers (run ops NewFakeClient) !! nextServerID (run ops NewFakeClient))
    as [s|] eqn:Hs; [|done].
  apply Hstored in Hs. lia.
Qed.

(** ** Soft delete, then other calls, then a read *)

(** C4, as first stated, fails: it rules out only an UnlinkServer between
    the two calls, and a BuildServer in between takes the server back to
    RUNNING. *)
Lemma C4_build_between_revives :
  let r := mkCreateServerRequest "plan" 1 1 "test.example.com" "" "" in
  let b := mkBuildServerRequest 1 1 "test.example.com" "" "" in
  let f := (CreateServer r NewFakeClient).1 in
  is_Some (servers f !! 1000)
  ∧ injected f = injected NewFakeClient
  ∧ (DeleteServer 1000 true f).2 = None
  ∧ ∃ s, (GetServer 1000 (run [OpBuildServer 1000 b]
                            (DeleteServer 1000 true f).1)).2 = (s, None)
         ∧ ServerStatus s = "RUNNING"
         ∧ ServerStatus s ≠ "TERMINATED".
Proof.
  vm_compute. split; [by eexists|]. do 2 (split; [reflexivity|]).
  eexists. split; [reflexivity|]. split; [reflexivity | discriminate].
Qed.

Lemma call_GetServerError op f :
  GetServerError (call op f).1 = GetServerError f.
Proof.
  pose proof (call_injected op f) as H. unfold injected in H. congruence.
Qed.

(** A call that is neither UnlinkServer nor BuildServer on the id, and
    that is not a CreateServer handed the id, leaves a TERMINATED record
    as it is. *)
Lemma undisturbed_call op rest f id s :
  servers f !! id = Some (with_ServerStatus "TERMINATED" s) →
  op ≠ OpUnlinkServer id → (∀ r, op ≠ OpBuildServer id r) →
  id ∉ created_ids (op :: rest) f →
  servers (call op f).1 !! id = Some (with_ServerStatus "TERMINATED" s)
  ∧ id ∉ created_ids rest (call op f).1.
Proof.
  intros Hs Hunlink Hbuild Hfresh.
  destruct op as [r|id'|id' r|id' cb|id'|name key|id'|id'
                 |pkg grp v6 red|pkg|pkg| |];
    try (rewrite created_ids_other in Hfresh by done;
         split; [|exact Hfresh]).
  - (* CreateServer *)
    destruct (CreateServerError f) as [e|] eqn:Herr.
    + revert Hfresh. cbn [created_ids]. unfold call, CreateServer. cbn.
      rewrite Herr. cbn. by intros Hfresh.
    + destruct (created_ids_create r rest f Herr) as [Hids _].
      rewrite Hids in Hfresh. apply not_elem_of_cons in Hfresh as [Hne Hfresh].
      split; [|exact Hfresh].
      unfold call, CreateServer. cbn. rewrite Herr. cbn.
      by rewrite lookup_insert_ne.
  - unfold call, GetServer. cbn.
    destruct (GetServerError f); cbn; [done|].
    by destruct (servers f !! id').
  - unfold call, BuildServer. cbn.
    destruct (BuildServerError f); cbn; [done|].
    destruct (servers f !! id') as [old|] eqn:Hold; cbn; [|done].
    rewrite lookup_insert_ne; [done|]. intros ->. by apply (Hbuild r).
  - unfold call, DeleteServer. cbn.
    destruct (DeleteServerError f); cbn; [done|].
    destruct (decide (id' = id)) as [->|Hne].
    + rewrite Hs. cbn. by rewrite lookup_insert_eq.
    + destruct (servers f !! id'); cbn; [|done]. by rewrite lookup_insert_ne.
  - unfold call, UnlinkServer. cbn.
    destruct (UnlinkServerError f); cbn; [done|].
    rewrite lookup_delete_ne; [done|]. intros ->. by apply Hunlink.
  - unfold call, CreateSSHKey. cbn. by destruct (CreateSSHKeyError f).
  - unfold call, GetSSHKey. cbn.
    destruct (GetSSHKeyError f); cbn; [done|]. by destruct (sshKeys f !! id').
  - unfold call, DeleteSSHKey. cbn.
    destruct (DeleteSSHKeyError f); cbn; [done|]. by destruct (sshKeys f !! id').
  - unfold call, CreateBGPSessions. cbn.
    destruct (CreateBGPSessionsError f); cbn; [done|].
    by destruct (bgpSessions f !! pkg).
  - unfold call, GetBGPSessions. cbn.
    destruct (GetBGPSessionsError f); cbn; [done|].
    by destruct (bgpSessions f !! pkg).
  - unfold call, GetIPs. cbn.
    destruct (GetIPsError f); cbn; [done|].
    destruct (ips f !! pkg); cbn; [done|]. by destruct (servers f !! pkg).
  - unfold call, GetLocations. cbn. by destruct (GetLocationsError f).
  - unfold call, GetOSs. cbn. by destruct (GetOSsError f).
Qed.

Lemma undisturbed_run ops : ∀ f id s,
  servers f !! id = Some (with_ServerStatus "TERMINATED" s) →
  (∀ op, op ∈ ops → op ≠ OpUnlinkServer id ∧ ∀ r, op ≠ OpBuildServer id r) →
  id ∉ created_ids ops f →
  servers (run ops f) !! id = Some (with_ServerStatus "TERMINATED" s)
  ∧ GetServerError (run ops f) = GetServerError f.
Proof.
  induction ops as [|op ops IH]; intros f id s Hs Hops Hfresh; [done|].
  cbn [run].
  destruct (Hops op) as [Hunlink Hbuild]; [left|].
  destruct (undisturbed_call op ops f id s Hs Hunlink Hbuild Hfresh)
    as [Hs' Hfresh'].
  destruct (IH (call op f).1 id s Hs') as [Hend Herr]; [|exact Hfresh'|].
  - intros op' Hin. apply Hops. by right.
  - split; [exact Hend|]. by rewrite Herr, call_GetServerError.
Qed.

(** While the counter stays within [int], an id below it is never handed
    out again, so on a backend driven through the interface from
    NewFakeClient no CreateServer is handed a stored id. *)
Lemma stored_ids_are_not_created ops f id :
  CreateServerError f = None → GoInt.MinInt <= nextServerID f →
  nextServerID f + Z.of_nat (creates ops) <= GoInt.MaxInt + 1 →
  id < nextServerID f →
  id ∉ created_ids ops f.
Proof.
  intros Herr Hlow Hbound Hid Hin.
  apply list_elem_of_lookup in Hin as [i Hi].
  pose proof (lookup_lt_Some _ _ _ Hi) as Hlt.
  rewrite length_created_ids in Hlt by done.
  rewrite created_ids_lookup in Hi; [|done| |done].
  - rewrite wrap_in_range in Hi; [|unfold GoInt.in_range; lia].
    injection Hi as Hi. lia.
  - unfold GoInt.in_range. lia.
Qed.

(** C4 (amended): with no injected DeleteServer or GetServer error,
    DeleteServer on a stored id succeeds, and after any interface calls in
    between, none of them an UnlinkServer or a BuildServer on that id nor a
    CreateServer that is handed that id, GetServer on the id succeeds and
    returns the server as it was stored, in status TERMINATED.  DeleteServer
    on an absent id fails with the not-found error and changes no entity
    state. *)
Theorem C4_delete_then_get (f : FakeClient) (id : Z) (cancelBilling : bool)
    (between : list Op) :
  DeleteServerError f = None → GetServerError f = None →
  (∀ s, servers f !! id = Some s →
     ∃ f1,
       DeleteServer id cancelBilling f = (f1, None)
       ∧ ((∀ op, op ∈ between →
             op ≠ OpUnlinkServer id ∧ ∀ r, op ≠ OpBuildServer id r) →
          id ∉ created_ids between f1 →
          ∃ f2 s',
            GetServer id (run between f1) = (f2, (s', None))
            ∧ s' = with_ServerStatus "TERMINATED" s
            ∧ ServerStatus s' = "TERMINATED"))
  ∧
  (servers f !! id = None →
     ∃ f1 e,
       DeleteServer id cancelBilling f = (f1, Some e)
       ∧ e = server_not_found id
       ∧ is_not_found e = true
       ∧ entities f1 = entities f).
Proof.
  intros Hdel Hget. split.
  - intros s Hs. unfold DeleteServer. cbn. rewrite Hdel, Hs.
    eexists. split; [reflexivity|]. intros Hops Hfresh.
    match goal with
    | |- context [run between ?f1] =>
        destruct (undisturbed_run between f1 id s) as [Hend Herr];
          [cbn; apply lookup_insert_eq | exact Hops | exact Hfresh |]
    end.
    cbn in Herr. unfold GetServer. cbn. rewrite Herr, Hget, Hend.
    by eexists _, _.
  - intros Hs. unfold DeleteServer. cbn. rewrite Hdel, Hs.
    eexists _, _. split; [reflexivity|].
    repeat split. apply server_not_found_is_not_found.
Qed.

Lemma C4_delete_then_get_witness :
  let f := AddServer (with_ServerStatus "RUNNING" (with_Name "a.example.com"
                        zero_Server)) NewFakeClient in
  let between :=
    [ OpGetLocations; OpDeleteServer 0 false;
      OpCreateServer (mkCreateServerRequest "plan" 1 1 "b.example.com" "" "");
      OpBuildServer 1000 (mkBuildServerRequest 2 2 "c.example.com" "" "") ] in
  (∃ f1 f2 s',
     DeleteServer 0 true f = (f1, None)
     ∧ GetServer 0 (run between f1) = (f2, (s', None))
     ∧ ServerStatus s' = "TERMINATED")
  ∧ (∃ f1 e, DeleteServer 7 true f = (f1, Some e) ∧ is_not_found e = true
             ∧ entities f1 = entities f).
Proof.
  intros f between. split.
  - destruct (C4_delete_then_get f 0 true between eq_refl eq_refl)
      as [Hpresent _].
    destruct (Hpresent _ eq_refl) as (f1 & H1 & Hlater).
    destruct Hlater as (f2 & s' & H2 & _ & H3).
    + intros op Hin. unfold between in Hin.
      repeat (apply elem_of_cons in Hin as [-> | Hin];
              [split; [discriminate | intros r0; discriminate]|]).
      by apply elem_of_nil in Hin.
    + injection H1 as <-. vm_compute.
      intros Hin. apply elem_of_cons in Hin as [Hin|Hin]; [discriminate|].
      by apply elem_of_nil in Hin.
    + by exists f1, f2, s'.
  - destruct (C4_delete_then_get f 7 true between eq_refl eq_refl)
      as [_ Habsent].
    destruct (Habsent eq_refl) as (f1 & e & H1 & _ & H2 & H3).
    by exists f1, e.
Defined.

(** ** Cases of [TestFakeClient], replayed on the embedding *)

Example test_GetServer_not_found :
  ∃ e, (GetServer 99999 NewFakeClient).2 = (zero_Server, Some e)
       ∧ Error e = "server 99999 not found"
       ∧ Contains (Error e) "not found" = true.
Proof. eexists. by vm_compute. Qed.

Example test_CreateBGPSessions_IPv6 :
  ∃ f session,
    CreateBGPSessions 1000 1 true false NewFakeClient
      = (f, (Some session, None))
    ∧ BGP_ID session = 500
    ∧ ProviderIPType session = "IPv6"
    ∧ CustomerIP session = "2001:db8:bgp::1f4"
    ∧ Contains (CustomerIP session) ":" = true
    ∧ (GetBGPSessions 1000 f).2 = ([session], None).
Proof. eexists _, _. split; [reflexivity|]. by vm_compute. Qed.

Example test_GetBGPSessions_none_recorded :
  (GetBGPSessions 1000 NewFakeClient).2 = ([], None).
Proof. reflexivity. Qed.

Example test_CreateSSHKey_then_delete :
  ∃ f key f',
    CreateSSHKey "test-key" "ssh-rsa AAA..." NewFakeClient = (f, (key, None))
    ∧ SSHKey_ID key = 100
    ∧ Fingerprint key = "SHA256:fake-fingerprint-100"
    ∧ DeleteSSHKey 100 f = (f', None)
    ∧ (GetSSHKey 100 f').2 = (zero_SSHKey, Some (ssh_key_not_found 100)).
Proof. eexists _, _, _. split; [reflexivity|]. by vm_compute. Qed.

Example test_call_tracking :
  GetCalls (GetLocations
              (GetServer 123 (AddServer (mkServer 123 "" "" 0 "" "" 0 "" "" ""
                                           "" 0 "" "" 0 "") NewFakeClient)).1).1
  = ["GetServer(123)"; "GetLocations"].
Proof. reflexivity. Qed.

(** * Further properties of the fake backend *)

(** ** The call log *)

(** One call appends the entry of its method, whatever it returns. *)
Lemma call_log_appends (op : Op) (f : FakeClient) :
  calls (call op f).1 = calls f ++ [call_entry op].
Proof. destruct op; split_call; reflexivity. Qed.

Lemma fake_log_after_run (ops : list Op) : ∀ f,
  calls (run ops f) = calls f ++ map call_entry ops.
Proof.
  induction ops as [|op ops IH]; intros f; cbn [run map].
  - by rewrite app_nil_r.
  - rewrite IH, call_log_appends. by rewrite <- app_assoc.
Qed.

(** X1: Every interface call, failing or not, is logged: after a run the log
    GetCalls returns is the log before it followed by one entry per call,
    in call order, each with the text of its method and arguments; the
    number of entries grows by the number of calls. *)
Theorem run_call_log (ops : list Op) (f : FakeClient) :
  GetCalls (run ops f) = calls f ++ map call_entry ops
  ∧ length (GetCalls (run ops f)) = (length (calls f) + length ops)%nat.
Proof.
  unfold GetCalls. rewrite fake_log_after_run. split; [reflexivity|].
  by rewrite length_app, length_map.
Qed.

(** X2: Helpers are not logged, and ResetCalls empties the log without
    touching entity state or injected errors. *)
Theorem helpers_not_logged (h : Helper) (f : FakeClient) :
  match h with
  | HResetCalls =>
      calls (help h f) = [] ∧ entities (help h f) = entities f
  | _ => calls (help h f) = calls f
  end
  ∧ injected (help h f) = injected f.
Proof.
  destruct h; cbn; unfold AddBGPSession; repeat case_match; by cbn.
Qed.

(** ** What a call cannot change *)

(** X3: The methods that read (GetServer, GetSSHKey, GetBGPSessions, GetIPs,
    GetLocations, GetOSs) leave every map, list and counter as it was,
    whether they succeed or fail. *)
Theorem reads_keep_entities (op : Op) (f : FakeClient) :
  is_read op = true → entities (call op f).1 = entities f.
Proof. destruct op; try discriminate; intros _; split_call; reflexivity. Qed.

Lemma reads_keep_entities_witness :
  entities (call (OpGetIPs 5) NewFakeClient).1 = entities NewFakeClient.
Proof. exact (reads_keep_entities (OpGetIPs 5) NewFakeClient eq_refl). Defined.

(** X4: No interface call reaches outside its entity class: stored IP
    allocations and the two reference lists are never written, the server
    map and counter only by server methods, the key map and counter only by
    SSH key methods, the session map and counter only by BGP methods. *)
Theorem calls_stay_in_class (op : Op) (f : FakeClient) :
  ips (call op f).1 = ips f
  ∧ locations (call op f).1 = locations f
  ∧ oses (call op f).1 = oses f
  ∧ (class_of op ≠ ServerClass →
     servers (call op f).1 = servers f
     ∧ nextServerID (call op f).1 = nextServerID f)
  ∧ (class_of op ≠ SSHKeyClass →
     sshKeys (call op f).1 = sshKeys f
     ∧ nextSSHKeyID (call op f).1 = nextSSHKeyID f)
  ∧ (class_of op ≠ BGPClass →
     bgpSessions (call op f).1 = bgpSessions f
     ∧ nextBGPSessionID (call op f).1 = nextBGPSessionID f).
Proof.
  destruct op; split_call;
    (split; [reflexivity|]); (split; [reflexivity|]); (split; [reflexivity|]);
    (split; [|split]); intros Hclass; try (by destruct Hclass); by split.
Qed.

Lemma calls_stay_in_class_witness :
  sshKeys (call (OpUnlinkServer 7) NewFakeClient).1 = sshKeys NewFakeClient
  ∧ bgpSessions (call (OpUnlinkServer 7) NewFakeClient).1
    = bgpSessions NewFakeClient.
Proof.
  destruct (calls_stay_in_class (OpUnlinkServer 7) NewFakeClient)
    as (_ & _ & _ & _ & Hkeys & Hbgp).
  split.
  - apply Hkeys. discriminate.
  - apply Hbgp. discriminate.
Defined.

(** ** SSH keys *)

(** X5: Without injected errors CreateSSHKey stores, under the counter's value,
    a key made of the given name and key text and the fingerprint
    "SHA256:fake-fingerprint-<id>", advances the counter, and GetSSHKey on
    that id returns the same key. *)
Theorem create_ssh_key_then_get (f : FakeClient) (name key : string) :
  CreateSSHKeyError f = None → GetSSHKeyError f = None →
  ∃ f1 f2 k,
    CreateSSHKey name key f = (f1, (k, None))
    ∧ k = mkSSHKey (nextSSHKeyID f) name key
            ("SHA256:fake-fingerprint-" +:+ fmt.d (nextSSHKeyID f))
    ∧ nextSSHKeyID f1 = GoInt.incr (nextSSHKeyID f)
    ∧ GetSSHKey (nextSSHKeyID f) f1 = (f2, (k, None))
    ∧ (∀ id, id ≠ nextSSHKeyID f → sshKeys f1 !! id = sshKeys f !! id).
Proof.
  intros Hcreate Hget. unfold CreateSSHKey. cbn. rewrite Hcreate.
  eexists _, _, _. split; [reflexivity|]. split; [reflexivity|].
  split; [reflexivity|]. unfold GetSSHKey. cbn.
  rewrite Hget, lookup_insert_eq. split; [reflexivity|].
  intros id Hid. by rewrite lookup_insert_ne.
Qed.

Lemma create_ssh_key_then_get_witness :
  ∃ f1 f2 k,
    CreateSSHKey "test-key" "ssh-rsa AAA..." NewFakeClient = (f1, (k, None))
    ∧ SSHKey_ID k = 100
    ∧ GetSSHKey 100 f1 = (f2, (k, None)).
Proof.
  destruct (create_ssh_key_then_get NewFakeClient "test-key" "ssh-rsa AAA..."
              eq_refl eq_refl) as (f1 & f2 & k & H1 & Hk & _ & H2 & _).
  exists f1, f2, k. split; [exact H1|]. split; [by rewrite Hk|exact H2].
Defined.

(** X6: DeleteSSHKey removes a stored key for good: GetSSHKey then fails with
    the not-found error, and so does a second DeleteSSHKey, which changes
    nothing (unlike UnlinkServer, deleting twice is an error).  On an id
    that holds no key it fails the same way and changes no entity state. *)
Theorem delete_ssh_key_twice_fails (f : FakeClient) (id : Z) :
  DeleteSSHKeyError f = None → GetSSHKeyError f = None →
  is_not_found (ssh_key_not_found id) = true
  ∧ (is_Some (sshKeys f !! id) →
     ∃ f1 f2 f3,
       DeleteSSHKey id f = (f1, None)
       ∧ GetSSHKey id f1 = (f2, (zero_SSHKey, Some (ssh_key_not_found id)))
       ∧ DeleteSSHKey id f1 = (f3, Some (ssh_key_not_found id))
       ∧ entities f3 = entities f1
       ∧ (∀ id', id' ≠ id → sshKeys f1 !! id' = sshKeys f !! id'))
  ∧ (sshKeys f !! id = None →
     ∃ f1,
       DeleteSSHKey id f = (f1, Some (ssh_key_not_found id))
       ∧ entities f1 = entities f).
Proof.
  intros Hdel Hget. split; [apply ssh_key_not_found_is_not_found|]. split.
  - intros [k Hk]. unfold DeleteSSHKey at 1. cbn. rewrite Hdel, Hk.
    eexists _, _, _. split; [reflexivity|].
    unfold GetSSHKey, DeleteSSHKey. cbn.
    rewrite Hget, Hdel, lookup_delete_eq. repeat split.
    intros id' Hid'. by rewrite lookup_delete_ne.
  - intros Hk. unfold DeleteSSHKey. cbn. rewrite Hdel, Hk. by eexists.
Qed.

Lemma delete_ssh_key_twice_fails_witness :
  let f := (CreateSSHKey "test-key" "ssh-rsa AAA..." NewFakeClient).1 in
  ∃ f1 f3,
    DeleteSSHKey 100 f = (f1, None)
    ∧ DeleteSSHKey 100 f1 = (f3, Some (ssh_key_not_found 100)).
Proof.
  intros f.
  destruct (delete_ssh_key_twice_fails f 100 eq_refl eq_refl)
    as (_ & Hstored & _).
  assert (Hk : is_Some (sshKeys f !! 100)) by (vm_compute; by eexists).
  destruct (Hstored Hk) as (f1 & f2 & f3 & H1 & _ & H3 & _).
  by exists f1, f3.
Defined.

(** ** BGP sessions *)

(** X7: Without injected errors CreateBGPSessions always succeeds, whether or
    not a server with that id is stored: the new session takes the
    counter's value as id, carries the group id and the address family
    asked for, and is appended to the list of its server id, which
    GetBGPSessions then returns in creation order; the lists of other ids
    and the server map are untouched. *)
Theorem create_bgp_sessions_appends (f : FakeClient) (mbPkgID groupID : Z)
    (isIPV6 redundant : bool) :
  CreateBGPSessionsError f = None → GetBGPSessionsError f = None →
  ∃ f1 f2 s,
    CreateBGPSessions mbPkgID groupID isIPV6 redundant f = (f1, (Some s, None))
    ∧ BGP_ID s = nextBGPSessionID f
    ∧ GroupID s = groupID
    ∧ ProviderIPType s = (if isIPV6 then "IPv6" else "IPv4")
    ∧ CustomerIP s
      = (if isIPV6 then "2001:db8:bgp::" +:+ fmt.x (nextBGPSessionID f)
         else "198.51.100." +:+ fmt.d (GoInt.rem (nextBGPSessionID f) 256))
    ∧ nextBGPSessionID f1 = GoInt.incr (nextBGPSessionID f)
    ∧ GetBGPSessions mbPkgID f1
      = (f2, (default [] (bgpSessions f !! mbPkgID) ++ [s], None))
    ∧ (∀ other, other ≠ mbPkgID →
         bgpSessions f1 !! other = bgpSessions f !! other)
    ∧ servers f1 = servers f.
Proof.
  intros Hcreate Hget. unfold CreateBGPSessions. cbn. rewrite Hcreate.
  destruct (bgpSessions f !! mbPkgID) as [old|] eqn:Hold; cbn;
    eexists _, _, _; (split; [reflexivity|]); cbn;
    (repeat (split; [by destruct isIPV6|]));
    unfold GetBGPSessions; cbn; rewrite Hget, ?Hold, ?lookup_insert_eq; cbn;
    (split; [reflexivity|]); (split; [|reflexivity]);
    intros other Hother; by rewrite !lookup_insert_ne.
Qed.

Lemma create_bgp_sessions_appends_witness :
  ∃ f1 f2 s,
    CreateBGPSessions 4242 1 true false NewFakeClient = (f1, (Some s, None))
    ∧ servers NewFakeClient !! 4242 = None
    ∧ BGP_ID s = 500
    ∧ GetBGPSessions 4242 f1 = (f2, ([s], None)).
Proof.
  destruct (create_bgp_sessions_appends NewFakeClient 4242 1 true false
              eq_refl eq_refl)
    as (f1 & f2 & s & H1 & Hid & _ & _ & _ & _ & H2 & _).
  exists f1, f2, s. by repeat split.
Defined.

(** ** Servers *)

(** The name-resolution loops write one field at most. *)
Lemma range_oses_shape l image s :
  range_oses l image s = s ∨ ∃ name, range_oses l image s = with_OS name s.
Proof.
  induction l as [|os l IH]; cbn; [by left|].
  destruct (OS_ID os =? image); [right; by eexists | exact IH].
Qed.

Lemma range_locations_shape l location s :
  range_locations l location s = s
  ∨ ∃ name, range_locations l location s = with_Location name s.
Proof.
  induction l as [|loc l IH]; cbn; [by left|].
  destruct (Location_ID loc =? location); [right; by eexists | exact IH].
Qed.

(** What both loops, one after the other, leave alone. *)
Lemma resolved_fields ls os location image s :
  let s' := range_locations ls location (range_oses os image s) in
  Server_ID s' = Server_ID s
  ∧ Server_Name s' = Server_Name s
  ∧ Server_OSID s' = Server_OSID s
  ∧ Server_LocationID s' = Server_LocationID s
  ∧ PrimaryIPv4 s' = PrimaryIPv4 s
  ∧ PrimaryIPv6 s' = PrimaryIPv6 s
  ∧ PlanID s' = PlanID s
  ∧ Package s' = Package s
  ∧ Server_PackageBilling s' = Server_PackageBilling s
  ∧ Server_PackageBillingContractId s' = Server_PackageBillingContractId s
  ∧ ServerStatus s' = ServerStatus s
  ∧ PowerStatus s' = PowerStatus s
  ∧ Installed s' = Installed s
  ∧ CloudPool s' = CloudPool s.
Proof.
  cbn zeta.
  destruct (range_oses_shape os image s) as [-> | [n1 ->]];
    destruct (range_locations_shape ls location s) as [H2 | [n2 H2]];
    try (destruct (range_locations_shape ls location (with_OS n1 s))
           as [-> | [n3 ->]]);
    rewrite ?H2; by repeat split.
Qed.

(** X8: Without injected errors and with no allocation stored under the
    counter's value, CreateServer, GetServer and GetIPs agree: GetServer
    returns a RUNNING server that carries the id and the request's fields,
    and GetIPs returns one IPv4 and one IPv6 address, the server's primary
    ones. *)
Theorem created_server_reads_back (f : FakeClient) (r : CreateServerRequest) :
  CreateServerError f = None → GetServerError f = None →
  GetIPsError f = None → ips f !! nextServerID f = None →
  ∃ f1 f2 f3 s a,
    CreateServer r f = (f1, (mkServerBuild (nextServerID f) "building" 1, None))
    ∧ GetServer (nextServerID f) f1 = (f2, (s, None))
    ∧ Server_ID s = nextServerID f
    ∧ Server_Name s = FQDN r
    ∧ Server_OSID s = Image r
    ∧ Server_LocationID s = Location r
    ∧ Package s = Plan r
    ∧ Server_PackageBilling s = PackageBilling r
    ∧ Server_PackageBillingContractId s = PackageBillingContractId r
    ∧ ServerStatus s = "RUNNING"
    ∧ GetIPs (nextServerID f) f2 = (f3, (a, None))
    ∧ IP_IP <$> IPv4 a = [PrimaryIPv4 s]
    ∧ IP_IP <$> IPv6 a = [PrimaryIPv6 s].
Proof.
  intros Hcreate Hget Hips Hnone. unfold CreateServer. cbn. rewrite Hcreate.
  eexists _, _, _, _, _. split; [reflexivity|].
  unfold GetServer. cbn. rewrite Hget, lookup_insert_eq.
  split; [reflexivity|].
  match goal with
  | |- context [range_locations ?ls ?loc (range_oses ?os ?img ?s0)] =>
      destruct (resolved_fields ls os loc img s0)
        as (-> & -> & -> & -> & H4 & H6 & _ & -> & -> & -> & -> & _)
  end.
  cbn. do 8 (split; [reflexivity|]).
  unfold GetIPs. cbn. rewrite Hips, Hnone, lookup_insert_eq.
  split; [reflexivity|]. cbn. by rewrite H4, H6.
Qed.

Lemma created_server_reads_back_witness :
  ∃ f1 f2 f3 s a,
    CreateServer (mkCreateServerRequest "plan" 2 3 "h.example.com" "usage" "")
      NewFakeClient = (f1, (mkServerBuild 1000 "building" 1, None))
    ∧ GetServer 1000 f1 = (f2, (s, None))
    ∧ GetIPs 1000 f2 = (f3, (a, None))
    ∧ IP_IP <$> IPv4 a = [PrimaryIPv4 s].
Proof.
  destruct (created_server_reads_back NewFakeClient
              (mkCreateServerRequest "plan" 2 3 "h.example.com" "usage" "")
              eq_refl eq_refl eq_refl eq_refl)
    as (f1 & f2 & f3 & s & a & H1 & H2 & _ & _ & _ & _ & _ & _ & _ & _
        & H3 & H4 & _).
  by exists f1, f2, f3, s, a.
Defined.

(** X9: BuildServer on a stored id succeeds and rewrites the record in place:
    name, OS id, location id and billing come from the request and the
    status becomes RUNNING, while id, addresses, plan, package, power
    status, install flag and cloud pool stay; an image or location id that
    no reference entry has leaves the old OS or location name standing
    beside the new id.  Records under other ids are untouched.  On an id
    that holds no server it fails with the not-found error and changes no
    entity state. *)
Theorem build_server_rewrites (f : FakeClient) (id : Z) (r : BuildServerRequest) :
  BuildServerError f = None →
  (∀ s, servers f !! id = Some s →
     ∃ f1 s',
       BuildServer id r f = (f1, (mkServerBuild id "building" 1, None))
       ∧ servers f1 !! id = Some s'
       ∧ Server_Name s' = Build_FQDN r
       ∧ Server_OSID s' = Build_Image r
       ∧ Server_LocationID s' = Build_Location r
       ∧ Server_PackageBilling s' = Build_PackageBilling r
       ∧ Server_PackageBillingContractId s' = Build_PackageBillingContractId r
       ∧ ServerStatus s' = "RUNNING"
       ∧ Server_ID s' = Server_ID s
       ∧ PrimaryIPv4 s' = PrimaryIPv4 s
       ∧ PrimaryIPv6 s' = PrimaryIPv6 s
       ∧ PlanID s' = PlanID s
       ∧ Package s' = Package s
       ∧ PowerStatus s' = PowerStatus s
       ∧ Installed s' = Installed s
       ∧ CloudPool s' = CloudPool s
       ∧ ((∀ os, os ∈ oses f → OS_ID os ≠ Build_Image r) →
          Server_OS s' = Server_OS s)
       ∧ ((∀ loc, loc ∈ locations f → Location_ID loc ≠ Build_Location r) →
          Server_Location s' = Server_Location s)
       ∧ (∀ other, other ≠ id → servers f1 !! other = servers f !! other))
  ∧ (servers f !! id = None →
     ∃ f1,
       BuildServer id r f = (f1, (zero_ServerBuild, Some (server_not_found id)))
       ∧ entities f1 = entities f).
Proof.
  intros Herr. split.
  - intros s Hs. unfold BuildServer. cbn. rewrite Herr, Hs.
    eexists _, _. split; [reflexivity|]. cbn.
    split; [apply lookup_insert_eq|].
    match goal with
    | |- context [range_locations ?ls ?loc (range_oses ?os ?img ?s0)] =>
        destruct (resolved_fields ls os loc img s0)
          as (-> & -> & -> & -> & -> & -> & -> & -> & -> & -> & -> & -> & ->
              & ->)
    end.
    cbn. do 14 (split; [reflexivity|]). split; [|split].
    + intros Hmiss. rewrite range_locations_OS.
      by rewrite (range_oses_miss _ _ _ Hmiss).
    + intros Hmiss. rewrite (range_locations_miss _ _ _ Hmiss).
      by rewrite range_oses_location.
    + intros other Hother. by rewrite lookup_insert_ne.
  - intros Hs. unfold BuildServer. cbn. rewrite Herr, Hs. by eexists.
Qed.

Lemma build_server_rewrites_witness :
  let f := (CreateServer (mkCreateServerRequest "plan" 1 1 "a.example.com" "" "")
              NewFakeClient).1 in
  (∃ f1 s',
     BuildServer 1000 (mkBuildServerRequest 9 9 "b.example.com" "" "") f
       = (f1, (mkServerBuild 1000 "building" 1, None))
     ∧ servers f1 !! 1000 = Some s'
     ∧ Server_OSID s' = 9
     ∧ Server_OS s' = "Ubuntu 22.04 LTS")
  ∧ (∃ f1,
       BuildServer 7 (mkBuildServerRequest 9 9 "b.example.com" "" "") f
       = (f1, (zero_ServerBuild, Some (server_not_found 7)))).
Proof.
  intros f.
  destruct (build_server_rewrites f 1000
              (mkBuildServerRequest 9 9 "b.example.com" "" "") eq_refl)
    as [Hstored _].
  destruct (build_server_rewrites f 7
              (mkBuildServerRequest 9 9 "b.example.com" "" "") eq_refl)
    as [_ Hmissing].
  split.
  - assert (Hs : ∃ s, servers f !! 1000 = Some s
                      ∧ Server_OS s = "Ubuntu 22.04 LTS")
      by (eexists; by vm_compute).
    destruct Hs as (s & Hs & Hos).
    destruct (Hstored s Hs)
      as (f1 & s' & H1 & H2 & _ & H4 & _ & _ & _ & _ & _ & _ & _ & _ & _ & _
          & _ & _ & Hkeep & _).
    exists f1, s'. repeat split; [exact H1 | exact H2 | exact H4 |].
    rewrite <- Hos. apply Hkeep. intros os Hin. cbn in Hin.
    repeat (apply elem_of_cons in Hin as [-> | Hin]; [cbn; lia|]).
    by apply elem_of_nil in Hin.
  - destruct (Hmissing eq_refl) as (f1 & H1 & _). by exists f1.
Defined.

(** X10: DeleteServer is idempotent on a stored server: both calls succeed,
    whatever their cancelBilling flags, the first changes nothing in the
    record but the status, and the second changes no entity state.
    Records under other ids are untouched. *)
Theorem delete_server_twice (f : FakeClient) (id : Z) (cancel1 cancel2 : bool)
    (s : Server) :
  DeleteServerError f = None → servers f !! id = Some s →
  ∃ f1 f2,
    DeleteServer id cancel1 f = (f1, None)
    ∧ servers f1 !! id = Some (with_ServerStatus "TERMINATED" s)
    ∧ (∀ other, other ≠ id → servers f1 !! other = servers f !! other)
    ∧ DeleteServer id cancel2 f1 = (f2, None)
    ∧ entities f2 = entities f1.
Proof.
  intros Herr Hs. unfold DeleteServer at 1. cbn. rewrite Herr, Hs.
  eexists _, _. split; [reflexivity|]. cbn.
  split; [apply lookup_insert_eq|].
  split; [intros other Hother; by rewrite lookup_insert_ne|].
  unfold DeleteServer. cbn. rewrite Herr, lookup_insert_eq.
  split; [reflexivity|]. unfold entities. cbn. by rewrite insert_insert_eq.
Qed.

Lemma delete_server_twice_witness :
  let f := (CreateServer (mkCreateServerRequest "plan" 1 1 "a.example.com" "" "")
              NewFakeClient).1 in
  ∃ f1 f2,
    DeleteServer 1000 true f = (f1, None)
    ∧ DeleteServer 1000 false f1 = (f2, None)
    ∧ entities f2 = entities f1.
Proof.
  intros f.
  assert (Hs : ∃ s, servers f !! 1000 = Some s) by (eexists; by vm_compute).
  destruct Hs as (s & Hs).
  destruct (delete_server_twice f 1000 true false s eq_refl Hs)
    as (f1 & f2 & H1 & _ & _ & H2 & H3).
  by exists f1, f2.
Defined.

(** X11: UnlinkServer drops the server record only.  An allocation stored for
    the id and the sessions recorded for it stay, so GetIPs on the unlinked
    id returns the stored allocation, or the empty one when none was
    stored (the made-up addresses are gone with the server), and
    GetBGPSessions returns the sessions as before. *)
Theorem unlink_leaves_ips_and_sessions (f : FakeClient) (id : Z) :
  UnlinkServerError f = None → GetIPsError f = None →
  GetBGPSessionsError f = None →
  (GetIPs id (UnlinkServer id f).1).2 = (default zero_IPs (ips f !! id), None)
  ∧ (GetBGPSessions id (UnlinkServer id f).1).2
    = (default [] (bgpSessions f !! id), None).
Proof.
  intros Hunlink Hips Hbgp.
  unfold UnlinkServer, GetIPs, GetBGPSessions. cbn.
  rewrite Hunlink. cbn. rewrite Hips, Hbgp, lookup_delete_eq.
  split.
  - by destruct (ips f !! id).
  - by destruct (bgpSessions f !! id).
Qed.

Lemma unlink_leaves_ips_and_sessions_witness :
  let created := (CreateServer (mkCreateServerRequest "plan" 1 1 "a" "" "")
                    NewFakeClient).1 in
  (GetIPs 1000 created).2 = (default_IPs 1000, None)
  ∧ (GetIPs 1000 (UnlinkServer 1000 created).1).2 = (zero_IPs, None)
  ∧ (GetIPs 1000 (UnlinkServer 1000 (SetIPs 1000 (TestIPs 1000) created)).1).2
    = (TestIPs 1000, None).
Proof.
  intros created. split; [by vm_compute|]. split.
  - destruct (unlink_leaves_ips_and_sessions created 1000 eq_refl eq_refl
                eq_refl) as [-> _]. reflexivity.
  - destruct (unlink_leaves_ips_and_sessions (SetIPs 1000 (TestIPs 1000) created)
                1000 eq_refl eq_refl eq_refl) as [-> _]. reflexivity.
Defined.

(** ** Reference lists and name resolution *)

Lemma range_oses_app_hit l extra image s o :
  o ∈ l → OS_ID o = image →
  range_oses (l ++ extra) image s = range_oses l image s.
Proof.
  intros Hin Hid. induction l as [|os l IH]; [by apply elem_of_nil in Hin|].
  cbn. destruct (Z.eqb_spec (OS_ID os) image) as [_|Hne]; [done|].
  apply elem_of_cons in Hin as [-> | Hin]; [done | by apply IH].
Qed.

Lemma range_oses_app_miss l extra image s :
  (∀ os, os ∈ l → OS_ID os ≠ image) →
  range_oses (l ++ extra) image s = range_oses extra image s.
Proof.
  intros Hmiss. induction l as [|os l IH]; [done|]. cbn.
  destruct (Z.eqb_spec (OS_ID os) image) as [Heq|_].
  - exfalso. apply (Hmiss os); [left | exact Heq].
  - apply IH. intros os' Hin. apply Hmiss. by right.
Qed.

Lemma range_locations_app_hit l extra location s o :
  o ∈ l → Location_ID o = location →
  range_locations (l ++ extra) location s = range_locations l location s.
Proof.
  intros Hin Hid. induction l as [|loc l IH]; [by apply elem_of_nil in Hin|].
  cbn. destruct (Z.eqb_spec (Location_ID loc) location) as [_|Hne]; [done|].
  apply elem_of_cons in Hin as [-> | Hin]; [done | by apply IH].
Qed.

Lemma range_locations_app_miss l extra location s :
  (∀ loc, loc ∈ l → Location_ID loc ≠ location) →
  range_locations (l ++ extra) location s = range_locations extra location s.
Proof.
  intros Hmiss. induction l as [|loc l IH]; [done|]. cbn.
  destruct (Z.eqb_spec (Location_ID loc) location) as [Heq|_].
  - exfalso. apply (Hmiss loc); [left | exact Heq].
  - apply IH. intros loc' Hin. apply Hmiss. by right.
Qed.

(** X12: Names resolve to the first entry with the id, and AddOS and
    AddLocation append: an added entry never changes how an id already in
    the list resolves, so CreateServer stores the same record as without
    it; an added entry whose id is new resolves to its own name. *)
Theorem added_entries_never_shadow (f : FakeClient) (r : CreateServerRequest)
    (os : OS) (loc : Location_t) :
  CreateServerError f = None →
  ((∃ o, o ∈ oses f ∧ OS_ID o = Image r) →
   servers (CreateServer r (AddOS os f)).1 = servers (CreateServer r f).1)
  ∧ ((∃ l, l ∈ locations f ∧ Location_ID l = Location r) →
     servers (CreateServer r (AddLocation loc f)).1
     = servers (CreateServer r f).1)
  ∧ ((∀ o, o ∈ oses f → OS_ID o ≠ Image r) → OS_ID os = Image r →
     ∃ s, servers (CreateServer r (AddOS os f)).1 !! nextServerID f = Some s
          ∧ Server_OS s = Os os)
  ∧ ((∀ l, l ∈ locations f → Location_ID l ≠ Location r) →
     Location_ID loc = Location r →
     ∃ s, servers (CreateServer r (AddLocation loc f)).1 !! nextServerID f
          = Some s
          ∧ Server_Location s = Location_Name loc).
Proof.
  intros Herr. unfold CreateServer, AddOS, AddLocation. cbn. rewrite Herr. cbn.
  split; [|split; [|split]].
  - intros (o & Hin & Hid). by rewrite (range_oses_app_hit _ _ _ _ o Hin Hid).
  - intros (l & Hin & Hid).
    by rewrite (range_locations_app_hit _ _ _ _ l Hin Hid).
  - intros Hmiss Hid. eexists. split; [apply lookup_insert_eq|].
    rewrite range_locations_OS, range_oses_app_miss by done. cbn.
    apply Z.eqb_eq in Hid. by rewrite Hid.
  - intros Hmiss Hid. eexists. split; [apply lookup_insert_eq|].
    rewrite range_locations_app_miss by done. cbn.
    apply Z.eqb_eq in Hid. by rewrite Hid.
Qed.

Lemma added_entries_never_shadow_witness :
  let r := mkCreateServerRequest "plan" 1 1 "a.example.com" "" "" in
  let clash := mkOS 1 "Shadow OS" "linux" "" "" "64" "" in
  servers (CreateServer r (AddOS clash NewFakeClient)).1
  = servers (CreateServer r NewFakeClient).1.
Proof.
  intros r clash.
  destruct (added_entries_never_shadow NewFakeClient r clash
              (mkLocation 0 "" "" "" "" 0) eq_refl) as [Hsame _].
  apply Hsame. exists (mkOS 1 "Ubuntu 22.04 LTS" "linux" "" "" "64" "").
  split; [left | reflexivity].
Defined.

(** ** Seeding helpers *)

(** X13: What a helper stores is what the matching read returns: AddServer and
    AddSSHKey file the record under its own id, AddBGPSession appends to
    the list of the server id, AddLocation and AddOS append to the
    reference lists. *)
Theorem helpers_read_back (f : FakeClient) :
  (∀ server, GetServerError f = None →
     (GetServer (Server_ID server) (AddServer server f)).2 = (server, None))
  ∧ (∀ key, GetSSHKeyError f = None →
       (GetSSHKey (SSHKey_ID key) (AddSSHKey key f)).2 = (key, None))
  ∧ (∀ mbPkgID session, GetBGPSessionsError f = None →
       (GetBGPSessions mbPkgID (AddBGPSession mbPkgID session f)).2
       = (default [] (bgpSessions f !! mbPkgID) ++ [session], None))
  ∧ (∀ location, GetLocationsError f = None →
       (GetLocations (AddLocation location f)).2
       = (locations f ++ [location], None))
  ∧ (∀ os, GetOSsError f = None →
       (GetOSs (AddOS os f)).2 = (oses f ++ [os], None)).
Proof.
  split; [|split; [|split; [|split]]].
  - intros server Herr. unfold GetServer, AddServer. cbn.
    by rewrite Herr, lookup_insert_eq.
  - intros key Herr. unfold GetSSHKey, AddSSHKey. cbn.
    by rewrite Herr, lookup_insert_eq.
  - intros mbPkgID session Herr. unfold GetBGPSessions, AddBGPSession.
    destruct (bgpSessions f !! mbPkgID) as [old|] eqn:Hold; cbn;
      by rewrite Herr, ?Hold, ?lookup_insert_eq.
  - intros location Herr. unfold GetLocations, AddLocation. cbn.
    by rewrite Herr.
  - intros os Herr. unfold GetOSs, AddOS. cbn. by rewrite Herr.
Qed.

Lemma helpers_read_back_witness :
  (GetServer 999 (AddServer (mkServer 999 "custom.example.com" "" 0 "" "" 0 ""
                                "" "" "" 0 "RUNNING" "" 0 "") NewFakeClient)).2
  = (mkServer 999 "custom.example.com" "" 0 "" "" 0 "" "" "" "" 0 "RUNNING" ""
       0 "", None).
Proof.
  destruct (helpers_read_back NewFakeClient) as [Hserver _].
  exact (Hserver (mkServer 999 "custom.example.com" "" 0 "" "" 0 "" "" "" "" 0
                    "RUNNING" "" 0 "") eq_refl).
Defined.

(** ** Records sit under their own id *)

Lemma call_keeps_keyed_by_id op f :
  keyed_by_id f → keyed_by_id (call op f).1.
Proof.
  intros [Hservers Hkeys].
  destruct op; split_call; split; try assumption; intros id0 x Hx;
    cbn in Hx;
    try (apply lookup_insert_Some in Hx as [[<- <-]|[_ Hx]]);
    try (apply lookup_delete_Some in Hx as [_ Hx]);
    eauto;
    try match goal with
        | |- context [range_locations ?ls ?loc (range_oses ?os ?img ?s0)] =>
            destruct (resolved_fields ls os loc img s0) as [-> _]
        end;
    cbn; eauto.
Qed.

Lemma help_keeps_keyed_by_id h f :
  keyed_by_id f → keyed_by_id (help h f).
Proof.
  intros [Hservers Hkeys].
  destruct h; cbn; unfold AddBGPSession; repeat case_match;
    split; cbn; try assumption; intros id0 x Hx; cbn in Hx;
    apply lookup_insert_Some in Hx as [[<- <-]|[_ Hx]]; eauto.
Qed.

Lemma set_error_keeps_keyed_by_id field e f :
  keyed_by_id f → keyed_by_id (set_error field e f).
Proof. intros Hf. by destruct field. Qed.

(** X14: however a test drives the backend, through interface calls,
    seeding helpers and assignments to the injected-error fields in any
    order, every server and every SSH key it stores carries the id it is
    stored under: what GetServer(id) returns has ID = id. *)
Theorem stored_records_carry_their_id (l : list Step) (id : Z) :
  (∀ s, servers (steps l NewFakeClient) !! id = Some s → Server_ID s = id)
  ∧ (∀ k, sshKeys (steps l NewFakeClient) !! id = Some k → SSHKey_ID k = id).
Proof.
  assert (Hinv : ∀ f, keyed_by_id f → keyed_by_id (steps l f)).
  { induction l as [|st l IH]; intros f Hf; [exact Hf|].
    cbn [steps]. apply IH. destruct st as [op|h|field e]; cbn [step].
    - by apply call_keeps_keyed_by_id.
    - by apply help_keeps_keyed_by_id.
    - by apply set_error_keeps_keyed_by_id. }
  destruct (Hinv NewFakeClient) as [Hservers Hkeys].
  - split; intros i x Hx; cbn in Hx; by rewrite lookup_empty in Hx.
  - split; [apply Hservers | apply Hkeys].
Qed.

(** ** Key ids and session ids *)

Section Counter.

(** A class of created entities: which calls create one, the counter they
    draw from, the injected error that stops them, and the ids a run
    returns. *)
Variables (creating : Op → bool) (counter : FakeClient → Z)
  (stop : FakeClient → option error) (ids : list Op → FakeClient → list Z).

Hypothesis stop_kept : ∀ op f, stop (call op f).1 = stop f.
Hypothesis ids_nil : ∀ f, ids [] f = [].
Hypothesis ids_other : ∀ op rest f,
  creating op = false →
  ids (op :: rest) f = ids rest (call op f).1
  ∧ counter (call op f).1 = counter f.
Hypothesis ids_creating : ∀ op rest f,
  creating op = true → stop f = None →
  ids (op :: rest) f = counter f :: ids rest (call op f).1
  ∧ counter (call op f).1 = GoInt.incr (counter f).

Lemma counter_ids_length ops : ∀ f,
  stop f = None → length (ids ops f) = length (List.filter creating ops).
Proof.
  induction ops as [|op ops IH]; intros f Hstop; [by rewrite ids_nil|].
  cbn [List.filter]. destruct (creating op) eqn:Hop.
  - destruct (ids_creating op ops f Hop Hstop) as [-> _]. cbn [length].
    f_equal. apply IH. by rewrite stop_kept.
  - destruct (ids_other op ops f Hop) as [-> _]. apply IH.
    by rewrite stop_kept.
Qed.

Lemma counter_ids_lookup ops : ∀ f (i : nat),
  stop f = None → GoInt.in_range (counter f) →
  (i < length (List.filter creating ops))%nat →
  ids ops f !! i = Some (GoInt.wrap (counter f + Z.of_nat i)).
Proof.
  induction ops as [|op ops IH]; intros f i Hstop Hrange Hi;
    [cbn in Hi; lia|].
  cbn [List.filter] in Hi. destruct (creating op) eqn:Hop.
  - destruct (ids_creating op ops f Hop Hstop) as [-> Hnext].
    destruct i as [|i].
    + cbn. f_equal. rewrite Z.add_0_r. symmetry. by apply wrap_in_range.
    + cbn [lookup list_lookup]. rewrite IH.
      * rewrite Hnext. unfold GoInt.incr. rewrite wrap_wrap_add.
        do 2 f_equal. lia.
      * by rewrite stop_kept.
      * rewrite Hnext. apply wrap_is_in_range.
      * cbn [length] in Hi. lia.
  - destruct (ids_other op ops f Hop) as [-> Hsame]. rewrite IH.
    + by rewrite Hsame.
    + by rewrite stop_kept.
    + by rewrite Hsame.
    + exact Hi.
Qed.

(** While the counter stays within [int], the ids come out as start,
    start + 1, ... *)
Lemma counter_ids_increase ops f :
  stop f = None → GoInt.MinInt <= counter f →
  counter f + Z.of_nat (length (List.filter creating ops)) <= GoInt.MaxInt + 1 →
  length (ids ops f) = length (List.filter creating ops)
  ∧ (∀ i : nat, (i < length (List.filter creating ops))%nat →
       ids ops f !! i = Some (counter f + Z.of_nat i))
  ∧ strictly_increasing (ids ops f)
  ∧ NoDup (ids ops f).
Proof.
  intros Hstop Hlow Hbound.
  assert (Hlen := counter_ids_length ops f Hstop).
  assert (Hnth : ∀ i : nat, (i < length (List.filter creating ops))%nat →
            ids ops f !! i = Some (counter f + Z.of_nat i)).
  { intros i Hi. rewrite counter_ids_lookup; [|done| |done].
    - f_equal. apply wrap_in_range. unfold GoInt.in_range. lia.
    - unfold GoInt.in_range. lia. }
  assert (Hval : ∀ (i : nat) a, ids ops f !! i = Some a →
            a = counter f + Z.of_nat i).
  { intros i a Hi. pose proof (lookup_lt_Some _ _ _ Hi) as Hlt.
    rewrite Hlen in Hlt. rewrite (Hnth i Hlt) in Hi. congruence. }
  split; [exact Hlen|]. split; [exact Hnth|]. split.
  - intros i j a b Hij Hi Hj. apply Hval in Hi, Hj. lia.
  - apply NoDup_alt. intros i j a Hi Hj. apply Hval in Hi, Hj. lia.
Qed.

End Counter.

Lemma call_injected_field op f :
  CreateSSHKeyError (call op f).1 = CreateSSHKeyError f
  ∧ CreateBGPSessionsError (call op f).1 = CreateBGPSessionsError f.
Proof.
  pose proof (call_injected op f) as H. unfold injected in H.
  split; congruence.
Qed.

(** X15: On a backend built by NewFakeClient and driven through the interface
    alone, as long as a run makes at most 2^63 - 100 CreateSSHKey calls,
    every one succeeds and the i-th returns key id 100 + i: key ids are
    unique and strictly increasing, and DeleteSSHKey never frees one for
    reuse. *)
Theorem ssh_key_ids_increase (ops : list Op) :
  Z.of_nat (length (List.filter is_create_key ops)) <= 2 ^ 63 - 100 →
  length (created_key_ids ops NewFakeClient)
  = length (List.filter is_create_key ops)
  ∧ (∀ i : nat, (i < length (List.filter is_create_key ops))%nat →
       created_key_ids ops NewFakeClient !! i = Some (100 + Z.of_nat i))
  ∧ strictly_increasing (created_key_ids ops NewFakeClient)
  ∧ NoDup (created_key_ids ops NewFakeClient).
Proof.
  intros Hbound.
  apply (counter_ids_increase is_create_key nextSSHKeyID CreateSSHKeyError
           created_key_ids).
  - intros op f. apply call_injected_field.
  - reflexivity.
  - intros op rest f Hop. cbn [created_key_ids].
    destruct op; try discriminate; split_call; by split.
  - intros op rest f Hop Hstop. destruct op; try discriminate.
    cbn [created_key_ids]. unfold call, CreateSSHKey. cbn. rewrite Hstop.
    by cbn.
  - reflexivity.
  - cbn. unfold GoInt.MinInt, GoInt.bits. lia.
  - cbn. change GoInt.MaxInt with 9223372036854775807. lia.
Qed.

Lemma ssh_key_ids_increase_witness :
  let ops := [ OpCreateSSHKey "a" "ssh-rsa A"; OpDeleteSSHKey 100;
               OpCreateSSHKey "b" "ssh-rsa B"; OpGetSSHKey 100 ] in
  created_key_ids ops NewFakeClient = [100; 101]
  ∧ NoDup (created_key_ids ops NewFakeClient).
Proof.
  intros ops.
  assert (Hbound : Z.of_nat (length (List.filter is_create_key ops))
                   <= 2 ^ 63 - 100) by (vm_compute; discriminate).
  destruct (ssh_key_ids_increase ops Hbound) as (_ & _ & _ & Hnodup).
  split; [vm_compute; reflexivity | exact Hnodup].
Defined.

(** X16: The same for BGP sessions: as long as a run makes at most 2^63 - 500
    CreateBGPSessions calls, the i-th session gets id 500 + i, whatever
    server ids the sessions are made for. *)
Theorem session_ids_increase (ops : list Op) :
  Z.of_nat (length (List.filter is_create_session ops)) <= 2 ^ 63 - 500 →
  length (created_session_ids ops NewFakeClient)
  = length (List.filter is_create_session ops)
  ∧ (∀ i : nat, (i < length (List.filter is_create_session ops))%nat →
       created_session_ids ops NewFakeClient !! i = Some (500 + Z.of_nat i))
  ∧ strictly_increasing (created_session_ids ops NewFakeClient)
  ∧ NoDup (created_session_ids ops NewFakeClient).
Proof.
  intros Hbound.
  apply (counter_ids_increase is_create_session nextBGPSessionID
           CreateBGPSessionsError created_session_ids).
  - intros op f. apply call_injected_field.
  - reflexivity.
  - intros op rest f Hop. cbn [created_session_ids].
    destruct op; try discriminate; split_call; by split.
  - intros op rest f Hop Hstop. destruct op; try discriminate.
    cbn [created_session_ids]. unfold call, CreateBGPSessions. cbn.
    rewrite Hstop. by destruct (bgpSessions f !! mbPkgID).
  - reflexivity.
  - cbn. unfold GoInt.MinInt, GoInt.bits. lia.
  - cbn. change GoInt.MaxInt with 9223372036854775807. lia.
Qed.

Lemma session_ids_increase_witness :
  let ops := [ OpCreateBGPSessions 1000 1 false false;
               OpCreateBGPSessions 2000 1 true false;
               OpCreateBGPSessions 1000 2 true true ] in
  created_session_ids ops NewFakeClient = [500; 501; 502]
  ∧ NoDup (created_session_ids ops NewFakeClient).
Proof.
  intros ops.
  assert (Hbound : Z.of_nat (length (List.filter is_create_session ops))
                   <= 2 ^ 63 - 500) by (vm_compute; discriminate).
  destruct (session_ids_increase ops Hbound) as (_ & _ & _ & Hnodup).
  split; [vm_compute; reflexivity | exact Hnodup].
Defined.

(** * The mock client *)

(** X17: A method whose hook is not set fails with the error
    "<Method>Func not configured" and the zero value of its result type;
    the call is logged all the same, and nothing else in the mock
    changes. *)
Theorem mock_unconfigured_fails (op : Op) (m : Mock.MockClient) :
  Mock.configured op m = false →
  Mock.call op m
  = (Mock.trackCall (call_entry op) m,
     (zero_ret op, Some (errorString (Mock.hook_name op +:+ " not configured")))).
Proof.
  intros Hhook.
  destruct op; cbn in Hhook; apply bool_decide_eq_false in Hhook;
    apply eq_None_not_Some in Hhook;
    unfold_mock_call; cbn; rewrite Hhook; reflexivity.
Qed.

Lemma mock_unconfigured_fails_witness :
  Mock.call (OpGetServer 123) Mock.empty
  = (Mock.trackCall "GetServer(123)" Mock.empty,
     (RetServer zero_Server, Some (errorString "GetServerFunc not configured"))).
Proof.
  exact (mock_unconfigured_fails (OpGetServer 123) Mock.empty eq_refl).
Defined.

Lemma mock_call_log_appends op m :
  Mock.calls (Mock.call op m).1 = Mock.calls m ++ [call_entry op].
Proof. destruct op; split_mock_call; reflexivity. Qed.

(** X18: The same calls leave the same call log on the mock and on the fake,
    whatever hooks are set on the one and whatever errors are injected or
    records stored in the other: both log every call, in order, with the
    same text. *)
Theorem mock_and_fake_log_alike (ops : list Op) (m : Mock.MockClient)
    (f : FakeClient) :
  Mock.GetCalls (Mock.run ops m) = Mock.calls m ++ map call_entry ops
  ∧ (Mock.calls m = calls f →
     Mock.GetCalls (Mock.run ops m) = GetCalls (run ops f)).
Proof.
  assert (Hmock : ∀ m0, Mock.GetCalls (Mock.run ops m0)
                        = Mock.calls m0 ++ map call_entry ops).
  { induction ops as [|op ops IH]; intros m0; cbn [Mock.run map].
    - unfold Mock.GetCalls. by rewrite app_nil_r.
    - rewrite IH, mock_call_log_appends. by rewrite <- app_assoc. }
  split; [apply Hmock|].
  intros Hsame. unfold GetCalls. by rewrite Hmock, fake_log_after_run, Hsame.
Qed.

Lemma mock_and_fake_log_alike_witness :
  Mock.GetCalls (Mock.run [OpGetServer 123; OpGetLocations] Mock.empty)
  = GetCalls (run [OpGetServer 123; OpGetLocations] NewFakeClient).
Proof.
  destruct (mock_and_fake_log_alike [OpGetServer 123; OpGetLocations]
              Mock.empty NewFakeClient) as [_ Hsame].
  exact (Hsame eq_refl).
Defined.

(** * The IP allocation builder *)

(** X19: AddIPv4 appends one entry and numbers it by its position: in a builder
    whose IPv4 entries are numbered 1, 2, ... (as after NewIPsBuilder or
    ClearIPv4) they still are after AddIPv4, and the IPv6 list is not
    touched.  The IPv6 entry of NewIPsBuilder has id 2, so AddIPv6 right
    after NewIPsBuilder yields two entries with id 2. *)
Theorem add_ipv4_numbers_by_position (b : IPs) (ip gateway netmask : string)
    (primary : bool) :
  Z.of_nat (length (IPv4 b)) < GoInt.MaxInt →
  sequential_ids (IPv4 b) →
  sequential_ids (IPv4 (IPsBuilder.AddIPv4 ip gateway netmask primary b))
  ∧ length (IPv4 (IPsBuilder.AddIPv4 ip gateway netmask primary b))
    = S (length (IPv4 b))
  ∧ IPv6 (IPsBuilder.AddIPv4 ip gateway netmask primary b) = IPv6 b
  ∧ sequential_ids (IPv4 IPsBuilder.New)
  ∧ sequential_ids (IPv4 (IPsBuilder.ClearIPv4 b))
  ∧ IP_ID <$> IPv6 (IPsBuilder.AddIPv6 ip gateway netmask primary
                      IPsBuilder.New) = [2; 2].
Proof.
  intros Hlen Hseq. split; [|split; [|split; [|split; [|split]]]].
  - intros i e He. cbn in He.
    apply lookup_app_Some in He as [He | [Hge He]]; [by apply Hseq|].
    apply list_lookup_singleton_Some in He as [Hi <-]. cbn.
    unfold IPsBuilder.len. rewrite wrap_in_range.
    + lia.
    + unfold GoInt.in_range. change GoInt.MinInt with (-9223372036854775808).
      lia.
  - cbn. rewrite length_app. cbn. lia.
  - reflexivity.
  - intros i e He. destruct i as [|i]; cbn in He; [|done]. by inversion He.
  - intros i e He. by cbn in He.
  - reflexivity.
Qed.

Lemma add_ipv4_numbers_by_position_witness :
  IP_ID <$> IPv4 (IPsBuilder.AddIPv4 "203.0.113.21" "203.0.113.1"
                    "255.255.255.0" false
                    (IPsBuilder.AddIPv4 "203.0.113.20" "203.0.113.1"
                       "255.255.255.0" true
                       (IPsBuilder.ClearIPv4 IPsBuilder.New))) = [1; 2]
  ∧ sequential_ids
      (IPv4 (IPsBuilder.AddIPv4 "203.0.113.20" "203.0.113.1" "255.255.255.0"
               true (IPsBuilder.ClearIPv4 IPsBuilder.New))).
Proof.
  split; [reflexivity|].
  assert (Hlen : Z.of_nat (length (IPv4 (IPsBuilder.ClearIPv4 IPsBuilder.New)))
                 < GoInt.MaxInt) by (vm_compute; reflexivity).
  assert (Hseq : sequential_ids (IPv4 (IPsBuilder.ClearIPv4 IPsBuilder.New)))
    by (intros i e He; by cbn in He).
  destruct (add_ipv4_numbers_by_position (IPsBuilder.ClearIPv4 IPsBuilder.New)
              "203.0.113.20" "203.0.113.1" "255.255.255.0" true Hlen Hseq)
    as [Hnew _].
  exact Hnew.
Defined.

(** X20: TestIPs builds almost the allocation GetIPs makes up for a server
    without a stored one: the IPv4 entries are equal and the IPv6 entries
    hold the same address, but TestIPs numbers its IPv6 entry 1 where
    GetIPs numbers it 2, so the two allocations differ. *)
Theorem test_ips_against_default (serverID : Z) :
  IPv4 (TestIPs serverID) = IPv4 (default_IPs serverID)
  ∧ IP_IP <$> IPv6 (TestIPs serverID) = IP_IP <$> IPv6 (default_IPs serverID)
  ∧ IP_ID <$> IPv6 (TestIPs serverID) = [1]
  ∧ IP_ID <$> IPv6 (default_IPs serverID) = [2]
  ∧ TestIPs serverID ≠ default_IPs serverID.
Proof. repeat split. intros Heq. by inversion Heq. Qed.

(** * Provider configuration, further *)

Lemma diag_eqb_is_error a b :
  diag.eqb a b = true → diag.is_error a = diag.is_error b.
Proof.
  unfold diag.eqb, diag.is_error.
  by destruct (diag.severity a), (diag.severity b).
Qed.

Lemma HasError_app l1 l2 :
  diag.HasError (l1 ++ l2) = diag.HasError l1 || diag.HasError l2.
Proof. unfold diag.HasError. apply existsb_app. Qed.

Lemma existsb_eqb_is_error dg diags :
  existsb (diag.eqb dg) diags = true → diag.is_error dg = true →
  diag.HasError diags = true.
Proof.
  intros Hin Herr. apply existsb_exists in Hin as (x & Hx & Heq).
  apply existsb_exists. exists x. split; [exact Hx|].
  by rewrite <- (diag_eqb_is_error _ _ Heq).
Qed.

Lemma HasError_cons dg l :
  diag.HasError (dg :: l) = diag.is_error dg || diag.HasError l.
Proof. reflexivity. Qed.

Lemma HasError_Append new : ∀ diags,
  diag.HasError (diag.Append diags new)
  = diag.HasError diags || diag.HasError new.
Proof.
  induction new as [|dg new IH]; intros diags; cbn [diag.Append].
  - change (diag.HasError []) with false. by rewrite orb_false_r.
  - rewrite HasError_cons.
    destruct (existsb (diag.eqb dg) diags) eqn:Hin; rewrite IH.
    + destruct (diag.is_error dg) eqn:Herr; [|done].
      by rewrite (existsb_eqb_is_error _ _ Hin Herr).
    + rewrite HasError_app, HasError_cons.
      change (diag.HasError []) with false.
      by rewrite orb_false_r, orb_assoc.
Qed.

(** X21: When decoding the configuration reports an error, the framework
    provider stops there: it hands out no client and adds no diagnostic of
    its own, even if a key is configured.  When decoding reports warnings
    only, a configured key still yields the client. *)
Theorem framework_stops_on_decode_error
    (config : Framework.FrameworkProviderModel)
    (decode_diags : list diag.Diagnostic) :
  (diag.HasError decode_diags = true →
   Framework.Configure (Framework.mkRequest (config, decode_diags))
     Framework.empty_response
   = Framework.mkResponse None None (diag.Append [] decode_diags))
  ∧ (diag.HasError decode_diags = false →
     ∀ k, Framework.ApiKey config = Framework.StringValue k → k ≠ "" →
     ∃ client,
       Framework.Configure (Framework.mkRequest (config, decode_diags))
         Framework.empty_response
       = Framework.mkResponse (Some client) (Some client)
           (diag.Append [] decode_diags)).
Proof.
  split.
  - intros Herr. unfold Framework.Configure. cbn.
    by rewrite HasError_Append, Herr.
  - intros Herr k Hkey Hk. unfold Framework.Configure. cbn.
    rewrite HasError_Append, Herr, Hkey. cbn.
    apply String.eqb_neq in Hk. rewrite Hk. by eexists.
Qed.

Lemma framework_stops_on_decode_error_witness :
  Framework.Configure
    (Framework.mkRequest
       (Framework.mkModel (Framework.StringValue "test-api-key")
          Framework.StringNull,
        [diag.mkDiagnostic diag.Error "Value Conversion Error" "bad type"]))
    Framework.empty_response
  = Framework.mkResponse None None
      [diag.mkDiagnostic diag.Error "Value Conversion Error" "bad type"].
Proof.
  destruct (framework_stops_on_decode_error
              (Framework.mkModel (Framework.StringValue "test-api-key")
                 Framework.StringNull)
              [diag.mkDiagnostic diag.Error "Value Conversion Error" "bad type"])
    as [Hstop _].
  exact (Hstop eq_refl).
Defined.

(** X22: With the environment variable unset the two providers decide alike on
    every configuration block: both hand out the same client or none, and
    when they refuse they report one error with the same summary.  The
    detail texts differ: the legacy one breaks the line after
    "environment". *)
Theorem providers_agree_without_environment (api_key api_url : option string) :
  let legacy := SDK.providerConfigure (SDK.mkResourceData api_key api_url "") in
  let framework :=
    Framework.Configure
      (Framework.mkRequest
         (Framework.mkModel (as_framework_string api_key)
            (as_framework_string api_url), []))
      Framework.empty_response in
  Framework.ResourceData framework = legacy.1
  ∧ Framework.DataSourceData framework = legacy.1
  ∧ diag.Summary <$> Framework.Diagnostics framework = diag.Summary <$> legacy.2
  ∧ diag.severity <$> Framework.Diagnostics framework
    = diag.severity <$> legacy.2
  ∧ (legacy.1 = None →
     diag.Detail <$> Framework.Diagnostics framework ≠ diag.Detail <$> legacy.2).
Proof.
  unfold SDK.providerConfigure, Framework.Configure. cbn.
  destruct api_key as [[|c k]|]; cbn;
    try (repeat split; discriminate);
    destruct api_url as [[|c' u]|]; cbn; repeat split; discriminate.
Qed.

Lemma providers_agree_without_environment_witness :
  Framework.ResourceData
    (Framework.Configure
       (Framework.mkRequest
          (Framework.mkModel (Framework.StringValue "k")
             (Framework.StringValue "https://u"), []))
       Framework.empty_response)
  = Some (gona.NewClientCustom "k" "https://u")
  ∧ (SDK.providerConfigure (SDK.mkResourceData (Some "k") (Some "https://u") "")).1
    = Some (gona.NewClientCustom "k" "https://u").
Proof.
  destruct (providers_agree_without_environment (Some "k") (Some "https://u"))
    as [Hsame _].
  split; [reflexivity|]. rewrite <- Hsame. reflexivity.
Defined.

(** * The hostname pattern *)

(** The cases of TestHostnameRegex, with the verdict the test records for
    the pattern without [^]. *)
Example test_hostname_pattern_table :
  forallb (λ '(hostname, verdict),
             Bool.eqb (Regexp.MatchString hostname_pattern hostname) verdict)
    [ ("a", true); ("z", true); ("0", true); ("9", true); ("example", true);
      ("server1", true); ("web-server", true); ("my-server-123", true);
      ("a1b2c3", true); ("example.com", true); ("www.example.com", true);
      ("api.v1.example.com", true); ("my-server.example.com", true);
      ("server1.dc2.example.com", true); ("a.b.c.d.e.f.g", true);
      ("1.2.3.4", true); ("web-01.prod-us-east-1.example.com", true);
      ("-server", true); ("-example.com", true);
      ("server.-example.com", true); ("server-", false);
      ("example-.com", true); ("server.example-.com", true);
      (".example", true); ("example.", false); (".example.com", true);
      ("example.com.", false); ("example..com", true);
      ("server..example.com", true); ("example_com", true);
      ("example@com", true); ("example#com", true); ("example com", true);
      ("example/com", true); ("", false); ("a.b", true); ("a.b.c", true);
      ("a-b", true); ("a-b-c", true); ("1-2-3", true); ("a--b", true);
      ("terraform.example.com", true);
      ("prod-web-01.us-east-1.example.com", true);
      ("db-master-001.internal.example.com", true);
      ("k8s-worker-node-42.cluster.local", true) ] = true.
Proof. vm_compute. reflexivity. Qed.

(** The cases of the later TestHostnameRegex, for the pattern with [^]. *)
Example test_hostnameRegex_table :
  forallb (λ '(hostname, verdict),
             Bool.eqb (Regexp.MatchString hostnameRegex hostname) verdict)
    [ ("a", true); ("z", true); ("0", true); ("9", true); ("example", true);
      ("server1", true); ("web-server", true); ("my-server-123", true);
      ("a1b2c3", true); ("example.com", true); ("www.example.com", true);
      ("api.v1.example.com", true); ("my-server.example.com", true);
      ("server1.dc2.example.com", true); ("a.b.c.d.e.f.g", true);
      ("1.2.3.4", true); ("web-01.prod-us-east-1.example.com", true);
      ("-server", false); ("-example.com", false);
      ("server.-example.com", false); ("server-", false);
      ("example-.com", false); ("server.example-.com", false);
      (".example", false); ("example.", false); (".example.com", false);
      ("example.com.", false); ("example..com", false);
      ("server..example.com", false); ("example_com", false);
      ("example@com", false); ("example#com", false); ("example com", false);
      ("example/com", false); ("", false); ("a.b", true); ("a.b.c", true);
      ("a-b", true); ("a-b-c", true); ("1-2-3", true); ("a--b", true);
      ("terraform.example.com", true);
      ("prod-web-01.us-east-1.example.com", true);
      ("db-master-001.internal.example.com", true);
      ("k8s-worker-node-42.cluster.local", true) ] = true.
Proof. vm_compute. reflexivity. Qed.

Example test_valid_hostname_table :
  forallb (λ '(hostname, verdict), Bool.eqb (valid_hostname hostname) verdict)
    [ ("a", true); ("example.com", true); ("my-server-123.example.com", true);
      ("a--b", true); ("-server", false); ("server-", false);
      (".example", false); ("example.", false); ("example..com", false);
      ("example_com", false); ("", false) ] = true.
Proof. vm_compute. reflexivity. Qed.

(** ** Matching by derivatives is matching *)

Section RegexpFacts.

Import Regexp.

Lemma lang_Void s : ¬ lang Void s.
Proof. intros H. inversion H. Qed.

Lemma lang_Eps_inv s : lang Eps s → s = [].
Proof. intros H. by inversion H. Qed.

Lemma lang_Cat_inv a b s :
  lang (Cat a b) s → ∃ u v, s = u ++ v ∧ lang a u ∧ lang b v.
Proof. intros H. inversion H; subst. by eexists _, _. Qed.

Lemma lang_Alt_inv a b s : lang (Alt a b) s → lang a s ∨ lang b s.
Proof. intros H. inversion H; subst; [by left | by right]. Qed.

Lemma lang_Chr_inv class s :
  lang (Chr class) s → ∃ c, s = [c] ∧ class c = true.
Proof. intros H. inversion H; subst. by eexists. Qed.

Lemma nullable_lang r : nullable r = true ↔ lang r [].
Proof.
  induction r as [| |class|a IHa b IHb|a IHa b IHb|a IHa]; cbn.
  - split; [discriminate | intros H; by apply lang_Void in H].
  - split; [constructor | done].
  - split; [discriminate | intros H; inversion H].
  - rewrite andb_true_iff, IHa, IHb. split.
    + intros [Ha Hb]. by apply (lang_Cat a b [] []).
    + intros H. apply lang_Cat_inv in H as (u & v & Huv & Ha & Hb).
      symmetry in Huv. apply app_eq_nil in Huv as [-> ->]. by split.
  - rewrite orb_true_iff, IHa, IHb. split.
    + intros [H|H]; [by apply lang_Alt_l | by apply lang_Alt_r].
    + apply lang_Alt_inv.
  - split; [constructor | done].
Qed.

Lemma lang_alt a b s : lang (alt a b) s ↔ lang (Alt a b) s.
Proof.
  split.
  - intros H. destruct a, b; cbn in H;
      first [ by apply lang_Void in H
            | by apply lang_Alt_l | by apply lang_Alt_r | exact H ].
  - intros H. apply lang_Alt_inv in H as [H|H];
      destruct a, b; cbn;
      first [ by apply lang_Void in H
            | exact H | by apply lang_Alt_l | by apply lang_Alt_r ].
Qed.

Lemma lang_cat a b s : lang (cat a b) s ↔ lang (Cat a b) s.
Proof.
  split.
  - intros H. destruct a, b; cbn in H;
      first [ by apply lang_Void in H
            | exact H
            | by apply (lang_Cat Eps _ [] s); [constructor|] ].
  - intros H. apply lang_Cat_inv in H as (u & v & -> & Ha & Hb).
    destruct a, b; cbn;
      first [ by apply lang_Void in Ha | by apply lang_Void in Hb
            | by apply lang_Cat
            | by apply lang_Eps_inv in Ha as -> ].
Qed.

Lemma lang_Star_cons_inv a c s :
  lang (Star a) (c :: s) →
  ∃ u v, s = u ++ v ∧ lang a (c :: u) ∧ lang (Star a) v.
Proof.
  intros H. remember (Star a) as r eqn:Hr. remember (c :: s) as w eqn:Hw.
  revert s Hw.
  induction H as [| | | | | |a' u v Hu _ Hv IHv]; try discriminate.
  injection Hr as ->. intros s Hw.
  destruct u as [|c' u].
  - cbn in Hw. by apply IHv.
  - cbn in Hw. injection Hw as -> <-. by exists u, v.
Qed.

Lemma deriv_lang c r : ∀ s, lang (deriv c r) s ↔ lang r (c :: s).
Proof.
  induction r as [| |class|a IHa b IHb|a IHa b IHb|a IHa]; intros s; cbn.
  - split; intros H; inversion H.
  - split; intros H; inversion H.
  - destruct (class c) eqn:Hc; split; intros H.
    + apply lang_Eps_inv in H as ->. by constructor.
    + apply lang_Chr_inv in H as (c' & [= <- ->] & _). constructor.
    + inversion H.
    + apply lang_Chr_inv in H as (c' & [= <- ->] & Hc'). congruence.
  - rewrite lang_alt. split.
    + intros H. apply lang_Alt_inv in H as [H|H].
      * apply lang_cat, lang_Cat_inv in H as (u & v & -> & Hu & Hv).
        apply IHa in Hu. by apply (lang_Cat a b (c :: u) v).
      * destruct (nullable a) eqn:Hnull; [|inversion H].
        apply nullable_lang in Hnull. apply IHb in H.
        by apply (lang_Cat a b [] (c :: s)).
    + intros H. apply lang_Cat_inv in H as (u & v & Huv & Hu & Hv).
      destruct u as [|c' u]; cbn in Huv.
      * subst v. apply lang_Alt_r. apply nullable_lang in Hu. rewrite Hu.
        by apply IHb.
      * injection Huv as <- ->. apply lang_Alt_l, lang_cat.
        apply lang_Cat; [by apply IHa | done].
  - rewrite lang_alt. split.
    + intros H. apply lang_Alt_inv in H as [H|H];
        [apply lang_Alt_l, IHa | apply lang_Alt_r, IHb]; done.
    + intros H. apply lang_Alt_inv in H as [H|H];
        [apply lang_Alt_l, IHa | apply lang_Alt_r, IHb]; done.
  - rewrite lang_cat. split.
    + intros H. apply lang_Cat_inv in H as (u & v & -> & Hu & Hv).
      apply IHa in Hu. by apply (lang_Star_cons a (c :: u) v).
    + intros H. apply lang_Star_cons_inv in H as (u & v & -> & Hu & Hv).
      apply lang_Cat; [by apply IHa | done].
Qed.

Lemma matches_lang s : ∀ r, matches r s = true ↔ lang r s.
Proof.
  induction s as [|c s IH]; intros r; cbn.
  - apply nullable_lang.
  - rewrite IH. apply deriv_lang.
Qed.

Lemma matches_somewhere_split p s :
  matches_somewhere p s = true
  ↔ ∃ skipped rest, s = skipped ++ rest ∧ matches_here p rest = true.
Proof.
  induction s as [|c s IH]; cbn.
  - rewrite orb_false_r. split.
    + intros H. by exists [], [].
    + intros (skipped & rest & Hs & H). symmetry in Hs.
      by apply app_eq_nil in Hs as [-> ->].
  - rewrite orb_true_iff, IH. split.
    + intros [H | (skipped & rest & -> & H)].
      * by exists [], (c :: s).
      * by exists (c :: skipped), rest.
    + intros (skipped & rest & Hs & H). destruct skipped as [|c' skipped].
      * cbn in Hs. subst rest. by left.
      * injection Hs as <- ->. right. by exists skipped, rest.
Qed.

End RegexpFacts.

(** ** What the two hostname patterns accept *)

Lemma list_ascii_of_string_app a b :
  list_ascii_of_string (a +:+ b)
  = list_ascii_of_string a ++ list_ascii_of_string b.
Proof.
  induction a as [|c a IH]; [done|].
  change (String c a +:+ b) with (String c (a +:+ b)).
  cbn [list_ascii_of_string app]. by rewrite IH.
Qed.

Lemma alnum_is_alnum_dash c : alnum c = true → alnum_dash c = true.
Proof. unfold alnum, alnum_dash. intros ->. reflexivity. Qed.

Lemma alnum_dash_not_dot c : alnum_dash c = true → dot c = false.
Proof.
  intros Hc. destruct (dot c) eqn:Hdot; [|done].
  unfold dot in Hdot. apply Ascii.eqb_eq in Hdot. subst c. discriminate.
Qed.

Lemma lang_star_class class s :
  Regexp.lang (Regexp.Star (Regexp.Chr class)) s ↔ forallb class s = true.
Proof.
  split.
  - intros H. remember (Regexp.Star (Regexp.Chr class)) as r eqn:Hr.
    induction H as [| | | | | |a u v Hu _ Hv IHv]; try discriminate; [done|].
    injection Hr as ->. apply lang_Chr_inv in Hu as (c & -> & Hc).
    cbn. by rewrite Hc, IHv.
  - induction s as [|c s IH]; cbn; [constructor|].
    intros [Hc Hs]%andb_true_iff.
    apply (Regexp.lang_Star_cons _ [c] s); [by constructor | by apply IH].
Qed.

Lemma lang_label_valid l : Regexp.lang label l ↔ valid_label l = true.
Proof.
  split.
  - intros H. apply lang_Alt_inv in H as [H|H].
    + apply lang_Chr_inv in H as (c & -> & Hc). cbn.
      by rewrite Hc, (alnum_is_alnum_dash _ Hc).
    + apply lang_Cat_inv in H as (u & v & -> & Hu & Hv).
      apply lang_Chr_inv in Hu as (first & -> & Hfirst).
      apply lang_Cat_inv in Hv as (mid & w & -> & Hmid & Hw).
      apply lang_Chr_inv in Hw as (final & -> & Hfinal).
      apply lang_star_class in Hmid.
      cbn [app valid_label]. rewrite Hfirst. cbn [andb].
      rewrite app_comm_cons, last_last, Hfinal, andb_true_r.
      rewrite forallb_app. cbn.
      by rewrite (alnum_is_alnum_dash _ Hfirst), Hmid,
        (alnum_is_alnum_dash _ Hfinal).
  - destruct l as [|first rest]; [discriminate|].
    induction rest as [|final mid _] using rev_ind.
    + cbn. rewrite !andb_true_iff. intros [[Hfirst _] _].
      apply Regexp.lang_Alt_l. by constructor.
    + cbn [valid_label]. rewrite app_comm_cons, last_last.
      rewrite forallb_app, !andb_true_iff. cbn.
      rewrite !andb_true_iff. intros [[Hfirst [[_ Hmid] _]] Hfinal].
      apply Regexp.lang_Alt_r.
      apply (Regexp.lang_Cat _ _ [first] (mid ++ [final])); [by constructor|].
      apply Regexp.lang_Cat; [by apply lang_star_class | by constructor].
Qed.

Lemma valid_label_no_dot l :
  valid_label l = true → forallb (λ c, negb (dot c)) l = true.
Proof.
  destruct l as [|first rest]; [discriminate|].
  cbn [valid_label]. rewrite !andb_true_iff. intros [[_ Hall] _].
  revert Hall. generalize (first :: rest). intros l Hall.
  induction l as [|c l IH]; [done|]. cbn in *.
  apply andb_true_iff in Hall as [Hc Hl].
  by rewrite (alnum_dash_not_dot _ Hc), IH.
Qed.

Lemma labels_no_dot l :
  forallb (λ c, negb (dot c)) l = true → labels l = [l].
Proof.
  induction l as [|c l IH]; [done|]. cbn.
  intros [Hc Hl]%andb_true_iff. apply negb_true_iff in Hc.
  by rewrite Hc, (IH Hl).
Qed.

Lemma labels_app_dot l d rest :
  forallb (λ c, negb (dot c)) l = true → dot d = true →
  labels (l ++ d :: rest) = l :: labels rest.
Proof.
  intros Hl Hd. induction l as [|c l IH]; cbn.
  - by rewrite Hd.
  - cbn in Hl. apply andb_true_iff in Hl as [Hc Hl].
    apply negb_true_iff in Hc. by rewrite Hc, (IH Hl).
Qed.

(** A text has no dot, or splits at its first dot. *)
Lemma labels_cases s :
  (forallb (λ c, negb (dot c)) s = true ∧ labels s = [s])
  ∨ ∃ l d rest,
      s = l ++ d :: rest ∧ forallb (λ c, negb (dot c)) l = true
      ∧ dot d = true ∧ labels s = l :: labels rest.
Proof.
  induction s as [|c s IH]; [by left|].
  destruct (dot c) eqn:Hc.
  - right. exists [], c, s. cbn. by rewrite Hc.
  - destruct IH as [[Hs Hlabels] | (l & d & rest & -> & Hl & Hd & Hlabels)].
    + left. assert (Hall : forallb (λ c, negb (dot c)) (c :: s) = true)
        by (cbn; by rewrite Hc, Hs).
      split; [exact Hall | by apply labels_no_dot].
    + right. exists (c :: l), d, rest.
      assert (Hall : forallb (λ c, negb (dot c)) (c :: l) = true)
        by (cbn; by rewrite Hc, Hl).
      repeat split; try done.
      by apply (labels_app_dot (c :: l)).
Qed.

Lemma lang_dotted_then_label u :
  Regexp.lang (Regexp.Star (Regexp.Cat label (Regexp.Chr dot))) u →
  ∀ v, Regexp.lang label v → forallb valid_label (labels (u ++ v)) = true.
Proof.
  intros H.
  remember (Regexp.Star (Regexp.Cat label (Regexp.Chr dot))) as r eqn:Hr.
  induction H as [| | | | | |a piece t Hpiece _ Ht IHt]; try discriminate.
  - intros v Hv. apply lang_label_valid in Hv. cbn [app].
    rewrite (labels_no_dot _ (valid_label_no_dot _ Hv)). cbn.
    by rewrite Hv.
  - injection Hr as ->. intros v Hv.
    apply lang_Cat_inv in Hpiece as (l & w & -> & Hl & Hw).
    apply lang_Chr_inv in Hw as (d & -> & Hd).
    apply lang_label_valid in Hl.
    rewrite <- !app_assoc. cbn [app].
    rewrite (labels_app_dot _ _ _ (valid_label_no_dot _ Hl) Hd). cbn.
    by rewrite Hl, (IHt eq_refl v Hv).
Qed.

Lemma valid_labels_lang (n : nat) : ∀ s,
  (length s <= n)%nat → forallb valid_label (labels s) = true →
  Regexp.lang hostname_body s.
Proof.
  induction n as [|n IH]; intros s Hlen Hvalid.
  - destruct s; [discriminate | cbn in Hlen; lia].
  - destruct (labels_cases s)
      as [[_ Hlabels] | (l & d & rest & -> & Hl & Hd & Hlabels)];
      rewrite Hlabels in Hvalid; cbn in Hvalid.
    + rewrite andb_true_r in Hvalid. apply lang_label_valid in Hvalid.
      apply (Regexp.lang_Cat _ _ [] s); [constructor | exact Hvalid].
    + apply andb_true_iff in Hvalid as [Hvl Hrest].
      apply lang_label_valid in Hvl.
      rewrite length_app in Hlen. cbn in Hlen.
      apply IH in Hrest; [|lia].
      apply lang_Cat_inv in Hrest as (u & v & -> & Hu & Hv).
      replace (l ++ d :: u ++ v) with (((l ++ [d]) ++ u) ++ v)
        by (rewrite <- !app_assoc; reflexivity).
      apply Regexp.lang_Cat; [|exact Hv].
      apply Regexp.lang_Star_cons; [|exact Hu].
      apply Regexp.lang_Cat; [exact Hvl | by constructor].
Qed.

Lemma lang_hostname_body_valid s :
  Regexp.lang hostname_body s ↔ forallb valid_label (labels s) = true.
Proof.
  split.
  - intros H. apply lang_Cat_inv in H as (u & v & -> & Hu & Hv).
    by apply lang_dotted_then_label.
  - by apply (valid_labels_lang (length s)).
Qed.

(** X23: With the leading [^], the pattern accepts exactly the texts whose
    pieces between dots are all labels: non-empty runs of letters, digits
    and hyphens that begin and end with a letter or digit.  Whatever it
    accepts, the pattern without [^] accepts too. *)
Theorem hostnameRegex_accepts_valid_hostnames (s : string) :
  Regexp.MatchString hostnameRegex s = valid_hostname s
  ∧ (Regexp.MatchString hostnameRegex s = true →
     Regexp.MatchString hostname_pattern s = true).
Proof.
  split.
  - apply eq_true_iff_eq. unfold Regexp.MatchString, valid_hostname. cbn.
    rewrite matches_lang. apply lang_hostname_body_valid.
  - unfold Regexp.MatchString. cbn. intros H.
    apply matches_somewhere_split. by exists [], (list_ascii_of_string s).
Qed.

Lemma lang_hostname_body_last s :
  Regexp.lang hostname_body s → ∃ front c, s = front ++ [c] ∧ alnum c = true.
Proof.
  intros H. apply lang_Cat_inv in H as (u & v & -> & _ & Hv).
  apply lang_Alt_inv in Hv as [Hv|Hv].
  - apply lang_Chr_inv in Hv as (c & -> & Hc). by exists u, c.
  - apply lang_Cat_inv in Hv as (first & w & -> & _ & Hw).
    apply lang_Cat_inv in Hw as (mid & final & -> & _ & Hfinal).
    apply lang_Chr_inv in Hfinal as (c & -> & Hc).
    exists (u ++ first ++ mid), c. by rewrite <- !app_assoc.
Qed.

(** X24: Without the leading [^] the pattern only looks at the end of the text:
    it accepts a hostname exactly when its last character is a letter or a
    digit, whatever comes before. *)
Theorem hostname_pattern_checks_last_character (s : string) :
  Regexp.MatchString hostname_pattern s = true
  ↔ ∃ front c, s = front +:+ String c "" ∧ alnum c = true.
Proof.
  unfold Regexp.MatchString. cbn [Regexp.begin_text hostname_pattern].
  rewrite matches_somewhere_split. split.
  - intros (skipped & rest & Hs & Hrest). cbn in Hrest.
    apply matches_lang, lang_hostname_body_last in Hrest
      as (front & c & -> & Hc).
    exists (string_of_list_ascii (skipped ++ front)), c. split; [|exact Hc].
    rewrite <- (string_of_list_ascii_of_string s), Hs.
    rewrite <- (string_of_list_ascii_of_string
                  (string_of_list_ascii (skipped ++ front) +:+ String c "")).
    rewrite list_ascii_of_string_app, list_ascii_of_string_of_list_ascii.
    cbn. by rewrite <- app_assoc.
  - intros (front & c & -> & Hc).
    exists (list_ascii_of_string front), [c].
    split; [by rewrite list_ascii_of_string_app|].
    unfold Regexp.matches_here.
    cbn [Regexp.end_text Regexp.body hostname_pattern].
    apply matches_lang. apply (Regexp.lang_Cat _ _ [] [c]); [constructor|].
    apply Regexp.lang_Alt_l. by constructor.
Qed.

(** A text with characters no hostname may hold still passes the pattern
    without [^], and fails the one with it. *)
Example hostname_pattern_lets_through :
  Regexp.MatchString hostname_pattern "not a host!/..-x" = true
  ∧ Regexp.MatchString hostnameRegex "not a host!/..-x" = false.
Proof. by vm_compute. Qed.

Lemma hostnameRegex_accepts_valid_hostnames_witness :
  Regexp.MatchString hostname_pattern "web-01.example.com" = true.
Proof.
  destruct (hostnameRegex_accepts_valid_hostnames "web-01.example.com")
    as [_ Hnarrow].
  apply Hnarrow. by vm_compute.
Defined.

Lemma hostname_pattern_checks_last_character_witness :
  Regexp.MatchString hostname_pattern "example_com" = true.
Proof.
  apply (proj2 (hostname_pattern_checks_last_character "example_com")).
  exists "example_co", "m"%char. split; reflexivity.
Defined.

Lemma stored_records_carry_their_id_witness :
  let l := [ Help (HAddServer (mkServer 999 "custom.example.com" "" 0 "" "" 0
                                 "" "" "" "" 0 "RUNNING" "" 0 ""));
             Inject FieldBuildServerError (Some (errorString "test error"));
             Call (OpBuildServer 999
                     (mkBuildServerRequest 1 1 "b.example.com" "" ""));
             Inject FieldBuildServerError None;
             Call (OpBuildServer 999
                     (mkBuildServerRequest 1 1 "c.example.com" "" ""));
             Call (OpDeleteServer 999 true) ] in
  ∃ s, servers (steps l NewFakeClient) !! 999 = Some s
       ∧ Server_Name s = "c.example.com"
       ∧ Server_ID s = 999.
Proof.
  intros l.
  assert (Hs : ∃ s, servers (steps l NewFakeClient) !! 999 = Some s
                    ∧ Server_Name s = "c.example.com")
    by (eexists; by vm_compute).
  destruct Hs as (s & Hs & Hname). exists s. split; [exact Hs|].
  split; [exact Hname|].
  destruct (stored_records_carry_their_id l 999) as [Hservers _].
  exact (Hservers s Hs).
Defined.
